(** * MLOps notebooks for a managed ML platform: the preprocessing script,
      the traffic-generation worker, the synthetic ground truth and the
      calls that touch the remote platform.

    The notebooks live in [src/]; each section below names the cell it
    embeds.  Python values are modelled as follows:
    - a [pandas.DataFrame] is a list of named columns, each column either
      numeric or of dtype [object] (strings);
    - a Python [float] is a binary64 number, written as a dyadic
      [mant * 2 ^ expo] with the rounding of each operation written out;
    - a call into the platform SDK is a function on an explicit model of
      the remote state that returns either a value or an exception. *)

From Stdlib Require Import ZArith List String Ascii Bool Lia Permutation.
From Stdlib Require Import DecimalString DecimalPos DecimalZ Floats Uint63 Sorted.
From Stdlib Require OrderedTypeEx.
From stdpp Require Import base gmap strings.
Import ListNotations.

Local Open Scope Z_scope.

#[local] Set Warnings "-register-all".
#[local] Arguments String.append !s1 s2 : simpl nomatch.

(* ===================================================================== *)
(** ** Binary64 arithmetic as used by [int(.7*len(df))] *)
(* ===================================================================== *)

Module Binary64.

(** A finite non-negative binary64 value [mant * 2 ^ expo]. *)
Record dyadic := Dy { mant : Z; expo : Z }.

(** Round to nearest, ties to even, on a 53-bit significand: the rounding
    every binary64 operation applies to its exact result. *)
Definition rnd53 (d : dyadic) : dyadic :=
  if mant d <? 2 ^ 53 then d
  else
    let s := Z.log2 (mant d) - 52 in
    let q := mant d / 2 ^ s in
    let r := mant d mod 2 ^ s in
    let up := (2 ^ s <? 2 * r) || ((2 * r =? 2 ^ s) && Z.odd q) in
    Dy (if up then q + 1 else q) (expo d + s).

(** [float(n)] for a Python int [n >= 0]. *)
Definition of_int (n : Z) : dyadic := rnd53 (Dy n 0).

(** [a * b] on floats. *)
Definition mul (a b : dyadic) : dyadic :=
  rnd53 (Dy (mant a * mant b) (expo a + expo b)).

(** [int(x)] for a float [x >= 0]: truncation. *)
Definition to_int (d : dyadic) : Z :=
  if 0 <=? expo d then mant d * 2 ^ expo d else mant d / 2 ^ (- expo d).

(** [a < b] on floats. *)
Definition ltb (a b : dyadic) : bool :=
  let e := Z.min (expo a) (expo b) in
  mant a * 2 ^ (expo a - e) <? mant b * 2 ^ (expo b - e).

(** The literal [.7] is 0x1.6666666666666p-1. *)
Definition lit_0_7 : dyadic := Dy 6305039478318694 (-53).

(** The literal [.85] is 0x1.b333333333333p-1. *)
Definition lit_0_85 : dyadic := Dy 7656119366529843 (-53).

(** [int(c * n)] for a float literal [c] and an int [n]. *)
Definition int_mul (c : dyadic) (n : Z) : Z := to_int (mul c (of_int n)).

(** The same value as one of the kernel's binary64 floats, to test the
    rounding above against the hardware's. *)
Definition to_prim (d : dyadic) : PrimFloat.float :=
  Z.ldexp (PrimFloat.of_uint63 (Uint63.of_Z (mant d))) (expo d).

Definition agrees_with_prim (c : dyadic) (n : Z) : bool :=
  PrimFloat.eqb
    (to_prim (mul c (of_int n)))
    (PrimFloat.mul (to_prim c) (PrimFloat.of_uint63 (Uint63.of_Z n))).

End Binary64.

(* ===================================================================== *)
(** ** preprocessing.py: [process] and the 70/15/15 split *)
(* ===================================================================== *)

Module Preprocessing.

(** [preprocessing.py] is written out by a cell of the data-preparation
    notebook and, word for word, by a cell of the pipelines notebook
    (src/unnamed/part_001). *)

(** A column of a dataframe: numeric, or of dtype [object].  The script
    looks at a numeric value only to compare it with 999, so the numeric
    values are taken to be integers; missing values are left out. *)
Inductive column :=
| NumCol (vals : list Z)
| ObjCol (vals : list string).

(** A dataframe: its columns in order, each with its label. *)
Definition frame := list (string * column).

Inductive cell :=
| CNum (z : Z)
| CStr (s : string).

Definition col_len (c : column) : nat :=
  match c with
  | NumCol vs => length vs
  | ObjCol vs => length vs
  end.

Definition names (df : frame) : list string := map fst df.

(** [len(df)]. *)
Definition nrows (df : frame) : nat :=
  match df with
  | [] => 0%nat
  | (_, c) :: _ => col_len c
  end.

(** Every column has the same number of rows. *)
Definition wf (df : frame) : Prop :=
  Forall (fun p => col_len (snd p) = nrows df) df.

(** Every column has [n] rows. *)
Definition all_len (n : nat) (df : frame) : Prop :=
  Forall (fun p => col_len (snd p) = n) df.

Definition cell_at (c : column) (i : nat) : cell :=
  match c with
  | NumCol vs => CNum (nth i vs 0)
  | ObjCol vs => CStr (nth i vs EmptyString)
  end.

Definition row_at (df : frame) (i : nat) : list cell :=
  map (fun p => cell_at (snd p) i) df.

(** The rows of a dataframe, top to bottom. *)
Definition rows (df : frame) : list (list cell) :=
  map (row_at df) (seq 0 (nrows df)).

Definition has_name (n : string) (p : string * column) : bool :=
  String.eqb (fst p) n.

Definition mem (n : string) (l : list string) : bool :=
  existsb (String.eqb n) l.

(** [df[name]] for a label that names one column; [None] is [KeyError].
    On a frame in which the label is carried by several columns pandas
    returns a frame and not a column; that case is outside this
    definition, which is used on frames with distinct labels only
    ([List.NoDup (names df)]). *)
Fixpoint col_lookup (n : string) (df : frame) : option column :=
  match df with
  | [] => None
  | (m, c) :: df' => if String.eqb m n then Some c else col_lookup n df'
  end.

(** [df[name] = c]: overwrite the column in place, or append it.  As
    [col_lookup], for frames with distinct labels: where a label is
    repeated pandas assigns every column that carries it. *)
Fixpoint set_column (n : string) (c : column) (df : frame) : frame :=
  match df with
  | [] => [(n, c)]
  | (m, d) :: df' =>
      if String.eqb m n then (m, c) :: df' else (m, d) :: set_column n c df'
  end.

Definition bool_to_int (b : bool) : Z := if b then 1 else 0.

(** [(col == 999).astype(int)]. *)
Definition eq_999 (c : column) : column :=
  match c with
  | NumCol vs => NumCol (map (fun v => bool_to_int (v =? 999)) vs)
  | ObjCol vs => NumCol (map (fun _ => 0) vs)
  end.

Definition not_working_jobs : list string :=
  ["student"; "retired"; "unemployed"]%string.

(** [col.isin(["student", "retired", "unemployed"]).astype(int)]. *)
Definition isin_not_working (c : column) : column :=
  match c with
  | NumCol vs => NumCol (map (fun _ => 0) vs)
  | ObjCol vs => NumCol (map (fun s => bool_to_int (mem s not_working_jobs)) vs)
  end.

Definition toremove : list string :=
  ["emp.var.rate"; "cons.price.idx"; "cons.conf.idx"; "euribor3m";
   "nr.employed"]%string.

(** [df[columns]] for a list of labels: for each label in turn, the
    columns that carry it. *)
Definition select (cols : list string) (df : frame) : frame :=
  flat_map (fun n => List.filter (has_name n) df) cols.

Definition is_num (p : string * column) : bool :=
  match snd p with NumCol _ => true | ObjCol _ => false end.

Definition is_obj (p : string * column) : bool := negb (is_num p).

(** The categories of an [object] column: its distinct values, sorted. *)
Fixpoint insert_level (v : string) (l : list string) : list string :=
  match l with
  | [] => [v]
  | x :: l' =>
      match String.compare v x with
      | Lt => v :: l
      | Eq => l
      | Gt => x :: insert_level v l'
      end
  end.

Definition levels (vs : list string) : list string :=
  fold_right insert_level [] vs.

Definition dummy_name (col lv : string) : string :=
  (col ++ "_" ++ lv)%string.

Definition indicator (lv : string) (vs : list string) : column :=
  NumCol (map (fun v => bool_to_int (String.eqb v lv)) vs).

(** The indicator columns of one [object] column, one per category. *)
Definition dummies_1d (p : string * column) : frame :=
  match snd p with
  | NumCol _ => []
  | ObjCol vs =>
      map (fun lv => (dummy_name (fst p) lv, indicator lv vs)) (levels vs)
  end.

(** [pd.get_dummies(df)]: the columns that are not [object] first, then
    the indicator columns of each [object] column in order. *)
Definition get_dummies (df : frame) : frame :=
  (List.filter is_num df ++ flat_map dummies_1d (List.filter is_obj df))%list.

Definition y_labels : list string := ["y_no"; "y_yes"]%string.

(** [pd.concat([df['y_yes'], df.drop(['y_no', 'y_yes'], axis=1)], axis=1)];
    [None] is the [KeyError] of a missing label. *)
Definition label_first (df : frame) : option frame :=
  if mem "y_yes" (names df) && mem "y_no" (names df) then
    Some (List.filter (has_name "y_yes") df
          ++ List.filter (fun p => negb (mem (fst p) y_labels)) df)%list
  else None.

Definition take_col (perm : list nat) (c : column) : column :=
  match c with
  | NumCol vs => NumCol (map (fun i => nth i vs 0) perm)
  | ObjCol vs => ObjCol (map (fun i => nth i vs EmptyString) perm)
  end.

(** [df.sample(frac=1).reset_index(drop=True)] where [perm] is the order
    the sampler drew: row [j] of the result is row [nth j perm] of [df]. *)
Definition sample_all (perm : list nat) (df : frame) : frame :=
  map (fun p => (fst p, take_col perm (snd p))) df.

(** The frame [process] builds before it shuffles. *)
Definition encode (df : frame) : option frame :=
  match col_lookup "pdays" df with
  | None => None
  | Some pdays =>
      let df1 := set_column "no_previous_contact" (eq_999 pdays) df in
      match col_lookup "job" df1 with
      | None => None
      | Some job =>
          let df2 := set_column "not_working" (isin_not_working job) df1 in
          let columns :=
            List.filter (fun x => negb (mem x toremove)) (names df2) in
          let df3 := select columns df2 in
          Some (get_dummies df3)
      end
  end.

(** [process(df)]. *)
Definition process (perm : list nat) (df : frame) : option frame :=
  match encode df with
  | None => None
  | Some df4 =>
      match label_first df4 with
      | None => None
      | Some df5 => Some (sample_all perm df5)
      end
  end.

Definition slice_col (st en : nat) (c : column) : column :=
  match c with
  | NumCol vs => NumCol (firstn (en - st) (skipn st vs))
  | ObjCol vs => ObjCol (firstn (en - st) (skipn st vs))
  end.

(** [df[st:en]]: a slice of rows. *)
Definition slice_rows (st en : nat) (df : frame) : frame :=
  map (fun p => (fst p, slice_col st en (snd p))) df.

Definition split_at_07 (n : nat) : nat :=
  Z.to_nat (Binary64.int_mul Binary64.lit_0_7 (Z.of_nat n)).

Definition split_at_085 (n : nat) : nat :=
  Z.to_nat (Binary64.int_mul Binary64.lit_0_85 (Z.of_nat n)).

(** [np.split(df, [a, b])]: the slices [df[0:a]], [df[a:b]], [df[b:len(df)]]. *)
Definition np_split (df : frame) (a b : nat) : frame * frame * frame :=
  (slice_rows 0 a df, slice_rows a b df, slice_rows b (nrows df) df).

(** The [__main__] block between reading the CSV and writing the three
    files:
    [train, validation, test =
       np.split(df, [int(.7*len(df)), int(.85*len(df))])]. *)
Definition main (perm : list nat) (df : frame)
  : option (frame * frame * frame) :=
  match process perm df with
  | None => None
  | Some out =>
      Some (np_split out (split_at_07 (nrows out)) (split_at_085 (nrows out)))
  end.

(** The frame once the two indicators are set, and the test that a
    column is not in [toremove]. *)
Definition with_indicators (pdays job : column) (df : frame) : frame :=
  set_column "not_working" (isin_not_working job)
    (set_column "no_previous_contact" (eq_999 pdays) df).

Definition keep_column (p : string * column) : bool :=
  negb (mem (fst p) toremove).

(** The encoded frame in terms of the two columns [process] looked up. *)
Definition encoded_with (pdays job : column) (df : frame) : frame :=
  get_dummies (List.filter keep_column (with_indicators pdays job df)).

(** What the spec says of the two indicators, row by row. *)
Definition no_previous_contact_at (pdays : column) (i : nat) : Z :=
  match cell_at pdays i with
  | CNum v => bool_to_int (v =? 999)
  | CStr _ => 0
  end.

Definition not_working_at (job : column) (i : nat) : Z :=
  match cell_at job i with
  | CNum _ => 0
  | CStr s => bool_to_int (mem s not_working_jobs)
  end.

(** The one-hot indicator of category [lv], row by row. *)
Definition one_hot_at (vs : list string) (lv : string) (i : nat) : Z :=
  bool_to_int (String.eqb (nth i vs EmptyString) lv).

Definition new_columns : list string :=
  ["no_previous_contact"; "not_working"]%string.

(** How often a label occurs among the columns. *)
Definition count_label (n : string) (df : frame) : nat :=
  length (List.filter (has_name n) df).

End Preprocessing.

(* ===================================================================== *)
(** ** Python text helpers *)
(* ===================================================================== *)

Module Py.

Definition nl : ascii := "010"%char.
Definition quote : ascii := "034"%char.

(** [str(n)] for an int. *)
Definition str_int (z : Z) : string := NilZero.string_of_int (Z.to_int z).

(** The lines a text file yields when iterated: each keeps its newline. *)
Fixpoint file_lines (s : string) : list string :=
  match s with
  | EmptyString => []
  | String c s' =>
      if Ascii.eqb c nl then String c EmptyString :: file_lines s'
      else
        match file_lines s' with
        | [] => [String c EmptyString]
        | l :: ls => String c l :: ls
        end
  end.

Definition is_empty (s : string) : bool :=
  match s with EmptyString => true | _ => false end.

(** [s.rstrip("\n")]. *)
Fixpoint rstrip_nl (s : string) : string :=
  match s with
  | EmptyString => EmptyString
  | String c s' =>
      let r := rstrip_nl s' in
      if Ascii.eqb c nl && is_empty r then EmptyString else String c r
  end.

(** [c in s]. *)
Fixpoint contains (c : ascii) (s : string) : bool :=
  match s with
  | EmptyString => false
  | String x s' => Ascii.eqb x c || contains c s'
  end.

(** [sep.join(l)]. *)
Fixpoint join (sep : string) (l : list string) : string :=
  match l with
  | [] => EmptyString
  | [x] => x
  | x :: l' => (x ++ sep ++ join sep l')%string
  end.

(** A two-digit, zero-padded field of [strftime]. *)
Definition pad2 (n : nat) : string :=
  if (n <? 10)%nat then ("0" ++ str_int (Z.of_nat n))%string
  else str_int (Z.of_nat n).

End Py.

(* ===================================================================== *)
(** ** WorkerThread and invoke_endpoint *)
(* ===================================================================== *)

Module Worker.

(** What the worker thread does that is visible from outside. *)
Inductive event :=
| EvIsSet (b : bool)                      (* terminate_event.is_set() *)
| EvInvoke (body inference_id : string)   (* invoke_endpoint(...) *)
| EvRead                                  (* response["Body"].read() *)
| EvSleep (secs : nat).                   (* time.sleep(secs) *)

(** Where the thread is: [WorkerThread.run] around [invoke_endpoint]. *)
Inductive pc :=
| PWhile                                       (* while not is_set(): *)
| PFor (rest : list string) (i : nat)          (* for row in f: *)
| PInvoke (row : string) (rest : list string) (i : nat)
| PRead (rest : list string) (i : nat)
| PSleep (rest : list string) (i : nat)
| PIf (rest : list string) (i : nat)           (* if is_set(): break *)
| PExit.                                       (* run() has returned *)

Section Machine.

(** The text of test-samples-no-header.csv. *)
Variable content : string.

(** One step of the thread when the event reads [flag]. *)
Definition step (flag : bool) (p : pc) : pc * list event :=
  match p with
  | PWhile =>
      if flag then (PExit, [EvIsSet true])
      else (PFor (Py.file_lines content) 0, [EvIsSet false])
  | PFor [] _ => (PWhile, [])
  | PFor (row :: rest) i => (PInvoke row rest i, [])
  | PInvoke row rest i =>
      (PRead rest (S i),
       [EvInvoke (Py.rstrip_nl row) (Py.str_int (Z.of_nat i))])
  | PRead rest i => (PSleep rest i, [EvRead])
  | PSleep rest i => (PIf rest i, [EvSleep 1])
  | PIf rest i =>
      if flag then (PWhile, [EvIsSet true])
      else (PFor rest i, [EvIsSet false])
  | PExit => (PExit, [])
  end.

(** [n] steps from time [t]; [flag t] is what the event reads at time
    [t], as the main thread has left it. *)
Fixpoint run (flag : nat -> bool) (n t : nat) (p : pc) : pc * list event :=
  match n with
  | O => (p, [])
  | S n' =>
      let '(p1, ev) := step (flag t) p in
      let '(p2, evs) := run flag n' (S t) p1 in
      (p2, (ev ++ evs)%list)
  end.

End Machine.

Definition is_invoke (e : event) : bool :=
  match e with EvInvoke _ _ => true | _ => false end.

Definition invocations (evs : list event) : nat :=
  length (List.filter is_invoke evs).

(** What one pass over a line does when the event stays clear. *)
Definition line_events (i : nat) (row : string) : list event :=
  [EvInvoke (Py.rstrip_nl row) (Py.str_int (Z.of_nat i));
   EvRead; EvSleep 1; EvIsSet false].

Fixpoint lines_events (i : nat) (rows : list string) : list event :=
  match rows with
  | [] => []
  | row :: rest => (line_events i row ++ lines_events (S i) rest)%list
  end.

End Worker.

(* ===================================================================== *)
(** ** Threads a notebook creates *)
(* ===================================================================== *)

Module Notebook.

(** The statements of a notebook that touch threads. *)
Inductive stmt :=
| SNew (var do_run : string)    (* var = WorkerThread(do_run=...) *)
| SStart (var : string)         (* var.start() *)
| STerminate (var : string).    (* var.terminate() *)

Record thread := Thread {
  th_var : string;
  th_do_run : string;
  th_started : bool;
  th_terminate_event : bool
}.

Definition on_var (v : string) (f : thread -> thread) (ts : list thread)
  : list thread :=
  map (fun t => if String.eqb (th_var t) v then f t else t) ts.

Definition exec_stmt (ts : list thread) (s : stmt) : list thread :=
  match s with
  | SNew v d =>
      (List.filter (fun t => negb (String.eqb (th_var t) v)) ts
       ++ [Thread v d false false])%list
  | SStart v =>
      on_var v (fun t => Thread (th_var t) (th_do_run t) true
                           (th_terminate_event t)) ts
  | STerminate v =>
      on_var v (fun t => Thread (th_var t) (th_do_run t) (th_started t)
                           true) ts
  end.

Definition exec (nb : list stmt) : list thread :=
  fold_left exec_stmt nb [].

Definition started (ts : list thread) : nat :=
  length (List.filter th_started ts).

(** The thread statements of the monitoring notebook of
    src/unnamed/part_000 (data quality). *)
Definition data_quality_nb : list stmt :=
  [SNew "invoke_endpoint_thread" "invoke_endpoint";
   SStart "invoke_endpoint_thread";
   STerminate "invoke_endpoint_thread"]%string.

(** The thread statements of the monitoring notebook of
    src/unnamed/part_002 (its second notebook: model quality). *)
Definition model_quality_nb : list stmt :=
  [SNew "invoke_endpoint_thread" "invoke_endpoint";
   SStart "invoke_endpoint_thread";
   SNew "ground_truth_thread" "generate_fake_ground_truth";
   SStart "ground_truth_thread";
   STerminate "invoke_endpoint_thread";
   STerminate "ground_truth_thread"]%string.

(** The notebooks of the repository, each with its thread statements;
    eight of them have none. *)
Definition notebooks : list (string * list stmt) :=
  [("mlops-roadshow/3-deployment.ipynb", []);
   ("amazon-sagemaker-end-to-end-mlops/sagemaker-lineage.ipynb", []);
   ("amazon-sagemaker-end-to-end-mlops/sagemaker-data-prep.ipynb", []);
   ("unnamed/part_000: model monitoring, data quality", data_quality_nb);
   ("unnamed/part_001: model building pipelines", []);
   ("unnamed/part_001: model registry", []);
   ("unnamed/part_002: train a model and track experiments", []);
   ("unnamed/part_002: model monitoring, model quality", model_quality_nb);
   ("unnamed/part_002: manual to repeatable workflow, pipeline", []);
   ("unnamed/part_002: manual to repeatable workflow, training", [])]%string.

End Notebook.

(* ===================================================================== *)
(** ** json.dumps on the values the notebooks serialise *)
(* ===================================================================== *)

Module Json.

(** A string, a list, or a dict in insertion order. *)
Inductive json :=
| JStr (s : string)
| JArr (elems : list json)
| JObj (fields : list (string * json)).

Definition hex_digit (n : nat) : ascii :=
  nth n ["0"; "1"; "2"; "3"; "4"; "5"; "6"; "7"; "8"; "9";
         "a"; "b"; "c"; "d"; "e"; "f"]%char "0"%char.

Definition backslash : ascii := "092"%char.

Definition esc (c : ascii) : string := String backslash (String c EmptyString).

(** The escape of one ASCII character inside a JSON string. *)
Definition escape_char (c : ascii) : string :=
  let n := nat_of_ascii c in
  if Ascii.eqb c Py.quote then esc Py.quote
  else if Ascii.eqb c backslash then esc backslash
  else if Ascii.eqb c Py.nl then esc "n"
  else if (n =? 13)%nat then esc "r"
  else if (n =? 9)%nat then esc "t"
  else if (n =? 8)%nat then esc "b"
  else if (n =? 12)%nat then esc "f"
  else if (n <? 32)%nat then
    (esc "u" ++ "00" ++ String (hex_digit (n / 16))
                          (String (hex_digit (n mod 16)) EmptyString))%string
  else String c EmptyString.

Fixpoint escape (s : string) : string :=
  match s with
  | EmptyString => EmptyString
  | String c s' => (escape_char c ++ escape s')%string
  end.

Definition dumps_str (s : string) : string :=
  String Py.quote (escape s ++ String Py.quote EmptyString).

(** [json.dumps(v)] with the default separators [", "] and [": "]. *)
Fixpoint dumps (v : json) : string :=
  match v with
  | JStr s => dumps_str s
  | JArr elems =>
      let fix items (l : list json) : list string :=
        match l with
        | [] => []
        | w :: l' => dumps w :: items l'
        end in
      ("[" ++ Py.join ", " (items elems) ++ "]")%string
  | JObj fields =>
      let fix items (l : list (string * json)) : list string :=
        match l with
        | [] => []
        | (k, w) :: l' => (dumps_str k ++ ": " ++ dumps w)%string :: items l'
        end in
      ("{" ++ Py.join ", " (items fields) ++ "}")%string
  end.

End Json.

(* ===================================================================== *)
(** ** ground_truth_with_id and upload_ground_truth *)
(* ===================================================================== *)

Module GroundTruth.
Import Json.

(** [upload_time], a [datetime]. *)
Record datetime := DateTime {
  year : nat; month : nat; day : nat;
  hour : nat; minute : nat; second : nat
}.

(** [f"{t:%Y/%m/%d/%H/%M%S}"] for a four-digit year. *)
Definition strftime_path (t : datetime) : string :=
  (Py.str_int (Z.of_nat (year t)) ++ "/" ++ Py.pad2 (month t) ++ "/"
   ++ Py.pad2 (day t) ++ "/" ++ Py.pad2 (hour t) ++ "/"
   ++ Py.pad2 (minute t) ++ Py.pad2 (second t))%string.

(** [S3Uploader.upload_string_as_file_body(body, uri)]. *)
Record s3_put := S3Put { put_uri : string; put_body : string }.

Section Random.

(** The state of the module-level generator of [random]. *)
Variable rng : Type.
(** [random.seed(a)] for an int [a]: the state it installs. *)
Variable seed : Z -> rng.
(** [random.random()]: the float [k / 2^53] it returns, as [k], and the
    state it leaves. *)
Variable random : rng -> Z * rng.

(** [s3_ground_truth_upload_path]. *)
Variable s3_ground_truth_upload_path : string.

Definition ground_truth_with_id (inference_id : Z) (g : rng) : json * rng :=
  let g1 := seed inference_id in
  let '(k, g2) := random g1 in
  let rand := Binary64.Dy k (-53) in
  (JObj
     [("groundTruthData",
       JObj [("data", JStr (if Binary64.ltb rand Binary64.lit_0_7
                            then "1" else "0"));
             ("encoding", JStr "CSV")]);
      ("eventMetadata",
       JObj [("eventId", JStr (Py.str_int inference_id))]);
      ("eventVersion", JStr "0")]%string,
   g2).

(** [[ground_truth_with_id(i) for i in ids]], threading the generator. *)
Fixpoint records_for (ids : list Z) (g : rng) : list json * rng :=
  match ids with
  | [] => ([], g)
  | i :: ids' =>
      let '(r, g1) := ground_truth_with_id i g in
      let '(rs, g2) := records_for ids' g1 in
      (r :: rs, g2)
  end.

(** [range(180)]. *)
Definition range_180 : list Z := map Z.of_nat (seq 0 180).

(** [upload_ground_truth(upload_time)]: the object it puts, and the
    state it leaves the generator in.  The line it prints is left out. *)
Definition upload_ground_truth (upload_time : datetime) (g : rng)
  : s3_put * rng :=
  let '(records, g1) := records_for range_180 g in
  let fake_records := map dumps records in
  let data_to_upload := Py.join (String Py.nl EmptyString) fake_records in
  let target_s3_uri :=
    (s3_ground_truth_upload_path ++ "/" ++ strftime_path upload_time
     ++ ".jsonl")%string in
  (S3Put target_s3_uri data_to_upload, g1).

End Random.

(** The record the merge container expects, for a label [d] and an event
    id [eid]. *)
Definition merge_record (d eid : string) : json :=
  JObj [("groundTruthData", JObj [("data", JStr d); ("encoding", JStr "CSV")]);
        ("eventMetadata", JObj [("eventId", JStr eid)]);
        ("eventVersion", JStr "0")]%string.

Definition is_label (d : string) : Prop := d = "1"%string \/ d = "0"%string.

(** The same record as one line of text. *)
Definition merge_line (d eid : string) : string :=
  let q := String Py.quote EmptyString in
  ("{" ++ q ++ "groundTruthData" ++ q ++ ": {" ++ q ++ "data" ++ q ++ ": "
   ++ q ++ d ++ q ++ ", " ++ q ++ "encoding" ++ q ++ ": " ++ q ++ "CSV" ++ q
   ++ "}, " ++ q ++ "eventMetadata" ++ q ++ ": {" ++ q ++ "eventId" ++ q
   ++ ": " ++ q ++ eid ++ q ++ "}, " ++ q ++ "eventVersion" ++ q ++ ": "
   ++ q ++ "0" ++ q ++ "}")%string.

(** A generator to run the code on: a linear congruential one. *)
Definition lcg_seed (a : Z) : Z := Z.abs a mod 2 ^ 53.
Definition lcg_random (g : Z) : Z * Z :=
  let g' := (g * 6364136223846793005 + 1442695040888963407) mod 2 ^ 53 in
  (g', g').

End GroundTruth.

(* ===================================================================== *)
(** ** Calls into the platform SDK *)
(* ===================================================================== *)

Module Sdk.

(** The exceptions a client call raises. *)
Inductive exn :=
| EntityAlreadyExists
| ClientError (code : string).

Inductive result (A : Type) :=
| Ok (a : A)
| Raise (e : exn).
Arguments Ok {A} a.
Arguments Raise {A} e.

(** A computation on a remote state [S] that returns or raises. *)
Definition M (S A : Type) : Type := S -> result A * S.

Definition ret {S A} (a : A) : M S A := fun s => (Ok a, s).

Definition raise {S A} (e : exn) : M S A := fun s => (Raise e, s).

Definition bind {S A B} (m : M S A) (k : A -> M S B) : M S B :=
  fun s =>
    match m s with
    | (Ok a, s1) => k a s1
    | (Raise e, s1) => (Raise e, s1)
    end.

(** [try: m  except <handler>]: the handler sees every exception and
    re-raises the ones its clause does not name. *)
Definition catch {S A} (m : M S A) (h : exn -> M S A) : M S A :=
  fun s =>
    match m s with
    | (Ok a, s1) => (Ok a, s1)
    | (Raise e, s1) => h e s1
    end.

Notation "x <- m ;; k" := (bind m (fun x => k))
  (at level 100, m at next level, right associativity).

End Sdk.

(* --------------------------------------------------------------------- *)
(** *** create_lambda_iam_role and the Lambda-creation cell *)

Module Iam.
Import Sdk.

(** The IAM client calls the notebook makes. *)
Class IamClient (S : Type) := {
  create_role : string -> string -> string -> M S string;
      (* RoleName, AssumeRolePolicyDocument, Description; the role's Arn *)
  attach_role_policy : string -> string -> M S unit;
      (* RoleName, PolicyArn *)
  get_role : string -> M S string
      (* RoleName; the role's Arn *)
}.

(** [lambda_function.create()]: the function's Arn. *)
Class LambdaClient (S : Type) := {
  lambda_create : M S string
}.

(** The trust policy [json.dumps] is applied to. *)
Definition assume_role_policy : Json.json :=
  Json.JObj
    [("Version", Json.JStr "2012-10-17");
     ("Statement",
      Json.JArr
        [Json.JObj
           [("Effect", Json.JStr "Allow");
            ("Principal",
             Json.JObj [("Service", Json.JStr "lambda.amazonaws.com")]);
            ("Action", Json.JStr "sts:AssumeRole")]])]%string.

Definition basic_execution_policy : string :=
  "arn:aws:iam::aws:policy/service-role/AWSLambdaBasicExecutionRole".

Definition sagemaker_full_access_policy : string :=
  "arn:aws:iam::aws:policy/AmazonSageMakerFullAccess".

Section Client.
Context {S : Type} `{IamClient S}.

(** The first [try]/[except] of [create_lambda_iam_role]; both of its
    branches return, so the second copy below it in the cell never runs.
    What the function prints is left out. *)
Definition create_lambda_iam_role (role_name : string) : M S string :=
  catch
    (role_arn <- create_role role_name (Json.dumps assume_role_policy)
                   "Role for Lambda to call SageMaker" ;;
     _ <- attach_role_policy role_name basic_execution_policy ;;
     _ <- attach_role_policy role_name sagemaker_full_access_policy ;;
     ret role_arn)
    (fun e =>
       match e with
       | EntityAlreadyExists => arn <- get_role role_name ;; ret arn
       | _ => raise e
       end).

End Client.

(** The cell around [lambda_function.create()]: a bare [except:] prints
    and goes on.  The result is what [lambda_function_arn] is bound to,
    if anything, and the line printed. *)
Definition create_lambda_cell {S : Type} `{LambdaClient S}
  : M S (option string * string) :=
  catch
    (arn <- lambda_create ;;
     ret (Some arn, ("Lambda function arn: " ++ arn)%string))
    (fun _ => ret (None, "Lambda function already exists!"%string)).

(** A model of the IAM service: the roles by name with their Arn, the
    policies attached to each, and whether the caller may write. *)
Record iam_state := IamState {
  roles : gmap string string;
  attached : gmap string (list string);
  may_write : bool
}.

Definition role_arn_of (name : string) : string :=
  ("arn:aws:iam::123456789012:role/" ++ name)%string.

Definition model_create_role (name doc descr : string) : M iam_state string :=
  fun s =>
    if negb (may_write s) then (Raise (ClientError "AccessDenied"), s)
    else
      match roles s !! name with
      | Some _ => (Raise EntityAlreadyExists, s)
      | None =>
          (Ok (role_arn_of name),
           IamState (<[name := role_arn_of name]> (roles s))
                    (<[name := []]> (attached s)) (may_write s))
      end.

Definition model_attach_role_policy (name policy : string)
  : M iam_state unit :=
  fun s =>
    if negb (may_write s) then (Raise (ClientError "AccessDenied"), s)
    else
      match attached s !! name with
      | None => (Raise (ClientError "NoSuchEntity"), s)
      | Some ps =>
          (Ok tt, IamState (roles s) (<[name := policy :: ps]> (attached s))
                           (may_write s))
      end.

Definition model_get_role (name : string) : M iam_state string :=
  fun s =>
    match roles s !! name with
    | Some arn => (Ok arn, s)
    | None => (Raise (ClientError "NoSuchEntity"), s)
    end.

#[export] Instance iam_model : IamClient iam_state := {
  create_role := model_create_role;
  attach_role_policy := model_attach_role_policy;
  get_role := model_get_role
}.

(** A model of the Lambda service: the functions that exist. *)
Definition lambda_state := gmap string string.

Definition lambda_name : string := "sagemaker-pipelines-deploy-model".

Definition model_lambda_create : M lambda_state string :=
  fun s =>
    match s !! lambda_name with
    | Some _ => (Raise (ClientError "ResourceConflictException"), s)
    | None =>
        let arn := ("arn:aws:lambda:function:" ++ lambda_name)%string in
        (Ok arn, <[lambda_name := arn]> s)
    end.

#[export] Instance lambda_model : LambdaClient lambda_state := {
  lambda_create := model_lambda_create
}.

(** A vertex of a lineage query: its Arn, and what
    [to_lineage_object().source.source_uri] returns or raises. *)
Record vertex := Vertex {
  vertex_arn : string;
  vertex_source_uri : result string
}.

(** [for vertex in query_result.vertices:
       try: artifacts.append(vertex.to_lineage_object().source.source_uri)
       except: artifacts.append(vertex.arn)]. *)
Fixpoint lineage_artifacts (vertices : list vertex) : list string :=
  match vertices with
  | [] => []
  | v :: rest =>
      match vertex_source_uri v with
      | Ok uri => uri :: lineage_artifacts rest
      | Raise _ => vertex_arn v :: lineage_artifacts rest
      end
  end.

End Iam.

(* --------------------------------------------------------------------- *)
(** *** Waiting for the endpoint *)

Module Polling.
Import Sdk.

(** [sagemaker_client.describe_endpoint(...)['EndpointStatus']]. *)
Class EndpointClient (S : Type) := {
  describe_endpoint : M S string
}.

(** The sleep a turn of the loop starts with. *)
Definition sleeps_before (response_status : string) : list nat :=
  if String.eqb response_status "None" then [] else [120%nat].

(** [while response_status != 'InService':
       if response_status != 'None': time.sleep(120)
       response_status = describe_endpoint(...)['EndpointStatus']]
    for at most [fuel] turns of the loop.  The result is [None] while the
    loop is still turning; the list holds the sleeps, in seconds. *)
Fixpoint wait_in_service {S : Type} `{EndpointClient S}
         (fuel : nat) (response_status : string) (s : S)
  : option (result unit) * list nat * S :=
  match fuel with
  | O => (None, [], s)
  | Datatypes.S fuel' =>
      if String.eqb response_status "InService" then (Some (Ok tt), [], s)
      else
        let sleeps := sleeps_before response_status in
        match describe_endpoint s with
        | (Raise e, s1) => (Some (Raise e), sleeps, s1)
        | (Ok status, s1) =>
            let '(r, more, s2) := wait_in_service fuel' status s1 in
            (r, (sleeps ++ more)%list, s2)
        end
  end.

(** A model of an endpoint: the statuses the coming calls will report,
    the last one for ever; no status means the endpoint does not exist. *)
Definition model_describe_endpoint : M (list string) string :=
  fun s =>
    match s with
    | [] => (Raise (ClientError "ValidationException"), s)
    | [status] => (Ok status, s)
    | status :: rest => (Ok status, rest)
    end.

#[export] Instance endpoint_model : EndpointClient (list string) := {
  describe_endpoint := model_describe_endpoint
}.

End Polling.

(* --------------------------------------------------------------------- *)
(** *** Model approval and monitoring-schedule cleanup *)

Module Platform.
Import Sdk.

Inductive approval :=
| PendingManualApproval
| Approved
| Rejected.

Inductive schedule_status :=
| Scheduled
| Stopped.

(** A monitoring schedule: the endpoint it watches, its status, and
    whether one of its executions is in progress. *)
Record schedule := Schedule {
  sched_endpoint : string;
  sched_status : schedule_status;
  sched_executing : bool
}.

(** The SageMaker client calls of the approval cell and the cleanup cell. *)
Class SageMakerClient (S : Type) := {
  update_model_package : string -> approval -> M S unit;
      (* ModelPackageArn, ModelApprovalStatus *)
  list_monitors : string -> M S (list string);
      (* the endpoint; the names of its monitoring schedules *)
  stop_monitoring_schedule : string -> M S unit;
  delete_monitoring_schedule : string -> M S unit
}.

Section Client.
Context {S : Type} `{SageMakerClient S}.

(** [sagemaker_client.update_model_package(ModelPackageArn=...,
      ModelApprovalStatus='Approved')]. *)
Definition approve_cell (model_package_arn : string) : M S unit :=
  update_model_package model_package_arn Approved.

(** [for monitor in model_monitors:
       monitor.stop_monitoring_schedule()
       monitor.delete_monitoring_schedule()]. *)
Fixpoint stop_and_delete (model_monitors : list string) : M S unit :=
  match model_monitors with
  | [] => ret tt
  | monitor :: rest =>
      _ <- stop_monitoring_schedule monitor ;;
      _ <- delete_monitoring_schedule monitor ;;
      stop_and_delete rest
  end.

(** The cleanup cell. *)
Definition cleanup_cell (endpoint : string) : M S unit :=
  model_monitors <- list_monitors endpoint ;;
  stop_and_delete model_monitors.

End Client.

(** A model of the service, after what the notebooks say of it: a model
    package carries an approval status that [update_model_package] sets;
    a schedule is stopped, then deleted, and the delete is refused while
    an execution is in progress. *)
Record platform := MkPlatform {
  packages : gmap string approval;
  schedules : gmap string schedule
}.

Definition model_update_model_package (arn : string) (a : approval)
  : M platform unit :=
  fun s =>
    match packages s !! arn with
    | None => (Raise (ClientError "ValidationException"), s)
    | Some _ => (Ok tt, MkPlatform (<[arn := a]> (packages s)) (schedules s))
    end.

Definition watches (endpoint : string) (p : string * schedule) : bool :=
  String.eqb (sched_endpoint (snd p)) endpoint.

Definition model_list_monitors (endpoint : string)
  : M platform (list string) :=
  fun s =>
    (Ok (map fst (List.filter (watches endpoint)
                              (map_to_list (schedules s)))), s).

Definition model_stop_monitoring_schedule (name : string)
  : M platform unit :=
  fun s =>
    match schedules s !! name with
    | None => (Raise (ClientError "ResourceNotFound"), s)
    | Some sc =>
        (Ok tt,
         MkPlatform (packages s)
           (<[name := Schedule (sched_endpoint sc) Stopped
                               (sched_executing sc)]> (schedules s)))
    end.

Definition model_delete_monitoring_schedule (name : string)
  : M platform unit :=
  fun s =>
    match schedules s !! name with
    | None => (Raise (ClientError "ResourceNotFound"), s)
    | Some sc =>
        if sched_executing sc
        then (Raise (ClientError "ValidationException"), s)
        else (Ok tt, MkPlatform (packages s) (delete name (schedules s)))
    end.

#[export] Instance platform_model : SageMakerClient platform := {
  update_model_package := model_update_model_package;
  list_monitors := model_list_monitors;
  stop_monitoring_schedule := model_stop_monitoring_schedule;
  delete_monitoring_schedule := model_delete_monitoring_schedule
}.

End Platform.


(* ===================================================================== *)
(** ** More of Python: exceptions, lists, dicts, text *)
(* ===================================================================== *)

Module PyMore.

(** The exceptions the cells below can end in. *)
Inductive py_exn :=
| KeyError (key : string)
| IndexError
| ValueError
| UnboundLocalError
| ServiceError (e : Sdk.exn).

Inductive outcome (A : Type) :=
| Ret (a : A)
| Exc (e : py_exn).
Arguments Ret {A} a.
Arguments Exc {A} e.

(** [l[-1]]. *)
Definition last_item {A} (l : list A) : outcome A :=
  match rev l with
  | [] => Exc IndexError
  | x :: _ => Ret x
  end.

(** [l[0]]. *)
Definition first_item {A} (l : list A) : outcome A :=
  match l with
  | [] => Exc IndexError
  | x :: _ => Ret x
  end.

(** [l[-k:]]: the last [k] items, all of them when there are fewer. *)
Definition slice_last {A} (k : nat) (l : list A) : list A :=
  skipn (length l - k) l.

(** [l[-k:-1]] for [k >= 1]: from the [k]-th item from the end up to,
    not including, the last one. *)
Definition slice_last_but_one {A} (k : nat) (l : list A) : list A :=
  firstn (length l - 1 - (length l - k)) (skipn (length l - k) l).

(** [s.split("\n")]: the pieces between newlines; never an empty list. *)
Fixpoint split_nl (s : string) : list string :=
  match s with
  | EmptyString => [EmptyString]
  | String c s' =>
      if Ascii.eqb c Py.nl then EmptyString :: split_nl s'
      else
        match split_nl s' with
        | [] => [String c EmptyString]
        | piece :: pieces => String c piece :: pieces
        end
  end.

(** [sorted(l)] on strings: a stable insertion into ascending order. *)
Fixpoint insert_sorted (x : string) (l : list string) : list string :=
  match l with
  | [] => [x]
  | y :: l' =>
      if String.leb x y then x :: l else y :: insert_sorted x l'
  end.

Definition sorted (l : list string) : list string :=
  fold_right insert_sorted [] l.

(** [p] is a prefix of [s]. *)
Fixpoint is_prefix (p s : string) : bool :=
  match p, s with
  | EmptyString, _ => true
  | String a p', String b s' => Ascii.eqb a b && is_prefix p' s'
  | String _ _, EmptyString => false
  end.

(** [p in s] on strings. *)
Fixpoint is_infix (p s : string) : bool :=
  is_prefix p s
  || match s with
     | EmptyString => false
     | String _ s' => is_infix p s'
     end.

End PyMore.

(** A [dict] with string keys: its items in insertion order, each key
    once. *)
Module Dict.
Import PyMore.

Section WithValues.
Context {V : Type}.

Definition dict := list (string * V).

Definition keys (d : dict) : list string := map fst d.

(** [d[k] = v]: the value is replaced where the key stands, or the item
    is appended. *)
Fixpoint set (k : string) (v : V) (d : dict) : dict :=
  match d with
  | [] => [(k, v)]
  | (k', v') :: d' =>
      if String.eqb k' k then (k', v) :: d' else (k', v') :: set k v d'
  end.

Fixpoint get (k : string) (d : dict) : option V :=
  match d with
  | [] => None
  | (k', v') :: d' => if String.eqb k' k then Some v' else get k d'
  end.

(** [d[k]]. *)
Definition item (k : string) (d : dict) : outcome V :=
  match get k d with
  | Some v => Ret v
  | None => Exc (KeyError k)
  end.

Fixpoint remove (k : string) (d : dict) : dict :=
  match d with
  | [] => []
  | (k', v') :: d' =>
      if String.eqb k' k then d' else (k', v') :: remove k d'
  end.

(** [d.pop(k)]: the value, and the dict without the item. *)
Definition pop (k : string) (d : dict) : outcome (V * dict) :=
  match get k d with
  | Some v => Ret (v, remove k d)
  | None => Exc (KeyError k)
  end.

(** [d.update(e)]. *)
Definition update (d e : dict) : dict :=
  fold_left (fun acc kv => set (fst kv) (snd kv) acc) e d.

End WithValues.
Arguments dict V : clear implicits.

End Dict.

(* ===================================================================== *)
(** ** The ground-truth thread: WorkerThread around
       generate_fake_ground_truth *)
(* ===================================================================== *)

Module TruthWorker.

Inductive event :=
| EvIsSet (b : bool)      (* terminate_event.is_set() *)
| EvUpload                (* upload_ground_truth(datetime.utcnow()) *)
| EvSleep (secs : nat).   (* time.sleep(secs) *)

(** Where the thread is; [todo] counts the turns [range(0, 60)] still
    has to give. *)
Inductive pc :=
| PWhile                  (* while not is_set(): *)
| PUpload                 (* upload_ground_truth(...) *)
| PFor (todo : nat)       (* for _ in range(0, 60): *)
| PSleep (todo : nat)     (* time.sleep(60) *)
| PIf (todo : nat)        (* if is_set(): break *)
| PExit.                  (* run() has returned *)

(** One step of the thread when the event reads [flag]. *)
Definition step (flag : bool) (p : pc) : pc * list event :=
  match p with
  | PWhile =>
      if flag then (PExit, [EvIsSet true]) else (PUpload, [EvIsSet false])
  | PUpload => (PFor 60, [EvUpload])
  | PFor O => (PWhile, [])
  | PFor (S todo) => (PSleep todo, [])
  | PSleep todo => (PIf todo, [EvSleep 60])
  | PIf todo =>
      if flag then (PWhile, [EvIsSet true]) else (PFor todo, [EvIsSet false])
  | PExit => (PExit, [])
  end.

(** [n] steps from time [t]; [flag t] is what the event reads at [t]. *)
Fixpoint run (flag : nat -> bool) (n t : nat) (p : pc) : pc * list event :=
  match n with
  | O => (p, [])
  | S n' =>
      let '(p1, ev) := step (flag t) p in
      let '(p2, evs) := run flag n' (S t) p1 in
      (p2, (ev ++ evs)%list)
  end.

Definition is_upload (e : event) : bool :=
  match e with EvUpload => true | _ => false end.

Definition uploads (evs : list event) : nat :=
  length (List.filter is_upload evs).

(** The seconds slept in a trace. *)
Fixpoint slept (evs : list event) : nat :=
  match evs with
  | [] => 0
  | EvSleep secs :: evs' => secs + slept evs'
  | _ :: evs' => slept evs'
  end.

End TruthWorker.

(* ===================================================================== *)
(** ** Waiting for capture files and reading the last one *)
(* ===================================================================== *)

Module Captures.
Import Sdk PyMore.

(** [S3Downloader.list(uri)] and [S3Downloader.read_file(uri)]. *)
Class S3Client (S : Type) := {
  s3_list : M S (list string);
  s3_read_file : string -> M S string
}.

Section Client.
Context {S : Type} `{S3Client S}.

(** [for _ in range(k):
       capture_files = sorted(S3Downloader.list(...))
       if capture_files: break
       print("."); time.sleep(1)]
    with [capture_files] as the loop found it; the number is the
    seconds slept. *)
Fixpoint poll_captures (k : nat) (capture_files : list string) (s : S)
  : outcome (list string) * nat * S :=
  match k with
  | O => (Ret capture_files, 0%nat, s)
  | Datatypes.S k' =>
      match s3_list s with
      | (Raise e, s1) => (Exc (ServiceError e), 0%nat, s1)
      | (Ok listing, s1) =>
          let files := sorted listing in
          match files with
          | _ :: _ => (Ret files, 0%nat, s1)
          | [] =>
              let '(r, secs, s2) := poll_captures k' files s1 in
              (r, Datatypes.S secs, s2)
          end
      end
  end.

(** The cell: [range(60)]. *)
Definition wait_for_captures (s : S) : outcome (list string) * nat * S :=
  poll_captures 60 [] s.

(** [S3Downloader.read_file(capture_files[-1]).split("\n")[-10:-1]] and
    then [capture_file[-1]], the line the cell prints. *)
Definition last_capture_line (capture_files : list string) (s : S)
  : outcome (list string * string) * S :=
  match last_item capture_files with
  | Exc e => (Exc e, s)
  | Ret uri =>
      match s3_read_file uri s with
      | (Raise e, s1) => (Exc (ServiceError e), s1)
      | (Ok text, s1) =>
          let capture_file := slice_last_but_one 10 (split_nl text) in
          match last_item capture_file with
          | Exc e => (Exc e, s1)
          | Ret line => (Ret (capture_file, line), s1)
          end
      end
  end.

(** The state of the service after [n] listings, and the reply to the
    listing made then. *)
Fixpoint state_after (n : nat) (s : S) : S :=
  match n with
  | O => s
  | Datatypes.S n' => state_after n' (snd (s3_list s))
  end.

Definition reply (n : nat) (s : S) : result (list string) :=
  fst (s3_list (state_after n s)).

End Client.

(** The tail of a text and the line printed, without the client. *)
Definition capture_tail (text : string) : list string :=
  slice_last_but_one 10 (split_nl text).

(** A text of lines, each ended by a newline. *)
Definition unlines (lines : list string) : string :=
  String.concat EmptyString
    (map (fun l => (l ++ String Py.nl EmptyString)%string) lines).

(** A bucket whose listing grows: what the coming calls of [list] will
    return, the last listing for ever; and the text of each object. *)
Record bucket := Bucket {
  listings : list (list string);
  objects : gmap string string
}.

Definition model_s3_list : M bucket (list string) :=
  fun s =>
    match listings s with
    | [] => (Ok [], s)
    | [l] => (Ok l, s)
    | l :: rest => (Ok l, Bucket rest (objects s))
    end.

Definition model_s3_read_file (uri : string) : M bucket string :=
  fun s =>
    match objects s !! uri with
    | Some text => (Ok text, s)
    | None => (Raise (ClientError "NoSuchKey"), s)
    end.

#[export] Instance bucket_model : S3Client bucket := {
  s3_list := model_s3_list;
  s3_read_file := model_s3_read_file
}.

End Captures.

(* ===================================================================== *)
(** ** Reading the online feature store (3-deployment.ipynb) *)
(* ===================================================================== *)

Module FeatureStore.
Import Sdk PyMore.

(** [describe_feature_group(...)['FeatureDefinitions']], as pairs of
    [FeatureName] and [FeatureType], and
    [batch_get_record(Identifiers=[{FeatureGroupName,
    RecordIdentifiersValueAsString, FeatureNames}])['Records']], each
    record as the pairs of [FeatureName] and [ValueAsString] of its
    [Record]. *)
Class FeatureStoreClient (S : Type) := {
  describe_feature_group : string -> M S (list (string * string));
  batch_get_record :
    string -> list string -> list string -> M S (list (list (string * string)))
}.

(** An identifier as the caller gives it. *)
Inductive ident :=
| IdStr (s : string)
| IdInt (z : Z).

(** [str(curr_id)]. *)
Definition str_ident (i : ident) : string :=
  match i with
  | IdStr s => s
  | IdInt z => Py.str_int z
  end.

Section Values.

(** Python floats, with [int(s)], [float(s)] ([None] is [ValueError]) and
    [str(x)] of a float. *)
Variable F : Type.
Variable py_int : string -> option Z.
Variable py_float : string -> option F.
Variable str_float : F -> string.

Inductive value :=
| VInt (z : Z)
| VFloat (x : F)
| VStr (s : string).

(** [str(v)]. *)
Definition str_value (v : value) : string :=
  match v with
  | VInt z => Py.str_int z
  | VFloat x => str_float x
  | VStr s => s
  end.

(** The loop of [_record_to_dict], from [tmp_dict] on. *)
Fixpoint record_to_dict_from (rec : list (string * string))
         (feature_types : Dict.dict string) (tmp_dict : Dict.dict value)
  : outcome (Dict.dict value) :=
  match rec with
  | [] => Ret tmp_dict
  | (feature_name, string_feature_val) :: rec' =>
      match Dict.get feature_name feature_types with
      | None => Exc (KeyError feature_name)
      | Some feature_type =>
          if String.eqb feature_type "Integral" then
            match py_int string_feature_val with
            | None => Exc ValueError
            | Some z =>
                record_to_dict_from rec' feature_types
                  (Dict.set feature_name (VInt z) tmp_dict)
            end
          else if String.eqb feature_type "Fractional" then
            match py_float string_feature_val with
            | None => Exc ValueError
            | Some x =>
                record_to_dict_from rec' feature_types
                  (Dict.set feature_name (VFloat x) tmp_dict)
            end
          else
            record_to_dict_from rec' feature_types
              (Dict.set feature_name (VStr string_feature_val) tmp_dict)
      end
  end.

(** [v] is what the loop stores for a field of type [feature_type] and
    text [string_feature_val]. *)
Definition conversion (feature_type string_feature_val : string) (v : value)
  : Prop :=
  match v with
  | VInt z =>
      feature_type = "Integral"%string /\ py_int string_feature_val = Some z
  | VFloat x =>
      feature_type <> "Integral"%string
      /\ feature_type = "Fractional"%string
      /\ py_float string_feature_val = Some x
  | VStr s =>
      feature_type <> "Integral"%string
      /\ feature_type <> "Fractional"%string
      /\ s = string_feature_val
  end.

(** [k] maps to [v] because of the last field named [k] of [rec]. *)
Definition last_field_gives (rec : list (string * string))
           (feature_types : Dict.dict string) (k : string) (v : value)
  : Prop :=
  exists before string_feature_val after feature_type,
    rec = (before ++ (k, string_feature_val) :: after)%list
    /\ ~ In k (map fst after)
    /\ Dict.get k feature_types = Some feature_type
    /\ conversion feature_type string_feature_val v.

(** What a run of the loop over [rec] from [tmp_dict] ends in. *)
Definition loop_post (rec : list (string * string))
           (feature_types : Dict.dict string) (tmp_dict : Dict.dict value)
           (r : outcome (Dict.dict value)) : Prop :=
  match r with
  | Ret d =>
      (forall k, In k (Dict.keys d)
                 <-> In k (Dict.keys tmp_dict) \/ In k (map fst rec))
      /\ (List.NoDup (Dict.keys tmp_dict) -> List.NoDup (Dict.keys d))
      /\ (forall k v,
             Dict.get k d = Some v ->
             (~ In k (map fst rec) /\ Dict.get k tmp_dict = Some v)
             \/ last_field_gives rec feature_types k v)
  | Exc (KeyError k) =>
      In k (map fst rec) /\ Dict.get k feature_types = None
  | Exc ValueError =>
      exists k string_feature_val,
        In (k, string_feature_val) rec
        /\ ((Dict.get k feature_types = Some "Integral"%string
             /\ py_int string_feature_val = None)
            \/ (Dict.get k feature_types = Some "Fractional"%string
                /\ py_float string_feature_val = None))
  | Exc _ => False
  end.

(** [_record_to_dict(rec, feature_types)]. *)
Definition record_to_dict (rec : list (string * string))
           (feature_types : Dict.dict string) : outcome (Dict.dict value) :=
  record_to_dict_from rec feature_types [].

(** [feature_types] after the loop over the definitions. *)
Definition types_of (feature_defs : list (string * string))
  : Dict.dict string :=
  fold_left (fun acc fd => Dict.set (fst fd) (snd fd) acc) feature_defs [].

(** [[_record_to_dict(r['Record'], feature_types) for r in records]],
    up to the first record that raises. *)
Fixpoint records_to_dicts (records : list (list (string * string)))
         (feature_types : Dict.dict string)
  : outcome (list (Dict.dict value)) :=
  match records with
  | [] => Ret []
  | rec :: records' =>
      match record_to_dict rec feature_types with
      | Exc e => Exc e
      | Ret d =>
          match records_to_dicts records' feature_types with
          | Exc e => Exc e
          | Ret ds => Ret (d :: ds)
          end
      end
  end.

(** [get_online_feature_group_records(fg_name, id_value_list)]. *)
Definition get_online_feature_group_records
           {S : Type} `{FeatureStoreClient S}
           (fg_name : string) (id_value_list : list ident) (s : S)
  : outcome (list (Dict.dict value)) * S :=
  match describe_feature_group fg_name s with
  | (Raise e, s1) => (Exc (ServiceError e), s1)
  | (Ok feature_defs, s1) =>
      let feature_names := map fst feature_defs in
      let feature_types := types_of feature_defs in
      let ids_list := map str_ident id_value_list in
      match batch_get_record fg_name ids_list feature_names s1 with
      | (Raise e, s2) => (Exc (ServiceError e), s2)
      | (Ok records, s2) => (records_to_dicts records feature_types, s2)
      end
  end.

(** [get_number_of_products_in_feature_set(dict)]. *)
Definition get_number_of_products_in_feature_set (d : Dict.dict value)
  : nat :=
  fold_left (fun record_count _ => Datatypes.S record_count) (Dict.keys d) 0%nat.

(** [record.pop(k)] where [record] is [customer_record[0]]: the pop
    changes the dict the list holds. *)
Definition pop_record (k : string) (customer_record : list (Dict.dict value))
  : outcome (list (Dict.dict value)) :=
  match customer_record with
  | [] => Exc IndexError
  | record :: rest =>
      match Dict.pop k record with
      | Exc e => Exc e
      | Ret (_, record') => Ret (record' :: rest)
      end
  end.

(** [[str(record[key]) for key in ks]]. *)
Fixpoint str_items (record : Dict.dict value) (ks : list string)
  : outcome (list string) :=
  match ks with
  | [] => Ret []
  | key :: ks' =>
      match Dict.item key record with
      | Exc e => Exc e
      | Ret v =>
          match str_items record ks' with
          | Exc e => Exc e
          | Ret l => Ret (str_value v :: l)
          end
      end
  end.

(** The cells from [record = customer_record[0]] to [payload]:
    [record.pop('PRICE'); record.pop('event_time');
     record.pop('record_id')
     payload = ",".join(str(record[key]) for key in customer_record[0])].
    The result is the payload and [customer_record] as the cells leave
    it. *)
Definition payload_cells (customer_record : list (Dict.dict value))
  : outcome (string * list (Dict.dict value)) :=
  match first_item customer_record with
  | Exc e => Exc e
  | Ret _ =>
      match pop_record "PRICE" customer_record with
      | Exc e => Exc e
      | Ret cr1 =>
          match pop_record "event_time" cr1 with
          | Exc e => Exc e
          | Ret cr2 =>
              match pop_record "record_id" cr2 with
              | Exc e => Exc e
              | Ret cr3 =>
                  match first_item cr3 with
                  | Exc e => Exc e
                  | Ret record =>
                      match str_items record (Dict.keys record) with
                      | Exc e => Exc e
                      | Ret l => Ret (Py.join "," l, cr3)
                      end
                  end
              end
          end
      end
  end.

End Values.

End FeatureStore.

(* ===================================================================== *)
(** ** The model registry helpers of the training notebook
       (src/unnamed/part_002, fourth notebook) *)
(* ===================================================================== *)

Module Registry.
Import Sdk PyMore.

(** [list_model_package_groups(NameContains=...)], as the names in
    [ModelPackageGroupSummaryList], and [create_model_package_group]. *)
Class RegistryClient (S : Type) := {
  list_model_package_groups : string -> M S (list string);
  create_group : string -> string -> M S unit
}.

(** [create_model_package_group(name, description, session)]; the result
    is the line it prints, if any. *)
Definition create_model_package_group {S : Type} `{RegistryClient S}
           (model_package_group_name model_package_group_description : string)
  : M S (option string) :=
  model_package_groups <-
    list_model_package_groups model_package_group_name ;;
  let model_package_group_exists :=
    existsb (fun n => String.eqb n model_package_group_name)
            model_package_groups in
  if negb model_package_group_exists then
    _ <- create_group model_package_group_name
           model_package_group_description ;;
    ret None
  else
    ret (Some (model_package_group_name
               ++ " Model Package Group already exists")%string).

(** A model of the registry: the groups with their description, in the
    order the service lists them, and the number of groups a listing
    returns at most.  A listing holds the first page of the groups whose
    name contains the text asked for; the code asks for no further
    page. *)
Record registry := Registry {
  page_size : nat;
  entries : list (string * string)
}.

Definition matching (name_contains : string) (s : registry) : list string :=
  List.filter (is_infix name_contains) (map fst (entries s)).

Definition model_list_groups (name_contains : string)
  : M registry (list string) :=
  fun s => (Ok (firstn (page_size s) (matching name_contains s)), s).

Definition model_create_group (name description : string)
  : M registry unit :=
  fun s =>
    if existsb (String.eqb name) (map fst (entries s))
    then (Raise (ClientError "ValidationException"), s)
    else (Ok tt, Registry (page_size s)
                          (entries s ++ [(name, description)])%list).

#[export] Instance registry_model : RegistryClient registry := {
  list_model_package_groups := model_list_groups;
  create_group := model_create_group
}.

(** [estimator.latest_training_job.describe()], as [TrainingJobName] and
    the pairs of [MetricName] and [Value] of [FinalMetricDataList], and
    [s3_client.upload_file(Filename, Bucket, Key)]. *)
Class TrainingClient (S V : Type) := {
  describe_training_job : M S (string * list (string * V));
  upload_file : string -> string -> string -> M S unit
}.

(** What the function does to the local file. *)
Inductive file_effect (V : Type) :=
| FileOpened (name : string)
    (* open(name, 'w'): the file is created or emptied *)
| FileDumped (name top_key : string) (metrics : Dict.dict (V * string)).
    (* json.dump({top_key: metrics}, f) *)
Arguments FileOpened {V} name.
Arguments FileDumped {V} name top_key metrics.

Section Metrics.
Context {S V : Type} `{TrainingClient S V}.

(** The report as the first [if] leaves it; [None] is the variable left
    unbound. *)
Definition initial_report (problem_type : string)
  : option (string * Dict.dict (V * string)) :=
  if String.eqb problem_type "regression" then
    Some ("regression_metrics"%string, [])
  else if String.eqb problem_type "classification" then
    Some ("classification_metrics"%string, [])
  else None.

(** One turn of [for metric in metrics]. *)
Definition add_metric (problem_type : string)
           (report : option (string * Dict.dict (V * string)))
           (metric : string * V)
  : option (string * Dict.dict (V * string)) :=
  let metric_dict := [(fst metric, (snd metric, "NaN"%string))] in
  match report with
  | None => None
  | Some (top_key, entries) =>
      let entries1 :=
        if String.eqb problem_type "regression"
        then Dict.update entries metric_dict else entries in
      let entries2 :=
        if String.eqb problem_type "classification"
        then Dict.update entries1 metric_dict else entries1 in
      Some (top_key, entries2)
  end.

(** [create_training_job_metrics(estimator, s3_prefix, region, bucket,
    problem_type)]: the content type and URI of the metrics source it
    returns, and what it did to the local file. *)
Definition create_training_job_metrics
           (s3_prefix bucket problem_type : string) (s : S)
  : outcome (string * string) * list (file_effect V) * S :=
  let report0 := initial_report problem_type in
  match describe_training_job s with
  | (Raise e, s1) => (Exc (ServiceError e), [], s1)
  | (Ok (training_job_name, metrics), s1) =>
      let report := fold_left (add_metric problem_type) metrics report0 in
      let file := "training_metrics.json"%string in
      match report with
      | None => (Exc UnboundLocalError, [FileOpened file], s1)
      | Some (top_key, entries) =>
          let written := [FileOpened file; FileDumped file top_key entries] in
          let training_metrics_s3_prefix :=
            (s3_prefix ++ "/training_jobs/" ++ training_job_name
             ++ "/training_metrics.json")%string in
          match upload_file file bucket training_metrics_s3_prefix s1 with
          | (Raise e, s2) => (Exc (ServiceError e), written, s2)
          | (Ok _, s2) =>
              let training_metrics_s3_uri :=
                ("s3://" ++ bucket ++ "/" ++ training_metrics_s3_prefix)%string
              in
              (Ret ("application/json"%string, training_metrics_s3_uri),
               written, s2)
          end
      end
  end.

End Metrics.

(** A model of the training service: the job's name and final metrics,
    and the objects uploaded so far as (bucket, key, file). *)
Record training (V : Type) := Training {
  job_name : string;
  final_metrics : list (string * V);
  uploaded : list (string * string * string)
}.
Arguments Training {V} job_name final_metrics uploaded.
Arguments job_name {V} t.
Arguments final_metrics {V} t.
Arguments uploaded {V} t.

#[export] Instance training_model (V : Type)
  : TrainingClient (training V) V := {
  describe_training_job :=
    fun s => (Ok (job_name s, final_metrics s), s);
  upload_file :=
    fun file bucket key s =>
      (Ok tt, Training (job_name s) (final_metrics s)
                       ((bucket, key, file) :: uploaded s))
}.

End Registry.

(* ===================================================================== *)
(** ** The lineage loops without a handler (sagemaker-lineage.ipynb) *)
(* ===================================================================== *)

Module Lineage.
Import Sdk Iam.

(** [for vertex in query_result.vertices:
       artifacts.append(vertex.to_lineage_object().source.source_uri)]:
    the list, or the first exception. *)
Fixpoint lineage_uris (vertices : list vertex) : result (list string) :=
  match vertices with
  | [] => Ok []
  | v :: rest =>
      match vertex_source_uri v with
      | Raise e => Raise e
      | Ok uri =>
          match lineage_uris rest with
          | Raise e => Raise e
          | Ok uris => Ok (uri :: uris)
          end
      end
  end.

End Lineage.

(* ===================================================================== *)
(** ** Reading ids off traces and records *)
(* ===================================================================== *)

Module Ids.

(** The [InferenceId] of every invocation of a trace, in order. *)
Fixpoint inference_ids (evs : list Worker.event) : list string :=
  match evs with
  | [] => []
  | Worker.EvInvoke _ inference_id :: evs' =>
      inference_id :: inference_ids evs'
  | _ :: evs' => inference_ids evs'
  end.

(** The bodies sent, in order. *)
Fixpoint bodies (evs : list Worker.event) : list string :=
  match evs with
  | [] => []
  | Worker.EvInvoke body _ :: evs' => body :: bodies evs'
  | _ :: evs' => bodies evs'
  end.

(** [v[k]] on a JSON object. *)
Fixpoint field (k : string) (fields : list (string * Json.json))
  : option Json.json :=
  match fields with
  | [] => None
  | (k', v) :: fields' => if String.eqb k' k then Some v else field k fields'
  end.

(** [record["eventMetadata"]["eventId"]]. *)
Definition event_id (record : Json.json) : option string :=
  match record with
  | Json.JObj fields =>
      match field "eventMetadata" fields with
      | Some (Json.JObj meta) =>
          match field "eventId" meta with
          | Some (Json.JStr id) => Some id
          | _ => None
          end
      | _ => None
      end
  | _ => None
  end.

(** How many newline characters a text has. *)
Fixpoint count_nl (s : string) : nat :=
  match s with
  | EmptyString => 0
  | String c s' => (if Ascii.eqb c Py.nl then 1 else 0) + count_nl s'
  end.

End Ids.

(* ===================================================================== *)
(** ** One-hot encoding, as the specification words it *)
(* ===================================================================== *)

Module OneHot.
Import Preprocessing.

(** [cats] are the categories of a column with values [vs]: its distinct
    values, each once, in ascending order. *)
Definition categories_of (vs cats : list string) : Prop :=
  List.NoDup cats
  /\ (forall lv, In lv cats <-> In lv vs)
  /\ Sorted.StronglySorted (fun a b => String.compare a b = Lt) cats.

(** The numeric columns as they are, then, for each categorical column
    in turn, one indicator column per category. *)
Definition one_hot (cats : list string -> list string) (df : frame)
  : frame :=
  (List.filter is_num df
   ++ flat_map
        (fun p =>
           match snd p with
           | NumCol _ => []
           | ObjCol vs =>
               map (fun lv => (dummy_name (fst p) lv, indicator lv vs))
                   (cats vs)
           end)
        (List.filter is_obj df))%list.

(** The label first: the columns [y_yes], then every column that is
    neither [y_no] nor [y_yes]. *)
Definition label_then_rest (df : frame) : frame :=
  (List.filter (has_name "y_yes") df
   ++ List.filter (fun p => negb (mem (fst p) y_labels)) df)%list.

End OneHot.

(* ===================================================================== *)
(** ** The requests the cells send *)
(* ===================================================================== *)

Module Requests.
Import Sdk Platform.

Inductive request :=
| ReqUpdate (arn : string) (a : approval)
| ReqList (endpoint : string)
| ReqStop (name : string)
| ReqDelete (name : string).

Section Recorder.

(** What a listing answers, and the requests the service refuses. *)
Variable monitors : string -> list string.
Variable refused : request -> option exn.

(** A request is written to the log, then answered. *)
Definition send {A : Type} (r : request) (a : A) : M (list request) A :=
  fun log =>
    (match refused r with
     | Some e => Raise e
     | None => Ok a
     end, (log ++ [r])%list).

(** A client that records the requests it is sent, in order. *)
Definition recorder : SageMakerClient (list request) := {|
  update_model_package := fun arn a => send (ReqUpdate arn a) tt;
  list_monitors := fun endpoint => send (ReqList endpoint) (monitors endpoint);
  stop_monitoring_schedule := fun name => send (ReqStop name) tt;
  delete_monitoring_schedule := fun name => send (ReqDelete name) tt
|}.

(** Requests sent one after the other, up to the first that is
    refused. *)
Fixpoint send_all (rs : list request) (log : list request)
  : result unit * list request :=
  match rs with
  | [] => (Ok tt, log)
  | r :: rs' =>
      match refused r with
      | Some e => (Raise e, (log ++ [r])%list)
      | None => send_all rs' (log ++ [r])%list
      end
  end.

(** For each schedule of the listing, in its order: stop, then delete. *)
Definition cleanup_requests (endpoint : string) : list request :=
  ReqList endpoint
  :: flat_map (fun name => [ReqStop name; ReqDelete name])
              (monitors endpoint).

End Recorder.

End Requests.

(* ===================================================================== *)
(** ** Upload times *)
(* ===================================================================== *)

Module Times.

(** A [datetime] of a four-digit year. *)
Definition valid_time (t : GroundTruth.datetime) : Prop :=
  1000 <= Z.of_nat (GroundTruth.year t) <= 9999
  /\ (1 <= GroundTruth.month t <= 12)%nat
  /\ (1 <= GroundTruth.day t <= 31)%nat
  /\ (GroundTruth.hour t < 24)%nat
  /\ (GroundTruth.minute t < 60)%nat
  /\ (GroundTruth.second t < 60)%nat.

(** The folder of the hour of [t]: [f"{t:%Y/%m/%d/%H}"]. *)
Definition hour_folder (t : GroundTruth.datetime) : string :=
  (Py.str_int (Z.of_nat (GroundTruth.year t)) ++ "/"
   ++ Py.pad2 (GroundTruth.month t) ++ "/"
   ++ Py.pad2 (GroundTruth.day t) ++ "/"
   ++ Py.pad2 (GroundTruth.hour t))%string.

End Times.

(* ===================================================================== *)
(** ** Inputs the code is run on below *)
(* ===================================================================== *)

Module Inputs.
Import Preprocessing.

(** A frame of ninety rows with the label column only. *)
Definition frame_90 : frame := [("y_yes"%string, NumCol (repeat 0 90))].

(** Two rows of the bank data: some of its columns. *)
Definition bank_sample : frame :=
  [("age", NumCol [35; 41]);
   ("job", ObjCol ["student"; "admin."]);
   ("pdays", NumCol [999; 3]);
   ("emp.var.rate", NumCol [1; -2]);
   ("y", ObjCol ["yes"; "no"])]%string.

(** A frame that has columns [y_no] and [y_yes] of its own next to the
    categorical column [y]. *)
Definition labelled_twice : frame :=
  [("pdays", NumCol [999; 3]);
   ("job", ObjCol ["student"; "admin."]);
   ("y_no", NumCol [0; 1]);
   ("y_yes", NumCol [1; 0]);
   ("y", ObjCol ["yes"; "no"])]%string.

(** A file of two samples. *)
Definition two_lines : string :=
  ("35,1" ++ String Py.nl ("41,0" ++ String Py.nl EmptyString))%string.

(** An IAM account in which the role of the Lambda function exists. *)
Definition iam_with_role : Iam.iam_state :=
  Iam.IamState {[ "lambda-deployment-role"%string := "arn:existing"%string ]}
               {[ "lambda-deployment-role"%string := [] ]} true.

(** An IAM account the caller may not write to. *)
Definition iam_read_only : Iam.iam_state := Iam.IamState ∅ ∅ false.

(** A registry with one model package that awaits approval, and one idle
    monitoring schedule on the endpoint. *)
Definition registry_pending : Platform.platform :=
  Platform.MkPlatform
    {[ "arn:model-package/1"%string := Platform.PendingManualApproval ]}
    {[ "data-quality"%string :=
         Platform.Schedule "endpoint" Platform.Scheduled false ]}.

End Inputs.

Module MoreInputs.

(** A platform on which one schedule of the endpoint has an execution in
    progress, next to an idle one on another endpoint. *)
Definition platform_busy : Platform.platform :=
  Platform.MkPlatform
    ∅
    {[ "model-quality"%string :=
         Platform.Schedule "endpoint" Platform.Scheduled true;
       "other"%string :=
         Platform.Schedule "elsewhere" Platform.Scheduled false ]}.

(** A frame whose label column has no positive example. *)
Definition bank_all_no : Preprocessing.frame :=
  [("age", Preprocessing.NumCol [35; 41]);
   ("job", Preprocessing.ObjCol ["student"; "admin."]);
   ("pdays", Preprocessing.NumCol [999; 3]);
   ("y", Preprocessing.ObjCol ["no"; "no"])]%string.

End MoreInputs.

(* ===================================================================== *)
(** * Properties *)
(* ===================================================================== *)

(** ** Binary64 *)

Lemma rnd53_error (m e : Z) :
  0 <= m ->
  exists s, 0 <= s /\ Binary64.expo (Binary64.rnd53 (Binary64.Dy m e)) = e + s
    /\ Z.abs (Binary64.mant (Binary64.rnd53 (Binary64.Dy m e)) * 2 ^ s - m)
         * 2 ^ 53 <= m.
Proof.
  intros Hm. unfold Binary64.rnd53. cbn [Binary64.mant Binary64.expo].
  destruct (Z.ltb_spec m (2 ^ 53)) as [Hlt | Hge].
  - exists 0. cbn [Binary64.mant Binary64.expo].
    rewrite Z.add_0_r, Z.pow_0_r, Z.mul_1_r, Z.sub_diag. cbn. lia.
  - set (s := Z.log2 m - 52).
    assert (Hpos : 0 < m) by lia.
    destruct (Z.log2_spec m Hpos) as [Hlo Hhi].
    assert (H53 : 53 <= Z.log2 m).
    { apply Z.log2_le_pow2; lia. }
    assert (Hs : 1 <= s) by (unfold s; lia).
    assert (Hlo' : 2 ^ s * 2 ^ 52 <= m).
    { rewrite <- Z.pow_add_r by lia.
      replace (s + 52) with (Z.log2 m) by (unfold s; lia). exact Hlo. }
    assert (H2s : 0 < 2 ^ s) by (apply Z.pow_pos_nonneg; lia).
    pose proof (Z.div_mod m (2 ^ s) ltac:(lia)) as Hdm.
    pose proof (Z.mod_pos_bound m (2 ^ s) H2s) as Hr.
    exists s. cbn [Binary64.mant Binary64.expo].
    split; [lia|]. split; [reflexivity|].
    set (q := m / 2 ^ s) in *. set (r := m mod 2 ^ s) in *.
    assert (E53 : 2 ^ 53 = 2 * 2 ^ 52) by reflexivity.
    destruct ((2 ^ s <? 2 * r) || ((2 * r =? 2 ^ s) && Z.odd q)) eqn:Hup.
    + assert (Hge2 : 2 ^ s <= 2 * r).
      { apply orb_true_iff in Hup as [H1 | H1].
        - apply Z.ltb_lt in H1. lia.
        - apply andb_true_iff in H1 as [H1 _]. apply Z.eqb_eq in H1. lia. }
      rewrite E53. nia.
    + assert (Hle2 : 2 * r <= 2 ^ s).
      { apply orb_false_iff in Hup as [H1 _]. apply Z.ltb_ge in H1. lia. }
      rewrite E53. nia.
Qed.

Lemma to_int_scaled (m s : Z) :
  0 <= m -> 0 <= s ->
  Binary64.to_int (Binary64.Dy m (-53 + s)) = (m * 2 ^ s) / 2 ^ 53.
Proof.
  intros Hm Hs. unfold Binary64.to_int. cbn [Binary64.mant Binary64.expo].
  destruct (Z.leb_spec 0 (-53 + s)) as [H | H].
  - replace s with ((-53 + s) + 53) at 2 by lia.
    rewrite (Z.pow_add_r 2 (-53 + s) 53) by lia. rewrite Z.mul_assoc.
    rewrite Z.div_mul; [reflexivity | lia].
  - replace (2 ^ 53) with (2 ^ (- (-53 + s)) * 2 ^ s).
    + rewrite Z.div_mul_cancel_r; [reflexivity | | ].
      * apply Z.pow_nonzero; lia.
      * apply Z.pow_nonzero; lia.
    + rewrite <- Z.pow_add_r by lia. f_equal. lia.
Qed.

(** [int(c * n)] is the floor of a number within relative error [2^-53]
    of the exact product. *)
Lemma int_mul_error (c : Binary64.dyadic) (n : Z) :
  0 <= Binary64.mant c -> Binary64.expo c = -53 -> 0 <= n < 2 ^ 53 ->
  exists R, Binary64.int_mul c n = R / 2 ^ 53
    /\ Z.abs (R - Binary64.mant c * n) * 2 ^ 53 <= Binary64.mant c * n.
Proof.
  intros Hc He Hn. unfold Binary64.int_mul, Binary64.mul, Binary64.of_int.
  assert (Hof : Binary64.rnd53 (Binary64.Dy n 0) = Binary64.Dy n 0).
  { unfold Binary64.rnd53. cbn [Binary64.mant].
    destruct (Z.ltb_spec n (2 ^ 53)); [reflexivity | lia]. }
  rewrite Hof. cbn [Binary64.mant Binary64.expo]. rewrite He, Z.add_0_r.
  set (P := Binary64.mant c * n).
  assert (HP : 0 <= P) by (unfold P; nia).
  destruct (rnd53_error P (-53) HP) as (s & Hs & Hexp & Herr).
  destruct (Binary64.rnd53 (Binary64.Dy P (-53))) as [m' e'] eqn:Hr.
  cbn [Binary64.mant Binary64.expo] in *. subst e'.
  assert (Hm' : 0 <= m').
  { assert (0 < 2 ^ s) by (apply Z.pow_pos_nonneg; lia).
    assert (0 < 2 ^ 53) by reflexivity.
    destruct (Z.le_gt_cases 0 m') as [?|Hneg]; [assumption|exfalso].
    assert (m' * 2 ^ s <= - 2 ^ s) by nia.
    rewrite Z.abs_neq in Herr by nia. nia. }
  exists (m' * 2 ^ s). split; [apply to_int_scaled; assumption | exact Herr].
Qed.

(** Opens [int(c * n)] as the floor [R / 2^53] of the rounded product. *)
Ltac int_mul_facts c n R Ha Herr Hdm Hmod :=
  destruct (int_mul_error c n) as (R & Ha & Herr);
    [cbn; lia | reflexivity | lia |];
  cbn [Binary64.mant Binary64.lit_0_7 Binary64.lit_0_85] in Herr;
  pose proof (Z.div_mod R (2 ^ 53) ltac:(lia)) as Hdm;
  pose proof (Z.mod_pos_bound R (2 ^ 53) ltac:(reflexivity)) as Hmod;
  rewrite <- Ha in Hdm;
  change (2 ^ 53) with 9007199254740992 in *.

(** [int(.7*n)] is the floor of [0.7 n] or one less. *)
Lemma split_at_07_bounds (n : nat) :
  Z.of_nat n < 2 ^ 48 ->
  7 * Z.of_nat n - 10 <= 10 * Z.of_nat (Preprocessing.split_at_07 n)
    <= 7 * Z.of_nat n.
Proof.
  intros Hn. unfold Preprocessing.split_at_07.
  change (2 ^ 48) with 281474976710656 in Hn.
  int_mul_facts Binary64.lit_0_7 (Z.of_nat n) R Ha Herr Hdm Hmod.
  set (a := Binary64.int_mul Binary64.lit_0_7 (Z.of_nat n)) in *.
  rewrite Z2Nat.id by lia.
  assert (Hlo : 9007199254740992 * (7 * Z.of_nat n - 11)
                < 9007199254740992 * (10 * a)) by lia.
  assert (Hhi : 9007199254740992 * (10 * a)
                < 9007199254740992 * (7 * Z.of_nat n + 1)) by lia.
  apply Z.mul_lt_mono_pos_l in Hlo; [| lia].
  apply Z.mul_lt_mono_pos_l in Hhi; [| lia]. lia.
Qed.

(** [int(.85*n)] is the floor of [0.85 n] or one less. *)
Lemma split_at_085_bounds (n : nat) :
  Z.of_nat n < 2 ^ 48 ->
  85 * Z.of_nat n - 100 <= 100 * Z.of_nat (Preprocessing.split_at_085 n)
    <= 85 * Z.of_nat n.
Proof.
  intros Hn. unfold Preprocessing.split_at_085.
  change (2 ^ 48) with 281474976710656 in Hn.
  int_mul_facts Binary64.lit_0_85 (Z.of_nat n) R Ha Herr Hdm Hmod.
  set (a := Binary64.int_mul Binary64.lit_0_85 (Z.of_nat n)) in *.
  rewrite Z2Nat.id by lia.
  assert (Hlo : 9007199254740992 * (85 * Z.of_nat n - 101)
                < 9007199254740992 * (100 * a)) by lia.
  assert (Hhi : 9007199254740992 * (100 * a)
                < 9007199254740992 * (85 * Z.of_nat n + 1)) by lia.
  apply Z.mul_lt_mono_pos_l in Hlo; [| lia].
  apply Z.mul_lt_mono_pos_l in Hhi; [| lia]. lia.
Qed.

(** The two cut points are ordered and inside the frame. *)
Lemma split_points_ordered (n : nat) :
  Z.of_nat n < 2 ^ 53 ->
  (Preprocessing.split_at_07 n <= Preprocessing.split_at_085 n <= n)%nat.
Proof.
  intros Hn. unfold Preprocessing.split_at_07, Preprocessing.split_at_085.
  int_mul_facts Binary64.lit_0_7 (Z.of_nat n) R7 Ha Herr7 Hdm7 Hmod7.
  int_mul_facts Binary64.lit_0_85 (Z.of_nat n) R8 Hb Herr8 Hdm8 Hmod8.
  set (a := Binary64.int_mul Binary64.lit_0_7 (Z.of_nat n)) in *.
  set (b := Binary64.int_mul Binary64.lit_0_85 (Z.of_nat n)) in *.
  assert (Hle : a <= b).
  { rewrite Ha, Hb. apply Z.div_le_mono; lia. }
  split.
  - apply Z2Nat.inj_le; lia.
  - apply Nat2Z.inj_le. rewrite Z2Nat.id by lia. lia.
Qed.

Example int_mul_07_10 : Binary64.int_mul Binary64.lit_0_7 10 = 7.
Proof. reflexivity. Qed.

Example int_mul_07_90 : Binary64.int_mul Binary64.lit_0_7 90 = 62.
Proof. reflexivity. Qed.

Example int_mul_085_90 : Binary64.int_mul Binary64.lit_0_85 90 = 76.
Proof. reflexivity. Qed.

Example int_mul_07_41188 : Binary64.int_mul Binary64.lit_0_7 41188 = 28831.
Proof. reflexivity. Qed.

(** The rounding above agrees with the kernel's binary64 floats on the
    two literals and on the products for the first three thousand row
    counts. *)
Example lit_0_7_is_the_literal :
  PrimFloat.eqb (Binary64.to_prim Binary64.lit_0_7) 0x1.6666666666666p-1 = true.
Proof. vm_compute. reflexivity. Qed.

Example lit_0_85_is_the_literal :
  PrimFloat.eqb (Binary64.to_prim Binary64.lit_0_85) 0x1.b333333333333p-1
  = true.
Proof. vm_compute. reflexivity. Qed.

Example mul_agrees_with_prim :
  forallb (fun n => Binary64.agrees_with_prim Binary64.lit_0_7 n
                    && Binary64.agrees_with_prim Binary64.lit_0_85 n)
          (map Z.of_nat (seq 0 3000))
  = true.
Proof. vm_compute. reflexivity. Qed.

Example mul_agrees_with_prim_large :
  forallb (fun n => Binary64.agrees_with_prim Binary64.lit_0_7 n
                    && Binary64.agrees_with_prim Binary64.lit_0_85 n)
          [41188; 1048576; 1073741831; 4294967295; 281474976710655]
  = true.
Proof. vm_compute. reflexivity. Qed.

(** ** Row slices and [np.split] *)

Import Preprocessing Inputs.

Lemma nth_slice {A} (st en i : nat) (vs : list A) (d : A) :
  (i < en - st)%nat ->
  nth i (firstn (en - st) (skipn st vs)) d = nth (st + i) vs d.
Proof.
  intros Hi. rewrite nth_firstn.
  destruct (Nat.ltb_spec i (en - st)) as [_ | Hge]; [| lia].
  apply nth_skipn.
Qed.

Lemma cell_at_slice (st en i : nat) (c : column) :
  (i < en - st)%nat ->
  cell_at (slice_col st en c) i = cell_at c (st + i).
Proof.
  intros Hi. destruct c as [vs | vs]; cbn [slice_col cell_at];
    f_equal; apply nth_slice; exact Hi.
Qed.

Lemma row_at_slice (st en i : nat) (df : frame) :
  (i < en - st)%nat ->
  row_at (slice_rows st en df) i = row_at df (st + i).
Proof.
  intros Hi. unfold row_at, slice_rows. rewrite map_map.
  apply map_ext. intros [n c]. cbn [fst snd]. apply cell_at_slice, Hi.
Qed.

Lemma col_len_slice (st en : nat) (c : column) :
  col_len (slice_col st en c) = (Nat.min en (col_len c) - st)%nat.
Proof.
  destruct c as [vs | vs]; cbn [slice_col col_len];
    rewrite length_firstn, length_skipn; lia.
Qed.

Lemma nrows_slice (st en : nat) (df : frame) :
  nrows (slice_rows st en df) = (Nat.min en (nrows df) - st)%nat.
Proof.
  destruct df as [| [n c] df]; cbn [slice_rows map nrows fst snd].
  - lia.
  - apply col_len_slice.
Qed.

Lemma map_seq_offset {A} (f : nat -> A) (st k : nat) :
  map f (seq st k) = map (fun i => f (st + i)%nat) (seq 0 k).
Proof.
  revert st. induction k as [| k IH]; intros st; [reflexivity |].
  cbn [seq map]. rewrite Nat.add_0_r. f_equal.
  rewrite IH, <- seq_shift, map_map. apply map_ext.
  intros i. f_equal. lia.
Qed.

Lemma rows_slice (st en : nat) (df : frame) :
  rows (slice_rows st en df)
  = map (row_at df) (seq st (Nat.min en (nrows df) - st)).
Proof.
  unfold rows. rewrite nrows_slice.
  set (k := (Nat.min en (nrows df) - st)%nat).
  assert (Hk : (k <= en - st)%nat) by (unfold k; lia).
  clearbody k.
  rewrite (map_seq_offset (row_at df)).
  apply map_ext_in. intros i Hi.
  apply in_seq in Hi. apply row_at_slice. lia.
Qed.

Lemma length_rows (df : frame) : length (rows df) = nrows df.
Proof. unfold rows. rewrite length_map, length_seq. reflexivity. Qed.

(** Cutting at [a <= b <= len(df)] loses no row and repeats none. *)
Lemma np_split_partition (df : frame) (a b : nat) :
  (a <= b <= nrows df)%nat ->
  let '(train, validation, test) := np_split df a b in
  (rows train ++ rows validation ++ rows test)%list = rows df
  /\ nrows train = a
  /\ nrows validation = (b - a)%nat
  /\ nrows test = (nrows df - b)%nat.
Proof.
  intros [Hab Hbn]. unfold np_split.
  rewrite !rows_slice, !nrows_slice.
  replace (Nat.min a (nrows df) - 0)%nat with a by lia.
  replace (Nat.min b (nrows df) - a)%nat with (b - a)%nat by lia.
  replace (Nat.min (nrows df) (nrows df) - b)%nat
    with (nrows df - b)%nat by lia.
  repeat split; try reflexivity.
  rewrite <- !map_app. unfold rows. f_equal.
  replace (nrows df) with (a + ((b - a) + (nrows df - b)))%nat at 2 by lia.
  rewrite seq_app, seq_app. cbn [Nat.add].
  replace (a + (b - a))%nat with b by lia. reflexivity.
Qed.

(** C9, as stated, fails: on ninety rows [int(.7*90)] is 62, because the
    binary64 product [.7*90] is 62.99999999999999, while seventy percent
    of ninety rounded down is 63. *)
Lemma split_train_not_floor_07 :
  ~ (forall df : frame,
       let n := nrows df in
       let '(train, validation, test) :=
         np_split df (split_at_07 n) (split_at_085 n) in
       Z.of_nat (nrows train) = 7 * Z.of_nat n / 10
       /\ Z.of_nat (nrows validation)
          = 85 * Z.of_nat n / 100 - 7 * Z.of_nat n / 10
       /\ Z.of_nat (nrows test) = Z.of_nat n - 85 * Z.of_nat n / 100).
Proof.
  intros H. specialize (H frame_90). vm_compute in H.
  destruct H as [H _]. discriminate H.
Qed.

(** C9, amended: the three outputs of the split partition the rows of the
    processed frame, in order, and have [a], [b - a] and [n - b] rows
    where [a = int(.7*n)] and [b = int(.85*n)] are computed in binary64;
    [a] is the floor of [0.7 n] or one less, [b] the floor of [0.85 n] or
    one less. *)
Theorem split_is_partition (df : frame) :
  Z.of_nat (nrows df) < 2 ^ 48 ->
  let n := nrows df in
  let a := split_at_07 n in
  let b := split_at_085 n in
  let '(train, validation, test) := np_split df a b in
  (rows train ++ rows validation ++ rows test)%list = rows df
  /\ length (rows train) = a
  /\ length (rows validation) = (b - a)%nat
  /\ length (rows test) = (n - b)%nat
  /\ 7 * Z.of_nat n / 10 - 1 <= Z.of_nat a <= 7 * Z.of_nat n / 10
  /\ 85 * Z.of_nat n / 100 - 1 <= Z.of_nat b <= 85 * Z.of_nat n / 100.
Proof.
  intros Hn. cbv zeta.
  assert (Hord := split_points_ordered (nrows df)
                    ltac:(change (2 ^ 48) with 281474976710656 in Hn;
                          change (2 ^ 53) with 9007199254740992; lia)).
  pose proof (np_split_partition df _ _ Hord) as Hp.
  destruct (np_split df (split_at_07 (nrows df)) (split_at_085 (nrows df)))
    as [[train validation] test].
  destruct Hp as (Hrows & Ht & Hv & Hte).
  rewrite !length_rows.
  pose proof (split_at_07_bounds _ Hn) as H7.
  pose proof (split_at_085_bounds _ Hn) as H85.
  pose proof (Z.div_mod (7 * Z.of_nat (nrows df)) 10 ltac:(lia)).
  pose proof (Z.mod_pos_bound (7 * Z.of_nat (nrows df)) 10 ltac:(lia)).
  pose proof (Z.div_mod (85 * Z.of_nat (nrows df)) 100 ltac:(lia)).
  pose proof (Z.mod_pos_bound (85 * Z.of_nat (nrows df)) 100 ltac:(lia)).
  repeat split; try assumption; lia.
Qed.

Lemma split_is_partition_witness :
  Z.of_nat (nrows frame_90) < 2 ^ 48
  /\ (let n := nrows frame_90 in
      let a := split_at_07 n in
      let b := split_at_085 n in
      let '(train, validation, test) := np_split frame_90 a b in
      (rows train ++ rows validation ++ rows test)%list = rows frame_90
      /\ length (rows train) = a
      /\ length (rows validation) = (b - a)%nat
      /\ length (rows test) = (n - b)%nat
      /\ 7 * Z.of_nat n / 10 - 1 <= Z.of_nat a <= 7 * Z.of_nat n / 10
      /\ 85 * Z.of_nat n / 100 - 1 <= Z.of_nat b <= 85 * Z.of_nat n / 100).
Proof.
  split; [reflexivity | apply (split_is_partition frame_90); reflexivity].
Defined.

(** ** The worker thread *)

Import Worker.

Lemma run_add (content : string) (flag : nat -> bool) (n m t : nat) (p : pc) :
  run content flag (n + m) t p
  = let '(p1, e1) := run content flag n t p in
    let '(p2, e2) := run content flag m (t + n) p1 in
    (p2, (e1 ++ e2)%list).
Proof.
  revert t p. induction n as [| n IH]; intros t p.
  - cbn [Nat.add run]. rewrite Nat.add_0_r.
    destruct (run content flag m t p). reflexivity.
  - cbn [Nat.add run]. destruct (step content (flag t) p) as [p1 ev].
    rewrite IH. destruct (run content flag n (S t) p1) as [p2 e2].
    replace (S t + n)%nat with (t + S n)%nat by lia.
    destruct (run content flag m (t + S n) p2) as [p3 e3].
    rewrite app_assoc. reflexivity.
Qed.

Lemma run_ext (content : string) (f g : nat -> bool) (n t : nat) (p : pc) :
  (forall u, (t <= u < t + n)%nat -> f u = g u) ->
  run content f n t p = run content g n t p.
Proof.
  revert t p. induction n as [| n IH]; intros t p Hfg; [reflexivity |].
  cbn [run]. rewrite (Hfg t) by lia.
  destruct (step content (g t) p) as [p1 ev].
  rewrite IH; [reflexivity |]. intros u Hu. apply Hfg. lia.
Qed.

Lemma run_exit (content : string) (flag : nat -> bool) (n t : nat) :
  run content flag n t PExit = (PExit, []).
Proof.
  revert t. induction n as [| n IH]; intros t; [reflexivity |].
  cbn [run step]. rewrite IH. reflexivity.
Qed.

(** With the event set, six steps end the thread from anywhere, and at
    most one of them is an invocation. *)
Lemma six_steps_when_set (content : string) (t : nat) (p : pc) :
  exists evs, run content (fun _ => true) 6 t p = (PExit, evs)
              /\ (invocations evs <= 1)%nat.
Proof.
  destruct p as [| [| row rest] i | row rest i | rest i | rest i | rest i |];
    eexists; (split; [reflexivity | cbn; lia]).
Qed.

(** C3: once the event is set, the thread invokes the endpoint at most
    once more and leaves its loops; each of the two checks of the event
    ends its loop when the event is set. *)
Theorem worker_stops_once_terminated
  (content : string) (flag : nat -> bool) (t0 n : nat) (p : pc) :
  (forall t, (t0 <= t)%nat -> flag t = true) ->
  (6 <= n)%nat ->
  fst (run content flag n t0 p) = PExit
  /\ (invocations (snd (run content flag n t0 p)) <= 1)%nat
  /\ (forall rest i,
        step content true (PIf rest i) = (PWhile, [EvIsSet true]))
  /\ step content true PWhile = (PExit, [EvIsSet true]).
Proof.
  intros Hset Hn.
  rewrite (run_ext content flag (fun _ => true)) by (intros; apply Hset; lia).
  replace n with (6 + (n - 6))%nat by lia. rewrite run_add.
  destruct (six_steps_when_set content t0 p) as (evs & Hrun & Hinv).
  rewrite Hrun, run_exit. cbn [fst snd]. rewrite app_nil_r.
  split; [reflexivity |]. split; [exact Hinv |].
  split; [intros rest i; reflexivity | reflexivity].
Qed.

Lemma worker_stops_once_terminated_witness :
  (forall t, (2 <= t)%nat -> (2 <=? t)%nat = true)
  /\ (6 <= 7)%nat
  /\ fst (run "a" (fun t => (2 <=? t)%nat) 7 2 (PFor ["a"%string] 0)) = PExit.
Proof.
  split; [intros t Ht; apply Nat.leb_le; exact Ht |].
  split; [lia |].
  apply (worker_stops_once_terminated "a" (fun t => (2 <=? t)%nat) 2 7
           (PFor ["a"%string] 0)).
  - intros t Ht. apply Nat.leb_le. exact Ht.
  - lia.
Defined.

(** One line of the file, when the event stays clear: five steps. *)
Lemma five_steps_per_line (content : string) (flag : nat -> bool)
      (t i : nat) (row : string) (rest : list string) :
  (forall u, (t <= u < t + 5)%nat -> flag u = false) ->
  run content flag 5 t (PFor (row :: rest) i)
  = (PFor rest (S i), line_events i row).
Proof.
  intros Hclear.
  rewrite (run_ext content flag (fun _ => false))
    by (intros; apply Hclear; lia).
  reflexivity.
Qed.

Lemma run_over_lines (content : string) (flag : nat -> bool)
      (rows : list string) (t i : nat) :
  (forall u, (t <= u < t + 5 * length rows)%nat -> flag u = false) ->
  run content flag (5 * length rows) t (PFor rows i)
  = (PFor [] (i + length rows), lines_events i rows).
Proof.
  revert t i. induction rows as [| row rest IH]; intros t i Hclear.
  - cbn. rewrite Nat.add_0_r. reflexivity.
  - cbn [length] in *.
    replace (5 * S (length rest))%nat with (5 + 5 * length rest)%nat by lia.
    rewrite run_add, five_steps_per_line by (intros; apply Hclear; lia).
    rewrite IH by (intros; apply Hclear; lia).
    cbn [lines_events]. f_equal. f_equal. lia.
Qed.

Lemma lines_events_enumerate (i : nat) (rows : list string) :
  lines_events i rows
  = concat (map (fun ir => line_events (fst ir) (snd ir))
                (combine (seq i (length rows)) rows)).
Proof.
  revert i. induction rows as [| row rest IH]; intros i; [reflexivity |].
  cbn [lines_events length seq combine map concat fst snd].
  rewrite IH. reflexivity.
Qed.

(** Iterating a text file yields its text, cut after each newline. *)
Lemma file_lines_concat (s : string) :
  String.concat EmptyString (Py.file_lines s) = s.
Proof.
  induction s as [| c s IH]; [reflexivity |].
  cbn [Py.file_lines]. destruct (Ascii.eqb c Py.nl).
  - destruct (Py.file_lines s) as [| l ls] eqn:E.
    + cbn in IH. subst s. reflexivity.
    + change (String c (String.concat EmptyString (l :: ls)) = String c s).
      f_equal. exact IH.
  - destruct (Py.file_lines s) as [| l ls] eqn:E.
    + cbn in IH. subst s. reflexivity.
    + destruct ls as [| l2 ls].
      * cbn in IH. subst s. reflexivity.
      * change (String c (String.concat EmptyString (l :: l2 :: ls))
                = String c s).
        f_equal. exact IH.
Qed.

(** C4: a run of [invoke_endpoint] during which the event stays clear
    goes through the lines of the file in order; for line [i], counted
    from zero, it makes one call with the line, right-stripped of
    newlines, as body and [str(i)] as inference id, reads the response,
    sleeps one second and then checks the event. *)
Theorem invoke_endpoint_one_call_per_line
  (content : string) (flag : nat -> bool) (t : nat) :
  let rows := Py.file_lines content in
  (forall u, (t <= u < t + (2 + 5 * length rows))%nat -> flag u = false) ->
  run content flag (2 + 5 * length rows) t PWhile
  = (PWhile,
     EvIsSet false
     :: concat (map (fun ir =>
                       [EvInvoke (Py.rstrip_nl (snd ir))
                                 (Py.str_int (Z.of_nat (fst ir)));
                        EvRead; EvSleep 1; EvIsSet false])
                    (combine (seq 0 (length rows)) rows))).
Proof.
  intros rows Hclear.
  replace (2 + 5 * length rows)%nat with (1 + (5 * length rows + 1))%nat by lia.
  rewrite run_add. cbn [run step]. rewrite (Hclear t) by lia.
  fold rows. rewrite run_add, run_over_lines by (intros; apply Hclear; lia).
  cbn [run step]. rewrite lines_events_enumerate.
  cbn [app]. rewrite app_nil_r. reflexivity.
Qed.

Lemma invoke_endpoint_one_call_per_line_witness :
  (forall u, (0 <= u < 0 + (2 + 5 * 2))%nat -> (fun _ : nat => false) u = false)
  /\ run Inputs.two_lines (fun _ => false) 12 0 PWhile
     = (PWhile,
        [EvIsSet false;
         EvInvoke "35,1" "0"; EvRead; EvSleep 1; EvIsSet false;
         EvInvoke "41,0" "1"; EvRead; EvSleep 1; EvIsSet false]%string).
Proof.
  split; [reflexivity |].
  apply (invoke_endpoint_one_call_per_line Inputs.two_lines (fun _ => false) 0).
  reflexivity.
Defined.

(** ** Threads per notebook *)

Import Notebook.

(** C5, as stated, fails: the model-quality notebook starts two worker
    threads, the traffic generator and the ground-truth generator. *)
Lemma model_quality_nb_starts_two_threads :
  ~ Forall (fun nb => (started (exec (snd nb)) <= 1)%nat) notebooks.
Proof.
  intros H. rewrite List.Forall_forall in H.
  specialize (H ("unnamed/part_002: model monitoring, model quality"%string,
                 model_quality_nb)).
  assert (Hin : In ("unnamed/part_002: model monitoring, model quality"%string,
                    model_quality_nb) notebooks).
  { unfold notebooks. cbn [In]. tauto. }
  specialize (H Hin). vm_compute in H. lia.
Qed.

(** C5, amended: a notebook starts at most two worker threads, one in the
    data-quality notebook and two in the model-quality notebook, none in
    the others, and it sets the terminate event of every thread it
    started. *)
Theorem notebooks_start_at_most_two_threads :
  Forall (fun nb =>
            (started (exec (snd nb)) <= 2)%nat
            /\ Forall (fun t => th_started t = true
                                -> th_terminate_event t = true)
                      (exec (snd nb)))
         notebooks
  /\ map (fun nb => started (exec (snd nb))) notebooks
     = [0; 0; 0; 1; 0; 0; 0; 2; 0; 0]%nat.
Proof.
  split; [| reflexivity].
  repeat constructor; vm_compute; lia.
Qed.

(** ** Synthetic ground truth *)

Import Json GroundTruth.

Lemma contains_app (c : ascii) (s1 s2 : string) :
  Py.contains c (s1 ++ s2)%string = Py.contains c s1 || Py.contains c s2.
Proof.
  induction s1 as [| x s1 IH]; [reflexivity |].
  simpl. rewrite IH, orb_assoc. reflexivity.
Qed.

Lemma append_assoc (s1 s2 s3 : string) :
  ((s1 ++ s2) ++ s3 = s1 ++ (s2 ++ s3))%string.
Proof.
  induction s1 as [| x s1 IH]; [reflexivity |].
  simpl. rewrite IH. reflexivity.
Qed.

(** Decimal digits need no escape and hold no newline. *)
Lemma escape_uint (d : Decimal.uint) :
  escape (NilEmpty.string_of_uint d) = NilEmpty.string_of_uint d
  /\ Py.contains Py.nl (NilEmpty.string_of_uint d) = false.
Proof.
  induction d as [| d [IH1 IH2] | d [IH1 IH2] | d [IH1 IH2] | d [IH1 IH2]
                  | d [IH1 IH2] | d [IH1 IH2] | d [IH1 IH2] | d [IH1 IH2]
                  | d [IH1 IH2] | d [IH1 IH2]];
    cbn [NilEmpty.string_of_uint escape Py.contains];
    [split; reflexivity | ..];
    (split; [rewrite IH1; reflexivity | rewrite IH2; reflexivity]).
Qed.

Lemma escape_str_int (z : Z) :
  escape (Py.str_int z) = Py.str_int z
  /\ Py.contains Py.nl (Py.str_int z) = false.
Proof.
  unfold Py.str_int, NilZero.string_of_int, NilZero.string_of_uint.
  destruct (Z.to_int z) as [d | d].
  - destruct d; try apply escape_uint. split; reflexivity.
  - destruct d;
      try (cbn [escape Py.contains];
           match goal with
           | |- context [NilEmpty.string_of_uint ?u] =>
               destruct (escape_uint u) as [H1 H2]; rewrite H1, H2
           end; split; reflexivity).
    split; reflexivity.
Qed.

Lemma dumps_merge_record (d eid : string) :
  dumps (merge_record d eid) = merge_line (escape d) (escape eid).
Proof.
  unfold merge_record, merge_line.
  cbv -[String.append escape].
  repeat match goal with
         | |- context [escape (String ?c ?s)] =>
             let r := eval vm_compute in (escape (String c s)) in
             change (escape (String c s)) with r
         end.
  generalize (escape d) (escape eid). intros ed ee.
  simpl. rewrite !append_assoc. simpl. rewrite !append_assoc. reflexivity.
Qed.

Lemma merge_line_one_line (d eid : string) :
  Py.contains Py.nl d = false -> Py.contains Py.nl eid = false ->
  Py.contains Py.nl (merge_line d eid) = false.
Proof.
  intros Hd He. unfold merge_line. cbv zeta.
  rewrite !contains_app, Hd, He. reflexivity.
Qed.

Section GroundTruthFacts.
Variable rng : Type.
Variable seed : Z -> rng.
Variable random : rng -> Z * rng.
Variable path : string.

Lemma ground_truth_shape (inference_id : Z) (g : rng) :
  exists d, is_label d
    /\ fst (ground_truth_with_id rng seed random inference_id g)
       = merge_record d (Py.str_int inference_id).
Proof.
  unfold ground_truth_with_id. destruct (random (seed inference_id)) as [k g2].
  destruct (Binary64.ltb (Binary64.Dy k (-53)) Binary64.lit_0_7).
  - exists "1"%string. split; [left; reflexivity | reflexivity].
  - exists "0"%string. split; [right; reflexivity | reflexivity].
Qed.

Lemma ground_truth_ignores_state (inference_id : Z) (g1 g2 : rng) :
  ground_truth_with_id rng seed random inference_id g1
  = ground_truth_with_id rng seed random inference_id g2.
Proof. reflexivity. Qed.

Lemma records_for_ignore_state (ids : list Z) (g1 g2 : rng) :
  fst (records_for rng seed random ids g1)
  = fst (records_for rng seed random ids g2).
Proof.
  destruct ids as [| i ids]; [reflexivity |].
  cbn [records_for].
  rewrite (ground_truth_ignores_state i g1 g2). reflexivity.
Qed.

Lemma records_for_lines (ids : list Z) (g : rng) :
  exists labels,
    length labels = length ids
    /\ Forall is_label labels
    /\ map dumps (fst (records_for rng seed random ids g))
       = map (fun di => merge_line (fst di) (Py.str_int (snd di)))
             (combine labels ids).
Proof.
  revert g. induction ids as [| i ids IH]; intros g.
  - exists []. repeat split; constructor.
  - cbn [records_for].
    destruct (ground_truth_shape i g) as (d & Hd & Hrec).
    destruct (ground_truth_with_id rng seed random i g) as [r g1].
    cbn [fst] in Hrec. subst r.
    destruct (IH g1) as (labels & Hlen & Hall & Hmap).
    destruct (records_for rng seed random ids g1) as [rs g2].
    cbn [fst] in *. exists (d :: labels).
    split; [cbn; lia |]. split; [constructor; assumption |].
    cbn [map combine fst snd]. rewrite Hmap, dumps_merge_record.
    destruct (escape_str_int i) as [Hesc _]. rewrite Hesc.
    destruct Hd as [-> | ->]; reflexivity.
Qed.

End GroundTruthFacts.

(** C2: for every inference id the record has the fields of the merge
    format and no other, in this order: [groundTruthData] with [data]
    ("1" or "0") and [encoding] ("CSV"), [eventMetadata] with [eventId]
    equal to [str(inference_id)], and [eventVersion] "0"; serialised it is
    one line of text, and the uploaded body is the 180 such lines, for
    the ids 0 to 179, joined by newlines. *)
Theorem ground_truth_record_format
  (rng : Type) (seed : Z -> rng) (random : rng -> Z * rng) (path : string) :
  (forall (inference_id : Z) (g : rng),
     exists d,
       is_label d
       /\ fst (ground_truth_with_id rng seed random inference_id g)
          = JObj [("groundTruthData",
                   JObj [("data", JStr d); ("encoding", JStr "CSV")]);
                  ("eventMetadata",
                   JObj [("eventId", JStr (Py.str_int inference_id))]);
                  ("eventVersion", JStr "0")]%string
       /\ dumps (fst (ground_truth_with_id rng seed random inference_id g))
          = merge_line d (Py.str_int inference_id)
       /\ Py.contains Py.nl (merge_line d (Py.str_int inference_id)) = false)
  /\ (forall (upload_time : datetime) (g : rng),
        exists labels,
          length labels = 180%nat
          /\ Forall is_label labels
          /\ put_body (fst (upload_ground_truth rng seed random path
                              upload_time g))
             = Py.join (String Py.nl EmptyString)
                 (map (fun di => merge_line (fst di) (Py.str_int (snd di)))
                      (combine labels range_180))).
Proof.
  split.
  - intros inference_id g.
    destruct (ground_truth_shape rng seed random inference_id g)
      as (d & Hd & Hrec).
    exists d. split; [exact Hd |]. split; [exact Hrec |].
    destruct (escape_str_int inference_id) as [Hesc Hnl].
    split.
    + rewrite Hrec, dumps_merge_record, Hesc.
      destruct Hd as [-> | ->]; reflexivity.
    + apply merge_line_one_line; [| exact Hnl].
      destruct Hd as [-> | ->]; reflexivity.
  - intros upload_time g. unfold upload_ground_truth.
    destruct (records_for_lines rng seed random range_180 g)
      as (labels & Hlen & Hall & Hmap).
    destruct (records_for rng seed random range_180 g) as [records g1].
    cbn [fst put_body] in *. exists labels.
    split; [rewrite Hlen; reflexivity |]. split; [exact Hall |].
    rewrite Hmap. reflexivity.
Qed.

(** C10: the record depends on the inference id alone, not on the state
    the generator was in, because the generator is reseeded first; so the
    body uploaded is the same for every upload time and every run. *)
Theorem ground_truth_is_deterministic
  (rng : Type) (seed : Z -> rng) (random : rng -> Z * rng) (path : string) :
  (forall (inference_id : Z) (g1 g2 : rng),
     ground_truth_with_id rng seed random inference_id g1
     = ground_truth_with_id rng seed random inference_id g2)
  /\ (forall (t1 t2 : datetime) (g1 g2 : rng),
        put_body (fst (upload_ground_truth rng seed random path t1 g1))
        = put_body (fst (upload_ground_truth rng seed random path t2 g2))).
Proof.
  split.
  - intros. reflexivity.
  - intros t1 t2 g1 g2. unfold upload_ground_truth.
    pose proof (records_for_ignore_state rng seed random range_180 g1 g2) as H.
    destruct (records_for rng seed random range_180 g1) as [r1 h1].
    destruct (records_for rng seed random range_180 g2) as [r2 h2].
    cbn [fst put_body] in *. subst r2. reflexivity.
Qed.

Example ground_truth_with_id_5 :
  dumps (fst (ground_truth_with_id Z lcg_seed lcg_random 5 0))
  = merge_line "0" "5".
Proof. vm_compute. reflexivity. Qed.

(** ** Exceptions of client calls *)

Import Sdk Iam.

Section IamFacts.
Context {S : Type} `{IamClient S}.

Lemma create_lambda_iam_role_caught (role_name : string) (s s1 : S) :
  create_role role_name (Json.dumps assume_role_policy)
    "Role for Lambda to call SageMaker" s = (Raise EntityAlreadyExists, s1) ->
  create_lambda_iam_role role_name s
  = match get_role role_name s1 with
    | (Ok arn, s2) => (Ok arn, s2)
    | (Raise e, s2) => (Raise e, s2)
    end.
Proof.
  intros Hc. unfold create_lambda_iam_role, catch, bind. rewrite Hc.
  unfold ret. destruct (get_role role_name s1) as [[arn | e] s2]; reflexivity.
Qed.

Lemma create_lambda_iam_role_propagates
      (role_name code : string) (s s1 : S) :
  create_role role_name (Json.dumps assume_role_policy)
    "Role for Lambda to call SageMaker" s = (Raise (ClientError code), s1) ->
  create_lambda_iam_role role_name s = (Raise (ClientError code), s1).
Proof.
  intros Hc. unfold create_lambda_iam_role, catch, bind. rewrite Hc.
  reflexivity.
Qed.

End IamFacts.

Lemma create_lambda_cell_never_raises {S : Type} `{LambdaClient S} (s : S) :
  exists r s', create_lambda_cell s = (Ok r, s')
    /\ (forall e s1, lambda_create s = (Raise e, s1) ->
          r = (None, "Lambda function already exists!"%string) /\ s' = s1).
Proof.
  unfold create_lambda_cell, catch, bind, ret.
  destruct (lambda_create s) as [[arn | e] s1] eqn:E.
  - eexists _, _. split; [reflexivity |]. intros e s2 Habs. discriminate Habs.
  - eexists _, _. split; [reflexivity |]. intros e' s2 Heq.
    inversion Heq. split; reflexivity.
Qed.

Lemma lineage_artifacts_total (vs : list vertex) :
  length (lineage_artifacts vs) = length vs
  /\ Forall2 (fun v a => match vertex_source_uri v with
                         | Ok uri => a = uri
                         | Raise _ => a = vertex_arn v
                         end) vs (lineage_artifacts vs).
Proof.
  induction vs as [| v vs [IH1 IH2]]; [split; constructor |].
  cbn [lineage_artifacts].
  destruct (vertex_source_uri v) as [uri | e] eqn:E; cbn [length];
    (split; [f_equal; exact IH1 |]);
    (constructor; [rewrite E; reflexivity | exact IH2]).
Qed.

(** The polling loop: a status other than InService is asked for again
    after a sleep, and an exception of the call leaves the loop. *)
Import Polling.

Lemma wait_in_service_turn {T : Type} `{EndpointClient T}
      (fuel : nat) (response_status : string) (t : T) :
  response_status <> "InService"%string ->
  wait_in_service (Datatypes.S fuel) response_status t
  = match describe_endpoint t with
    | (Raise e, t1) => (Some (Raise e), sleeps_before response_status, t1)
    | (Ok status, t1) =>
        let '(r, more, t2) := wait_in_service fuel status t1 in
        (r, (sleeps_before response_status ++ more)%list, t2)
    end.
Proof.
  intros Hne. cbn [wait_in_service].
  destruct (String.eqb_spec response_status "InService") as [Heq | _];
    [contradiction | reflexivity].
Qed.

Lemma wait_in_service_reaches (pending : list string) (status : string) :
  status <> "InService"%string ->
  Forall (fun st => st <> "InService"%string /\ st <> "None"%string) pending ->
  wait_in_service (length pending + 2) status
                  (pending ++ ["InService"%string])%list
  = (Some (Ok tt),
     (sleeps_before status ++ repeat 120%nat (length pending))%list,
     ["InService"%string]).
Proof.
  revert status. induction pending as [| st rest IH]; intros status Hne Hall.
  - cbn [length Nat.add]. rewrite wait_in_service_turn by exact Hne.
    cbn. rewrite app_nil_r. reflexivity.
  - inversion Hall as [| ? ? [Hst Hnone] Hrest]; subst.
    cbn [length Nat.add]. rewrite wait_in_service_turn by exact Hne.
    assert (Hd : describe_endpoint ((st :: rest) ++ ["InService"%string])%list
                 = (Ok st, (rest ++ ["InService"%string])%list)).
    { cbn. destruct rest; reflexivity. }
    rewrite Hd, (IH st Hst Hrest).
    unfold sleeps_before at 2.
    destruct (String.eqb_spec st "None") as [Heq | _]; [contradiction |].
    reflexivity.
Qed.

(** C6, as stated, fails: when the role exists, [create_role] raises
    [EntityAlreadyExistsException] and [create_lambda_iam_role] returns
    the Arn of the existing role instead of raising. *)
Lemma create_lambda_iam_role_recovers_locally :
  ~ (forall (s s1 : iam_state) (role_name : string) (e : exn),
       create_role role_name (Json.dumps assume_role_policy)
         "Role for Lambda to call SageMaker" s = (Raise e, s1) ->
       fst (create_lambda_iam_role role_name s) = Raise e).
Proof.
  intros Hall.
  specialize (Hall Inputs.iam_with_role Inputs.iam_with_role
                   "lambda-deployment-role"%string EntityAlreadyExists).
  assert (Hraise : create_role "lambda-deployment-role"
                     (Json.dumps assume_role_policy)
                     "Role for Lambda to call SageMaker" Inputs.iam_with_role
                   = (@Raise string EntityAlreadyExists, Inputs.iam_with_role))
    by reflexivity.
  specialize (Hall Hraise).
  assert (Hok : fst (create_lambda_iam_role "lambda-deployment-role"
                       Inputs.iam_with_role) = Ok "arn:existing"%string)
    by reflexivity.
  rewrite Hok in Hall. discriminate Hall.
Qed.

(** C6, amended: an exception of a client call propagates to the caller
    except where the code catches it.  [create_lambda_iam_role] catches
    [EntityAlreadyExistsException] and answers with what [get_role]
    returns for the existing role; any other exception of [create_role]
    propagates.  The Lambda-creation cell catches every exception, prints
    that the function exists and goes on; the lineage loops fall back to
    the Arn of a vertex whose lineage object cannot be built.  The loop
    that waits for the endpoint asks again after a sleep while the status
    is not the awaited one, lets an exception of the call through, and
    ends once the endpoint is in service. *)
Theorem exceptions_caught_or_propagated
  (S : Type) (C : IamClient S) (role_name : string) (s s1 : S) (e : exn) :
  create_role role_name (Json.dumps assume_role_policy)
    "Role for Lambda to call SageMaker" s = (Raise e, s1) ->
  create_lambda_iam_role role_name s
  = match e with
    | EntityAlreadyExists =>
        match get_role role_name s1 with
        | (Ok arn, s2) => (Ok arn, s2)
        | (Raise e', s2) => (Raise e', s2)
        end
    | ClientError _ => (Raise e, s1)
    end
  /\ (forall (T : Type) (L : LambdaClient T) (t : T),
        exists r t', create_lambda_cell t = (Ok r, t')
          /\ (forall e' t1, lambda_create t = (Raise e', t1) ->
                r = (None, "Lambda function already exists!"%string)
                /\ t' = t1))
  /\ (forall vs : list vertex,
        length (lineage_artifacts vs) = length vs
        /\ Forall2 (fun v a => match vertex_source_uri v with
                               | Ok uri => a = uri
                               | Raise _ => a = vertex_arn v
                               end) vs (lineage_artifacts vs))
  /\ (forall (T : Type) (E : EndpointClient T) (fuel : nat)
             (response_status : string) (t : T),
        response_status <> "InService"%string ->
        wait_in_service (Datatypes.S fuel) response_status t
        = match describe_endpoint t with
          | (Raise e', t1) =>
              (Some (Raise e'), sleeps_before response_status, t1)
          | (Ok status, t1) =>
              let '(r, more, t2) := wait_in_service fuel status t1 in
              (r, (sleeps_before response_status ++ more)%list, t2)
          end)
  /\ (forall pending : list string,
        Forall (fun st => st <> "InService"%string /\ st <> "None"%string)
               pending ->
        wait_in_service (length pending + 2) "None"
                        (pending ++ ["InService"%string])%list
        = (Some (Ok tt), repeat 120%nat (length pending),
           ["InService"%string])).
Proof.
  intros Hc. split; [| split; [| split; [| split]]].
  - destruct e as [| code].
    + apply create_lambda_iam_role_caught. exact Hc.
    + apply create_lambda_iam_role_propagates. exact Hc.
  - intros T L t. apply create_lambda_cell_never_raises.
  - apply lineage_artifacts_total.
  - intros T E fuel response_status t Hne.
    apply wait_in_service_turn, Hne.
  - intros pending Hall.
    apply (wait_in_service_reaches pending "None"); [discriminate | exact Hall].
Qed.

Lemma exceptions_caught_or_propagated_witness :
  create_role "r" (Json.dumps assume_role_policy)
    "Role for Lambda to call SageMaker" Inputs.iam_read_only
  = (@Raise string (ClientError "AccessDenied"), Inputs.iam_read_only)
  /\ create_lambda_iam_role "r" Inputs.iam_read_only
     = (Raise (ClientError "AccessDenied"), Inputs.iam_read_only).
Proof.
  split; [reflexivity |].
  apply (exceptions_caught_or_propagated iam_state iam_model "r"
           Inputs.iam_read_only Inputs.iam_read_only
           (ClientError "AccessDenied")).
  reflexivity.
Defined.

(** ** Requests that change the remote state *)

Import Platform Requests.

Lemma approve_cell_sets_status (arn : string) (a : approval) (p : platform) :
  packages p !! arn = Some a ->
  exists p', approve_cell arn p = (Ok tt, p')
    /\ packages p' !! arn = Some Approved
    /\ (forall other, other <> arn ->
          packages p' !! other = packages p !! other)
    /\ schedules p' = schedules p.
Proof.
  intros Hin. unfold approve_cell. cbn [update_model_package platform_model].
  unfold model_update_model_package. rewrite Hin.
  eexists. split; [reflexivity |]. cbn [packages schedules].
  split; [apply lookup_insert_eq |]. split; [| reflexivity].
  intros other Hne. apply lookup_insert_ne. congruence.
Qed.

(** One monitor of the loop: stopped, then deleted. *)
Lemma stop_then_delete_idle (name : string) (sc : schedule) (p : platform) :
  schedules p !! name = Some sc -> sched_executing sc = false ->
  (_ <- stop_monitoring_schedule name ;; delete_monitoring_schedule name) p
  = (Ok tt, MkPlatform (packages p) (delete name (schedules p))).
Proof.
  intros Hin Hidle. unfold bind.
  cbn [stop_monitoring_schedule delete_monitoring_schedule platform_model].
  unfold model_stop_monitoring_schedule, model_delete_monitoring_schedule.
  rewrite Hin. cbn [schedules packages].
  rewrite lookup_insert_eq. cbn [sched_executing]. rewrite Hidle.
  rewrite delete_insert_eq. reflexivity.
Qed.

(** A schedule with an execution in progress is stopped, and then its
    delete is refused. *)
Lemma stop_then_delete_busy (name : string) (sc : schedule) (p : platform) :
  schedules p !! name = Some sc -> sched_executing sc = true ->
  (_ <- stop_monitoring_schedule name ;; delete_monitoring_schedule name) p
  = (Raise (ClientError "ValidationException"),
     MkPlatform (packages p)
       (<[name := Schedule (sched_endpoint sc) Stopped true]> (schedules p))).
Proof.
  intros Hin Hbusy. unfold bind.
  cbn [stop_monitoring_schedule delete_monitoring_schedule platform_model].
  unfold model_stop_monitoring_schedule, model_delete_monitoring_schedule.
  rewrite Hin. cbn [schedules packages].
  rewrite lookup_insert_eq. cbn [sched_executing]. rewrite Hbusy.
  reflexivity.
Qed.

Lemma stop_and_delete_idle (l : list string) (p : platform) :
  List.NoDup l ->
  (forall n, In n l ->
     exists sc, schedules p !! n = Some sc /\ sched_executing sc = false) ->
  exists p', stop_and_delete l p = (Ok tt, p')
    /\ packages p' = packages p
    /\ (forall n, In n l -> schedules p' !! n = None)
    /\ (forall n, ~ In n l -> schedules p' !! n = schedules p !! n).
Proof.
  revert p. induction l as [| name l IH]; intros p Hnd Hidle.
  - exists p. cbn. repeat split; try reflexivity. intros n [].
  - inversion Hnd as [| ? ? Hnotin Hnd']; subst.
    destruct (Hidle name (or_introl eq_refl)) as (sc & Hin & Hex).
    pose proof (stop_then_delete_idle name sc p Hin Hex) as Hstep.
    set (p1 := MkPlatform (packages p) (delete name (schedules p))) in *.
    destruct (IH p1 Hnd') as (p' & Hrun & Hpk & Hgone & Hkept).
    { intros n Hn. destruct (Hidle n (or_intror Hn)) as (sc' & Hin' & Hex').
      exists sc'. split; [| exact Hex']. cbn [p1 schedules].
      rewrite lookup_delete_ne; [exact Hin' |]. intros ->. contradiction. }
    exists p'. split.
    + cbn [stop_and_delete]. unfold bind in *.
      destruct (stop_monitoring_schedule name p) as [[[] | e] q];
        [| discriminate Hstep].
      rewrite Hstep. exact Hrun.
    + split; [rewrite Hpk; reflexivity |]. split.
      * intros n [-> | Hn]; [| apply Hgone, Hn].
        rewrite Hkept by exact Hnotin. cbn [p1 schedules].
        apply lookup_delete_eq.
      * intros n Hn.
        rewrite Hkept by (intros Hin'; apply Hn; right; exact Hin').
        cbn [p1 schedules]. apply lookup_delete_ne.
        intros ->. apply Hn. left. reflexivity.
Qed.

Lemma NoDup_filter_fst {A B} (f : A * B -> bool) (l : list (A * B)) :
  List.NoDup (map fst l) -> List.NoDup (map fst (List.filter f l)).
Proof.
  induction l as [| x l IH]; intros Hnd; [constructor |].
  cbn [map] in Hnd. inversion Hnd as [| ? ? Hnotin Hnd']; subst.
  cbn [List.filter]. destruct (f x); [| apply IH, Hnd'].
  cbn [map]. constructor; [| apply IH, Hnd'].
  intros Hin. apply Hnotin. apply in_map_iff in Hin as ((a & b) & Hab & Hin).
  apply filter_In in Hin as [Hin _]. apply in_map_iff. exists (a, b).
  split; assumption.
Qed.

Lemma in_list_monitors (endpoint n : string) (m : gmap string schedule) :
  In n (map fst (List.filter (watches endpoint) (map_to_list m)))
  <-> exists sc, m !! n = Some sc /\ sched_endpoint sc = endpoint.
Proof.
  rewrite in_map_iff. split.
  - intros ((k & sc) & Hk & Hin). cbn in Hk. subst k.
    apply filter_In in Hin as [Hin Hw].
    apply list_elem_of_In, elem_of_map_to_list in Hin.
    exists sc. split; [exact Hin |]. apply String.eqb_eq. exact Hw.
  - intros (sc & Hin & Hep). exists (n, sc). split; [reflexivity |].
    apply filter_In. split.
    + apply list_elem_of_In, elem_of_map_to_list. exact Hin.
    + unfold watches. cbn [snd]. apply String.eqb_eq. exact Hep.
Qed.

(** The loop on the recording client: for each monitor in turn a stop
    and then a delete, up to the first request that is refused. *)
Lemma stop_and_delete_requests
      (monitors : string -> list string) (refused : request -> option exn)
      (model_monitors : list string) (log : list request) :
  @stop_and_delete _ (recorder monitors refused) model_monitors log
  = send_all refused
      (flat_map (fun name => [ReqStop name; ReqDelete name]) model_monitors)
      log.
Proof.
  revert log. induction model_monitors as [| m ms IH]; intros log;
    [reflexivity |].
  cbn [stop_and_delete flat_map app send_all]. unfold bind.
  cbn [stop_monitoring_schedule delete_monitoring_schedule recorder].
  unfold send. destruct (refused (ReqStop m)); [reflexivity |].
  destruct (refused (ReqDelete m)); [reflexivity |].
  apply IH.
Qed.

Lemma cleanup_cell_requests
      (monitors : string -> list string) (refused : request -> option exn)
      (endpoint : string) (log : list request) :
  @cleanup_cell _ (recorder monitors refused) endpoint log
  = send_all refused (cleanup_requests monitors endpoint) log.
Proof.
  unfold cleanup_cell, cleanup_requests, bind.
  cbn [list_monitors recorder send_all]. unfold send.
  destruct (refused (ReqList endpoint)); [reflexivity |].
  apply stop_and_delete_requests.
Qed.

(** C7, as stated, fails: the approval cell changes the approval status
    of the model package from pending to approved. *)
Lemma approve_cell_writes_status :
  ~ (forall (p : platform) (arn : string), snd (approve_cell arn p) = p).
Proof.
  intros Hall.
  specialize (Hall Inputs.registry_pending "arn:model-package/1"%string).
  apply (f_equal (fun p => packages p !! "arn:model-package/1"%string)) in Hall.
  vm_compute in Hall. discriminate Hall.
Qed.

(** C7, amended: the code keeps no lifecycle state of its own, but it
    asks the service to change it.  To any service, the approval cell
    sends one request, an update of the named model package to approved,
    and the cleanup cell sends the listing of the endpoint's monitors and
    then, for each monitor listed and in that order, a stop request
    followed by a delete request, ending at the first request the service
    refuses.  On the service model the approval cell sets the approval
    status of the package to approved and leaves every other package and
    every schedule as it was, and the cleanup cell, when none of the
    endpoint's schedules has an execution in progress, removes every
    monitoring schedule of the endpoint and leaves the other schedules
    and the packages as they were. *)
Theorem lifecycle_changed_on_request
  (p : platform) (arn endpoint : string) (a : approval) :
  packages p !! arn = Some a ->
  (forall n sc, schedules p !! n = Some sc -> sched_endpoint sc = endpoint ->
                sched_executing sc = false) ->
  (exists p1, approve_cell arn p = (Ok tt, p1)
     /\ packages p1 !! arn = Some Approved
     /\ (forall other, other <> arn ->
           packages p1 !! other = packages p !! other)
     /\ schedules p1 = schedules p)
  /\ (exists p2, cleanup_cell endpoint p = (Ok tt, p2)
        /\ packages p2 = packages p
        /\ (forall n sc, schedules p !! n = Some sc ->
              schedules p2 !! n
              = if String.eqb (sched_endpoint sc) endpoint
                then None else Some sc)
        /\ (forall n, schedules p !! n = None -> schedules p2 !! n = None))
  /\ (forall (monitors : string -> list string)
             (refused : request -> option exn) (log : list request),
        @approve_cell _ (recorder monitors refused) arn log
        = send_all refused [ReqUpdate arn Approved] log
        /\ @cleanup_cell _ (recorder monitors refused) endpoint log
           = send_all refused (cleanup_requests monitors endpoint) log).
Proof.
  intros Hpkg Hidle. split; [apply (approve_cell_sets_status arn a p Hpkg) |].
  split;
    [| intros monitors refused log; split;
       [unfold approve_cell; cbn [update_model_package recorder send_all];
        unfold send; destruct (refused (ReqUpdate arn Approved)); reflexivity
       | apply cleanup_cell_requests]].
  unfold cleanup_cell, bind.
  cbn [list_monitors platform_model]. unfold model_list_monitors.
  set (l := map fst (List.filter (watches endpoint)
                       (map_to_list (schedules p)))).
  destruct (stop_and_delete_idle l p) as (p2 & Hrun & Hpk & Hgone & Hkept).
  - apply NoDup_filter_fst. apply NoDup_ListNoDup.
    apply (NoDup_fst_map_to_list (schedules p)).
  - intros n Hn. apply in_list_monitors in Hn as (sc & Hin & Hep).
    exists sc. split; [exact Hin | apply (Hidle n sc Hin Hep)].
  - exists p2. split; [exact Hrun |]. split; [exact Hpk |]. split.
    + intros n sc Hin.
      destruct (String.eqb_spec (sched_endpoint sc) endpoint) as [Hep | Hne].
      * apply Hgone. apply in_list_monitors. exists sc. split; assumption.
      * rewrite Hkept; [exact Hin |].
        intros Hn. apply in_list_monitors in Hn as (sc' & Hin' & Hep').
        congruence.
    + intros n Hnone. rewrite Hkept; [exact Hnone |].
      intros Hn. apply in_list_monitors in Hn as (sc' & Hin' & _).
      congruence.
Qed.

Lemma lifecycle_changed_on_request_witness :
  packages Inputs.registry_pending !! "arn:model-package/1"%string
  = Some PendingManualApproval
  /\ (exists p1,
        approve_cell "arn:model-package/1" Inputs.registry_pending
        = (Ok tt, p1)
        /\ packages p1 !! "arn:model-package/1"%string = Some Approved)
  /\ @cleanup_cell _
       (recorder (fun _ => ["data-quality"%string; "model-quality"%string])
                 (fun _ => None))
       "endpoint" []
     = (Ok tt,
        [ReqList "endpoint";
         ReqStop "data-quality"; ReqDelete "data-quality";
         ReqStop "model-quality"; ReqDelete "model-quality"]).
Proof.
  split; [reflexivity |].
  destruct (lifecycle_changed_on_request Inputs.registry_pending
              "arn:model-package/1" "endpoint" PendingManualApproval)
    as [(p1 & Hrun & Hst & _) [_ Hreq]].
  - reflexivity.
  - intros n sc Hin Hep.
    destruct (decide (n = "data-quality"%string)) as [-> | Hne].
    + vm_compute in Hin. inversion Hin. reflexivity.
    + unfold Inputs.registry_pending in Hin. cbn [schedules] in Hin.
      rewrite lookup_singleton_ne in Hin by congruence. discriminate Hin.
  - split; [exists p1; split; assumption |].
    exact (proj2 (Hreq (fun _ => ["data-quality"%string;
                                  "model-quality"%string])
                       (fun _ => None) [])).
Defined.

(** ** [process]: column bookkeeping *)

Lemma mem_In (n : string) (l : list string) : mem n l = true <-> In n l.
Proof.
  unfold mem. rewrite existsb_exists. split.
  - intros (x & Hin & Heq). apply String.eqb_eq in Heq. subst x. exact Hin.
  - intros Hin. exists n. split; [exact Hin | apply String.eqb_refl].
Qed.

Lemma mem_false (n : string) (l : list string) : mem n l = false <-> ~ In n l.
Proof.
  rewrite <- mem_In. destruct (mem n l); split; congruence.
Qed.

Lemma col_lookup_some (n : string) (df : frame) :
  In n (names df) -> exists c, col_lookup n df = Some c /\ In (n, c) df.
Proof.
  induction df as [| [m d] df IH]; intros Hin; [destruct Hin |].
  cbn [col_lookup]. destruct (String.eqb_spec m n) as [-> | Hne].
  - exists d. split; [reflexivity | left; reflexivity].
  - destruct Hin as [Hm | Hin]; [cbn in Hm; congruence |].
    destruct (IH Hin) as (c & Hc & Hinc). exists c.
    split; [exact Hc | right; exact Hinc].
Qed.

Lemma col_lookup_in (n : string) (c : column) (df : frame) :
  col_lookup n df = Some c -> In (n, c) df.
Proof.
  induction df as [| [m d] df IH]; intros H; [discriminate H |].
  cbn [col_lookup] in H. destruct (String.eqb_spec m n) as [-> | Hne].
  - inversion H. left. reflexivity.
  - right. apply IH, H.
Qed.

Lemma col_lookup_set_ne (n m : string) (c : column) (df : frame) :
  m <> n -> col_lookup m (set_column n c df) = col_lookup m df.
Proof.
  intros Hne. induction df as [| [k d] df IH]; cbn [set_column col_lookup].
  - destruct (String.eqb_spec n m); [congruence | reflexivity].
  - destruct (String.eqb_spec k n) as [-> | Hkn]; cbn [col_lookup].
    + destruct (String.eqb_spec n m); [congruence | reflexivity].
    + rewrite IH. reflexivity.
Qed.

Lemma names_set_column (n : string) (c : column) (df : frame) :
  names (set_column n c df)
  = if mem n (names df) then names df else (names df ++ [n])%list.
Proof.
  induction df as [| [k d] df IH]; [reflexivity |].
  cbn [set_column names map fst mem existsb].
  rewrite (String.eqb_sym n k).
  destruct (String.eqb_spec k n) as [-> | Hkn]; [reflexivity |].
  cbn [names map fst orb]. fold (names (set_column n c df)). rewrite IH.
  fold (names df). fold (mem n (names df)).
  destruct (mem n (names df)); reflexivity.
Qed.

Lemma NoDup_set_column (n : string) (c : column) (df : frame) :
  List.NoDup (names df) -> List.NoDup (names (set_column n c df)).
Proof.
  intros Hnd. rewrite names_set_column.
  destruct (mem n (names df)) eqn:E; [exact Hnd |].
  apply mem_false in E. apply List.NoDup_rev in Hnd.
  rewrite <- (rev_involutive (names df ++ [n])%list).
  apply List.NoDup_rev. rewrite rev_app_distr. cbn [rev app].
  constructor; [rewrite <- in_rev; exact E | exact Hnd].
Qed.

Lemma in_set_column_new (n : string) (c : column) (df : frame) :
  In (n, c) (set_column n c df).
Proof.
  induction df as [| [k d] df IH]; cbn [set_column]; [left; reflexivity |].
  destruct (String.eqb_spec k n) as [-> | Hkn].
  - left. reflexivity.
  - right. exact IH.
Qed.

Lemma in_set_column_old (n m : string) (c d : column) (df : frame) :
  m <> n -> In (m, d) df -> In (m, d) (set_column n c df).
Proof.
  intros Hne. induction df as [| [k e] df IH]; intros Hin; [destruct Hin |].
  cbn [set_column]. destruct (String.eqb_spec k n) as [-> | Hkn].
  - destruct Hin as [Heq | Hin]; [inversion Heq; congruence | right; exact Hin].
  - destruct Hin as [Heq | Hin]; [left; exact Heq | right; apply IH, Hin].
Qed.

Lemma in_set_column_inv (n m : string) (c d : column) (df : frame) :
  In (m, d) (set_column n c df) -> (m = n /\ d = c) \/ In (m, d) df.
Proof.
  induction df as [| [k e] df IH]; cbn [set_column]; intros Hin.
  - destruct Hin as [Heq | []]. inversion Heq. left. split; reflexivity.
  - destruct (String.eqb_spec k n) as [-> | Hkn].
    + destruct Hin as [Heq | Hin].
      * inversion Heq. left. split; reflexivity.
      * right. right. exact Hin.
    + destruct Hin as [Heq | Hin].
      * right. left. exact Heq.
      * destruct (IH Hin) as [H | H]; [left; exact H | right; right; exact H].
Qed.

Lemma all_len_set_column (k : nat) (n : string) (c : column) (df : frame) :
  all_len k df -> col_len c = k -> all_len k (set_column n c df).
Proof.
  intros Hall Hc. apply List.Forall_forall. intros [m d] Hin. cbn [snd].
  apply in_set_column_inv in Hin as [[_ ->] | Hin]; [exact Hc |].
  unfold all_len in Hall. rewrite List.Forall_forall in Hall.
  apply (Hall (m, d) Hin).
Qed.

Lemma filter_has_name_cons (n k : string) (d : column) (df : frame) :
  List.filter (has_name n) ((k, d) :: df)
  = if String.eqb k n then (k, d) :: List.filter (has_name n) df
    else List.filter (has_name n) df.
Proof. reflexivity. Qed.

Lemma filter_has_name_absent (n : string) (df : frame) :
  ~ In n (names df) -> List.filter (has_name n) df = [].
Proof.
  induction df as [| [k d] df IH]; intros Hnot; [reflexivity |].
  rewrite filter_has_name_cons.
  destruct (String.eqb_spec k n) as [-> | Hkn].
  - exfalso. apply Hnot. left. reflexivity.
  - apply IH. intros Hin. apply Hnot. right. exact Hin.
Qed.

Lemma flat_map_ext_In {A B} (f g : A -> list B) (l : list A) :
  (forall a, In a l -> f a = g a) -> flat_map f l = flat_map g l.
Proof.
  induction l as [| a l IH]; intros Hfg; [reflexivity |].
  cbn [flat_map]. rewrite (Hfg a) by (left; reflexivity).
  rewrite IH; [reflexivity |]. intros b Hb. apply Hfg. right. exact Hb.
Qed.

(** With distinct labels, [df[columns]] for a sub-list of the labels in
    frame order keeps the listed columns in frame order. *)
Lemma select_filter (f : string -> bool) (df : frame) :
  List.NoDup (names df) ->
  select (List.filter f (names df)) df = List.filter (fun p => f (fst p)) df.
Proof.
  unfold select. induction df as [| [k d] df IH]; intros Hnd; [reflexivity |].
  cbn [names map fst] in Hnd. inversion Hnd as [| ? ? Hnotin Hnd']; subst.
  assert (Htail : flat_map (fun n => List.filter (has_name n) ((k, d) :: df))
                    (List.filter f (names df))
                  = flat_map (fun n => List.filter (has_name n) df)
                      (List.filter f (names df))).
  { apply flat_map_ext_In. intros n Hn. apply filter_In in Hn as [Hn _].
    rewrite filter_has_name_cons.
    destruct (String.eqb_spec k n) as [-> | Hkn];
      [contradiction | reflexivity]. }
  change (names ((k, d) :: df)) with (k :: names df).
  change (List.filter f (k :: names df))
    with (if f k then k :: List.filter f (names df)
          else List.filter f (names df)).
  change (List.filter (fun p => f (fst p)) ((k, d) :: df))
    with (if f k then (k, d) :: List.filter (fun p => f (fst p)) df
          else List.filter (fun p => f (fst p)) df).
  destruct (f k).
  - change (flat_map (fun n => List.filter (has_name n) ((k, d) :: df))
              (k :: List.filter f (names df)))
      with (List.filter (has_name k) ((k, d) :: df)
            ++ flat_map (fun n => List.filter (has_name n) ((k, d) :: df))
                 (List.filter f (names df)))%list.
    rewrite Htail, (IH Hnd'), filter_has_name_cons, String.eqb_refl.
    rewrite (filter_has_name_absent k df Hnotin). reflexivity.
  - rewrite Htail. apply IH, Hnd'.
Qed.

Lemma insert_level_In (v x : string) (l : list string) :
  In x (insert_level v l) <-> x = v \/ In x l.
Proof.
  induction l as [| y l IH]; cbn [insert_level].
  - cbn. intuition.
  - destruct (String.compare v y) eqn:E.
    + apply String.compare_eq_iff in E. subst y. cbn. intuition.
    + cbn. intuition.
    + cbn [In]. rewrite IH. intuition.
Qed.

Lemma levels_In (x : string) (vs : list string) :
  In x (levels vs) <-> In x vs.
Proof.
  induction vs as [| v vs IH]; [reflexivity |].
  cbn [levels fold_right]. fold (levels vs).
  rewrite insert_level_In, IH. cbn. intuition.
Qed.

Lemma in_get_dummies_num (n : string) (vs : list Z) (df : frame) :
  In (n, NumCol vs) df -> In (n, NumCol vs) (get_dummies df).
Proof.
  intros Hin. unfold get_dummies. apply in_or_app. left.
  apply filter_In. split; [exact Hin | reflexivity].
Qed.

Lemma in_get_dummies_obj (n lv : string) (vs : list string) (df : frame) :
  In (n, ObjCol vs) df -> In lv vs ->
  In (dummy_name n lv, indicator lv vs) (get_dummies df).
Proof.
  intros Hin Hlv. unfold get_dummies. apply in_or_app. right.
  apply in_flat_map. exists (n, ObjCol vs). split.
  - apply filter_In. split; [exact Hin | reflexivity].
  - cbn [dummies_1d snd fst]. apply in_map_iff. exists lv.
    split; [reflexivity | apply levels_In, Hlv].
Qed.

Lemma in_get_dummies_inv (p : string * column) (df : frame) :
  In p (get_dummies df) ->
  (In p df /\ is_num p = true)
  \/ exists n vs lv, In (n, ObjCol vs) df /\ In lv vs
                     /\ p = (dummy_name n lv, indicator lv vs).
Proof.
  unfold get_dummies. intros Hin. apply in_app_or in Hin as [Hin | Hin].
  - left. apply filter_In in Hin. exact Hin.
  - right. apply in_flat_map in Hin as ([n c] & Hq & Hin).
    apply filter_In in Hq as [Hq Hobj].
    destruct c as [vs | vs]; [discriminate Hobj |].
    cbn [dummies_1d snd fst] in Hin.
    apply in_map_iff in Hin as (lv & Hp & Hlv).
    exists n, vs, lv. split; [exact Hq |].
    split; [apply levels_In, Hlv | symmetry; exact Hp].
Qed.

Lemma get_dummies_all_num (df : frame) :
  Forall (fun p => is_num p = true) (get_dummies df).
Proof.
  apply List.Forall_forall. intros p Hin.
  apply in_get_dummies_inv in Hin as [[_ H] | (n & vs & lv & _ & _ & ->)];
    [exact H | reflexivity].
Qed.

Lemma all_len_get_dummies (k : nat) (df : frame) :
  all_len k df -> all_len k (get_dummies df).
Proof.
  unfold all_len. rewrite !List.Forall_forall. intros Hall p Hin.
  apply in_get_dummies_inv in Hin as [[Hin _] | (n & vs & lv & Hin & _ & ->)].
  - apply Hall, Hin.
  - specialize (Hall _ Hin). cbn [snd col_len indicator] in *.
    rewrite length_map. exact Hall.
Qed.

(** ** [process]: what the encoded frame holds *)

Lemma encode_unfold (df enc : frame) :
  List.NoDup (names df) ->
  encode df = Some enc ->
  exists pdays job,
    col_lookup "pdays" df = Some pdays
    /\ col_lookup "job" df = Some job
    /\ enc = encoded_with pdays job df.
Proof.
  intros Hnd. unfold encode.
  destruct (col_lookup "pdays" df) as [pdays |] eqn:Hp; [| discriminate].
  rewrite col_lookup_set_ne by discriminate.
  destruct (col_lookup "job" df) as [job |] eqn:Hj; [| discriminate].
  intros Henc. inversion Henc as [Heq]. clear Henc.
  exists pdays, job. split; [reflexivity |]. split; [reflexivity |].
  unfold encoded_with. f_equal. apply select_filter.
  apply NoDup_set_column, NoDup_set_column, Hnd.
Qed.

Lemma encode_succeeds (df : frame) :
  In "pdays"%string (names df) -> In "job"%string (names df) ->
  exists enc, encode df = Some enc.
Proof.
  intros Hp Hj. unfold encode.
  destruct (col_lookup_some _ _ Hp) as (pdays & -> & _).
  rewrite col_lookup_set_ne by discriminate.
  destruct (col_lookup_some _ _ Hj) as (job & -> & _).
  eexists. reflexivity.
Qed.

Lemma eq_999_num (c : column) : exists vs, eq_999 c = NumCol vs.
Proof. destruct c; eexists; reflexivity. Qed.

Lemma isin_num (c : column) : exists vs, isin_not_working c = NumCol vs.
Proof. destruct c; eexists; reflexivity. Qed.

Section Encoded.
Variables (df : frame) (pdays job : column).

Lemma enc_no_previous_contact :
  In ("no_previous_contact"%string, eq_999 pdays) (encoded_with pdays job df).
Proof.
  destruct (eq_999_num pdays) as (vs & E). rewrite E.
  apply in_get_dummies_num, filter_In. split; [| reflexivity].
  apply in_set_column_old; [discriminate |].
  rewrite <- E. apply in_set_column_new.
Qed.

Lemma enc_not_working :
  In ("not_working"%string, isin_not_working job) (encoded_with pdays job df).
Proof.
  destruct (isin_num job) as (vs & E). rewrite E.
  apply in_get_dummies_num, filter_In. split; [| reflexivity].
  unfold with_indicators. rewrite <- E. apply in_set_column_new.
Qed.

Lemma kept_in_with_indicators (c : string) (col : column) :
  In (c, col) df -> ~ In c toremove -> ~ In c new_columns ->
  In (c, col) (List.filter keep_column (with_indicators pdays job df)).
Proof.
  intros Hin Hrm Hnew. apply filter_In. split.
  - apply in_set_column_old;
      [intros ->; apply Hnew; right; left; reflexivity |].
    apply in_set_column_old; [intros ->; apply Hnew; left; reflexivity |].
    exact Hin.
  - unfold keep_column. cbn [fst]. apply negb_true_iff, mem_false, Hrm.
Qed.

Lemma enc_keeps_numeric (c : string) (vs : list Z) :
  In (c, NumCol vs) df -> ~ In c toremove -> ~ In c new_columns ->
  In (c, NumCol vs) (encoded_with pdays job df).
Proof.
  intros Hin Hrm Hnew.
  apply in_get_dummies_num, kept_in_with_indicators; assumption.
Qed.

Lemma enc_one_hot (c lv : string) (vs : list string) :
  In (c, ObjCol vs) df -> ~ In c toremove -> ~ In c new_columns ->
  In lv vs ->
  In (dummy_name c lv, indicator lv vs) (encoded_with pdays job df).
Proof.
  intros Hin Hrm Hnew Hlv.
  apply in_get_dummies_obj; [| exact Hlv].
  apply kept_in_with_indicators; assumption.
Qed.

Lemma dummy_name_underscore (c lv : string) :
  Py.contains "_" (dummy_name c lv) = true.
Proof.
  unfold dummy_name. rewrite contains_app.
  apply orb_true_iff. right. reflexivity.
Qed.

Lemma enc_drops_toremove (c : string) :
  In c toremove -> ~ In c (names (encoded_with pdays job df)).
Proof.
  intros Hrm Hin. apply in_map_iff in Hin as (p & Hp & Hin). subst c.
  apply in_get_dummies_inv in Hin as [[Hin _] | (n & vs & lv & _ & _ & ->)].
  - apply filter_In in Hin as [_ Hkeep]. unfold keep_column in Hkeep.
    apply negb_true_iff, mem_false in Hkeep. contradiction.
  - cbn [fst] in Hrm. pose proof (dummy_name_underscore n lv) as Hu.
    unfold toremove in Hrm. cbn [In] in Hrm.
    destruct Hrm as [H | [H | [H | [H | [H | []]]]]];
      rewrite <- H in Hu; discriminate Hu.
Qed.

Lemma enc_all_len (k : nat) :
  all_len k df -> col_len pdays = k -> col_len job = k ->
  all_len k (encoded_with pdays job df).
Proof.
  intros Hall Hp Hj. apply all_len_get_dummies.
  assert (Hw : all_len k (with_indicators pdays job df)).
  { apply all_len_set_column; [apply all_len_set_column |].
    - exact Hall.
    - destruct pdays; cbn [eq_999 col_len] in *; rewrite length_map; exact Hp.
    - destruct job; cbn [isin_not_working col_len] in *; rewrite length_map;
        exact Hj. }
  unfold all_len in *. rewrite List.Forall_forall in *.
  intros p Hin. apply filter_In in Hin as [Hin _]. apply Hw, Hin.
Qed.

End Encoded.

(** ** [process]: label first, then shuffle *)

Lemma label_first_unfold (enc lf : frame) :
  label_first enc = Some lf ->
  In "y_yes"%string (names enc) /\ In "y_no"%string (names enc)
  /\ lf = (List.filter (has_name "y_yes") enc
           ++ List.filter (fun p => negb (mem (fst p) y_labels)) enc)%list.
Proof.
  unfold label_first.
  destruct (mem "y_yes" (names enc)) eqn:Hy; [| discriminate].
  destruct (mem "y_no" (names enc)) eqn:Hn; [| discriminate].
  cbn [andb]. intros H. inversion H.
  repeat split; apply mem_In; assumption.
Qed.

Lemma label_first_succeeds (enc : frame) :
  In "y_yes"%string (names enc) -> In "y_no"%string (names enc) ->
  exists lf, label_first enc = Some lf.
Proof.
  intros Hy Hn. unfold label_first.
  apply mem_In in Hy, Hn. rewrite Hy, Hn. eexists. reflexivity.
Qed.

Lemma filter_has_name_present (n : string) (df : frame) :
  In n (names df) ->
  exists c rest, List.filter (has_name n) df = (n, c) :: rest.
Proof.
  induction df as [| [k d] df IH]; intros Hin; [destruct Hin |].
  rewrite filter_has_name_cons.
  destruct (String.eqb_spec k n) as [-> | Hkn].
  - eexists _, _. reflexivity.
  - destruct Hin as [H | Hin]; [cbn in H; congruence | apply IH, Hin].
Qed.

Section LabelFirst.
Variables (enc lf : frame).
Hypothesis Hlf : label_first enc = Some lf.

Lemma lf_head : exists c rest, lf = ("y_yes"%string, c) :: rest.
Proof.
  destruct (label_first_unfold _ _ Hlf) as (Hy & _ & ->).
  destruct (filter_has_name_present _ _ Hy) as (c & rest & E).
  rewrite E. eexists _, _. reflexivity.
Qed.

Lemma lf_in (p : string * column) :
  In p lf <-> In p enc /\ fst p <> "y_no"%string.
Proof.
  destruct (label_first_unfold _ _ Hlf) as (_ & _ & ->).
  rewrite in_app_iff, !filter_In. unfold has_name.
  destruct p as [n c]. cbn [fst]. split.
  - intros [[Hin Hn] | [Hin Hn]].
    + apply String.eqb_eq in Hn. subst n. split; [exact Hin | discriminate].
    + split; [exact Hin |]. apply negb_true_iff, mem_false in Hn.
      intros ->. apply Hn. left. reflexivity.
  - intros [Hin Hne]. destruct (String.eqb_spec n "y_yes") as [-> | Hny].
    + left. split; [exact Hin | reflexivity].
    + right. split; [exact Hin |]. apply negb_true_iff, mem_false.
      intros [H | [H | []]]; congruence.
Qed.

Lemma lf_no_y_no : ~ In "y_no"%string (names lf).
Proof.
  intros Hin. apply in_map_iff in Hin as (p & Hp & Hin).
  apply lf_in in Hin as [_ Hne]. contradiction.
Qed.

Lemma lf_count_y_yes : count_label "y_yes" lf = count_label "y_yes" enc.
Proof.
  destruct (label_first_unfold _ _ Hlf) as (_ & _ & ->).
  unfold count_label. rewrite List.filter_app, length_app.
  assert (H1 : List.filter (has_name "y_yes")
                 (List.filter (has_name "y_yes") enc)
               = List.filter (has_name "y_yes") enc).
  { clear. induction enc as [| p l IH]; [reflexivity |].
    cbn [List.filter]. destruct (has_name "y_yes" p) eqn:E; [| exact IH].
    cbn [List.filter]. rewrite E, IH. reflexivity. }
  assert (H2 : List.filter (has_name "y_yes")
                 (List.filter (fun p => negb (mem (fst p) y_labels)) enc) = []).
  { clear. induction enc as [| p l IH]; [reflexivity |].
    cbn [List.filter].
    destruct (negb (mem (fst p) y_labels)) eqn:E; [| exact IH].
    cbn [List.filter]. rewrite IH. unfold has_name.
    destruct (String.eqb_spec (fst p) "y_yes") as [Heq | _]; [| reflexivity].
    rewrite Heq in E. discriminate E. }
  rewrite H1, H2. cbn [length]. lia.
Qed.

Lemma lf_all_len (k : nat) : all_len k enc -> all_len k lf.
Proof.
  unfold all_len. rewrite !List.Forall_forall. intros Hall p Hin.
  apply lf_in in Hin as [Hin _]. apply Hall, Hin.
Qed.

End LabelFirst.

Lemma names_sample_all (perm : list nat) (df : frame) :
  names (sample_all perm df) = names df.
Proof.
  unfold names, sample_all. rewrite map_map. reflexivity.
Qed.

Lemma in_sample_all (perm : list nat) (n : string) (c : column) (df : frame) :
  In (n, c) df -> In (n, take_col perm c) (sample_all perm df).
Proof.
  intros Hin. unfold sample_all. apply in_map_iff.
  exists (n, c). split; [reflexivity | exact Hin].
Qed.

Lemma count_label_sample_all (perm : list nat) (n : string) (df : frame) :
  count_label n (sample_all perm df) = count_label n df.
Proof.
  unfold count_label, sample_all.
  induction df as [| [k d] df IH]; [reflexivity |].
  cbn [map fst snd]. rewrite !filter_has_name_cons.
  destruct (String.eqb k n); cbn [length]; rewrite IH; reflexivity.
Qed.

Lemma sample_all_is_num (perm : list nat) (df : frame) :
  Forall (fun p => is_num p = true) df ->
  Forall (fun p => is_num p = true) (sample_all perm df).
Proof.
  rewrite !List.Forall_forall. intros Hall p Hin.
  apply in_map_iff in Hin as ([n c] & <- & Hin).
  specialize (Hall _ Hin). destruct c; [reflexivity | discriminate Hall].
Qed.

Lemma nth_map_in_range {A B} (f : A -> B) (l : list A) (j : nat)
      (d : A) (e : B) :
  (j < length l)%nat -> nth j (map f l) e = f (nth j l d).
Proof.
  intros Hj. rewrite (nth_indep _ e (f d)) by (rewrite length_map; exact Hj).
  apply map_nth.
Qed.

Lemma cell_at_take (perm : list nat) (c : column) (j : nat) :
  (j < length perm)%nat ->
  cell_at (take_col perm c) j = cell_at c (nth j perm 0%nat).
Proof.
  intros Hj. destruct c as [vs | vs]; cbn [take_col cell_at]; f_equal.
  - apply (nth_map_in_range (fun i => nth i vs 0) perm j 0%nat 0 Hj).
  - apply (nth_map_in_range (fun i => nth i vs EmptyString) perm j 0%nat
             EmptyString Hj).
Qed.

Lemma nrows_sample_all (perm : list nat) (df : frame) :
  df <> [] -> nrows (sample_all perm df) = length perm.
Proof.
  destruct df as [| [n c] df]; [congruence |]. intros _.
  cbn [sample_all map nrows fst snd].
  destruct c; cbn [take_col col_len]; apply length_map.
Qed.

Lemma map_nth_seq {A} (l : list A) (d : A) :
  map (fun j => nth j l d) (seq 0 (length l)) = l.
Proof.
  induction l as [| x l IH]; [reflexivity |].
  cbn [length seq map nth]. f_equal.
  rewrite <- seq_shift, List.map_map. exact IH.
Qed.

(** The rows of the shuffled frame are the rows of the frame, in the
    order the sampler drew. *)
Lemma rows_sample_all (perm : list nat) (df : frame) :
  df <> [] -> rows (sample_all perm df) = map (row_at df) perm.
Proof.
  intros Hne. unfold rows. rewrite nrows_sample_all by exact Hne.
  rewrite <- (map_nth_seq perm 0%nat) at 3. rewrite List.map_map.
  apply map_ext_in. intros j Hj. apply in_seq in Hj.
  unfold row_at, sample_all. rewrite map_map. apply map_ext.
  intros [n c]. cbn [fst snd]. apply cell_at_take. lia.
Qed.

Lemma nrows_all_len (k : nat) (df : frame) :
  df <> [] -> all_len k df -> nrows df = k.
Proof.
  destruct df as [| [n c] df]; [congruence |]. intros _ Hall.
  inversion Hall as [| ? ? Hc _]. exact Hc.
Qed.

(** ** [process] and the split, end to end *)

Lemma take_eq_999 (perm : list nat) (pdays : column) :
  take_col perm (eq_999 pdays)
  = NumCol (map (no_previous_contact_at pdays) perm).
Proof.
  destruct pdays as [vs | vs]; cbn [eq_999 take_col]; f_equal;
    apply map_ext; intros i; unfold no_previous_contact_at; cbn [cell_at].
  - apply (map_nth (fun v => bool_to_int (v =? 999)) vs 0 i).
  - apply (map_nth (fun _ : string => 0) vs EmptyString i).
Qed.

Lemma take_isin (perm : list nat) (job : column) :
  take_col perm (isin_not_working job)
  = NumCol (map (not_working_at job) perm).
Proof.
  destruct job as [vs | vs]; cbn [isin_not_working take_col]; f_equal;
    apply map_ext; intros i; unfold not_working_at; cbn [cell_at].
  - apply (map_nth (fun _ : Z => 0) vs 0 i).
  - apply (map_nth (fun s => bool_to_int (mem s not_working_jobs)) vs
             EmptyString i).
Qed.

Lemma take_indicator (perm : list nat) (lv : string) (vs : list string) :
  Forall (fun i => (i < length vs)%nat) perm ->
  take_col perm (indicator lv vs) = NumCol (map (one_hot_at vs lv) perm).
Proof.
  intros Hin. unfold indicator. cbn [take_col]. f_equal.
  apply map_ext_in. intros i Hi. rewrite List.Forall_forall in Hin.
  unfold one_hot_at.
  apply (nth_map_in_range (fun v => bool_to_int (String.eqb v lv)) vs i
           EmptyString 0 (Hin i Hi)).
Qed.

Lemma perm_in_range (perm : list nat) (n : nat) :
  Permutation perm (seq 0 n) -> Forall (fun i => (i < n)%nat) perm.
Proof.
  intros Hp. apply List.Forall_forall. intros i Hi.
  apply (Permutation_in _ Hp) in Hi. apply in_seq in Hi. lia.
Qed.

Lemma wf_col_len (df : frame) (n : string) (c : column) :
  wf df -> In (n, c) df -> col_len c = nrows df.
Proof.
  unfold wf. rewrite List.Forall_forall. intros Hwf Hin.
  apply (Hwf (n, c) Hin).
Qed.

(** What [process] returns, for a frame [process] accepts. *)
Lemma process_spec (df : frame) (perm : list nat) (ys : list string) :
  List.NoDup (names df) -> wf df ->
  In "pdays"%string (names df) -> In "job"%string (names df) ->
  In ("y"%string, ObjCol ys) df ->
  In "yes"%string ys -> In "no"%string ys ->
  exists pdays job enc lf,
    col_lookup "pdays" df = Some pdays
    /\ col_lookup "job" df = Some job
    /\ enc = encoded_with pdays job df
    /\ encode df = Some enc
    /\ label_first enc = Some lf
    /\ process perm df = Some (sample_all perm lf)
    /\ all_len (nrows df) lf
    /\ lf <> [].
Proof.
  intros Hnd Hwf Hp Hj Hy Hyes Hno.
  destruct (encode_succeeds df Hp Hj) as (enc & Henc).
  destruct (encode_unfold df enc Hnd Henc) as (pdays & job & Hlp & Hlj & Heq).
  assert (Hyrm : ~ In "y"%string toremove).
  { intros [H | [H | [H | [H | [H | []]]]]]; discriminate H. }
  assert (Hynew : ~ In "y"%string new_columns).
  { intros [H | [H | []]]; discriminate H. }
  pose proof (enc_one_hot df pdays job "y" "yes" ys Hy Hyrm Hynew Hyes) as Hyy.
  pose proof (enc_one_hot df pdays job "y" "no" ys Hy Hyrm Hynew Hno) as Hyn.
  cbv zeta in Hyy, Hyn. rewrite <- Heq in Hyy, Hyn.
  destruct (label_first_succeeds enc) as (lf & Hlf).
  { apply in_map_iff. eexists. split; [| exact Hyy]. reflexivity. }
  { apply in_map_iff. eexists. split; [| exact Hyn]. reflexivity. }
  exists pdays, job, enc, lf.
  split; [exact Hlp |]. split; [exact Hlj |]. split; [exact Heq |].
  split; [exact Henc |]. split; [exact Hlf |].
  split; [unfold process; rewrite Henc, Hlf; reflexivity |].
  split.
  - apply (lf_all_len enc lf Hlf). rewrite Heq.
    apply enc_all_len.
    + exact Hwf.
    + apply (wf_col_len df "pdays" pdays Hwf), col_lookup_in, Hlp.
    + apply (wf_col_len df "job" job Hwf), col_lookup_in, Hlj.
  - destruct (lf_head enc lf Hlf) as (c & rest & ->). discriminate.
Qed.

(** ** The categories of a column, and where a label comes from *)

Import OneHot.

Lemma string_lt_trans (x y z : string) :
  String.compare x y = Lt -> String.compare y z = Lt ->
  String.compare x z = Lt.
Proof.
  intros Hxy Hyz.
  apply OrderedTypeEx.String_as_OT.cmp_lt in Hxy, Hyz.
  apply OrderedTypeEx.String_as_OT.cmp_lt.
  exact (OrderedTypeEx.String_as_OT.lt_trans _ _ _ Hxy Hyz).
Qed.

Lemma string_gt_lt (x y : string) :
  String.compare x y = Gt -> String.compare y x = Lt.
Proof.
  intros Hxy. rewrite String.compare_antisym, Hxy. reflexivity.
Qed.

Lemma string_lt_irrefl (x : string) : String.compare x x <> Lt.
Proof.
  intros Hlt. pose proof (String.compare_antisym x x) as Ha.
  rewrite Hlt in Ha. discriminate Ha.
Qed.

Lemma insert_level_sorted (v : string) (l : list string) :
  Sorted.StronglySorted (fun a b => String.compare a b = Lt) l ->
  Sorted.StronglySorted (fun a b => String.compare a b = Lt)
                        (insert_level v l).
Proof.
  induction 1 as [| x l Hl IH Hx]; [repeat constructor |].
  cbn [insert_level]. destruct (String.compare v x) eqn:E.
  - constructor; assumption.
  - constructor; [constructor; assumption |].
    constructor; [exact E |].
    eapply List.Forall_impl; [| exact Hx].
    intros z Hxz. exact (string_lt_trans v x z E Hxz).
  - constructor; [exact IH |].
    apply List.Forall_forall. intros z Hz.
    apply insert_level_In in Hz as [-> | Hz].
    + apply string_gt_lt, E.
    + rewrite List.Forall_forall in Hx. apply Hx, Hz.
Qed.

Lemma levels_sorted (vs : list string) :
  Sorted.StronglySorted (fun a b => String.compare a b = Lt) (levels vs).
Proof.
  induction vs as [| v vs IH]; [constructor |].
  cbn [levels fold_right]. apply insert_level_sorted, IH.
Qed.

Lemma sorted_NoDup (l : list string) :
  Sorted.StronglySorted (fun a b => String.compare a b = Lt) l ->
  List.NoDup l.
Proof.
  induction 1 as [| x l Hl IH Hx]; constructor; [| exact IH].
  intros Hin. rewrite List.Forall_forall in Hx.
  exact (string_lt_irrefl x (Hx x Hin)).
Qed.

(** [levels] gives each value of the column once, in ascending order. *)
Lemma levels_categories (vs : list string) : categories_of vs (levels vs).
Proof.
  split; [apply sorted_NoDup, levels_sorted |].
  split; [intros lv; apply levels_In | apply levels_sorted].
Qed.

(** [get_dummies] is the one-hot encoding with these categories. *)
Lemma get_dummies_one_hot (df : frame) :
  get_dummies df = one_hot levels df.
Proof.
  reflexivity.
Qed.

Lemma count_once (x : string) (l : list string) :
  List.NoDup l -> In x l ->
  length (List.filter (fun y => String.eqb y x) l) = 1%nat.
Proof.
  induction 1 as [| y l Hy Hnd IH]; [intros [] |].
  cbn [List.filter]. intros [-> | Hin].
  - rewrite String.eqb_refl. cbn [length]. f_equal.
    assert (Hnone : List.filter (fun y => String.eqb y x) l = []).
    { clear IH Hnd. induction l as [| z l IH]; [reflexivity |].
      cbn [List.filter]. destruct (String.eqb_spec z x) as [-> | _].
      - exfalso. apply Hy. left. reflexivity.
      - apply IH. intros Hin. apply Hy. right. exact Hin. }
    rewrite Hnone. reflexivity.
  - destruct (String.eqb_spec y x) as [-> | _]; [contradiction |].
    apply IH, Hin.
Qed.

Lemma filter_none {A} (f : A -> bool) (l : list A) :
  (forall x, In x l -> f x = false) -> List.filter f l = [].
Proof.
  induction l as [| x l IH]; [reflexivity |].
  intros Hall. cbn [List.filter].
  rewrite (Hall x (or_introl eq_refl)). apply IH.
  intros y Hy. apply Hall. right. exact Hy.
Qed.

Lemma in_with_indicators_cases (df : frame) (pdays job : column)
      (m : string) (d : column) :
  In (m, d) (with_indicators pdays job df) ->
  (m = "not_working"%string /\ d = isin_not_working job)
  \/ (m = "no_previous_contact"%string /\ d = eq_999 pdays)
  \/ In (m, d) df.
Proof.
  unfold with_indicators. intros Hin.
  apply in_set_column_inv in Hin as [H | Hin]; [left; exact H |].
  apply in_set_column_inv in Hin as [H | Hin];
    [right; left; exact H | right; right; exact Hin].
Qed.

Section LabelSource.
Variables (df : frame) (pdays job : column).
Hypothesis only_y :
  forall rest, In (String "y" rest) (names df) -> rest = EmptyString.

Lemma in_with_indicators_inv (m : string) (d : column) :
  In (m, d) (with_indicators pdays job df) ->
  m = "not_working"%string \/ m = "no_previous_contact"%string
  \/ In (m, d) df.
Proof.
  unfold with_indicators. intros Hin.
  apply in_set_column_inv in Hin as [[-> _] | Hin]; [left; reflexivity |].
  apply in_set_column_inv in Hin as [[-> _] | Hin];
    [right; left; reflexivity | right; right; exact Hin].
Qed.

Lemma enc_y_label (lb : string) :
  In (String "y" (String "_" lb)) (names (encoded_with pdays job df)) ->
  exists vs, In ("y"%string, ObjCol vs) df /\ In lb vs.
Proof.
  intros Hin. apply in_map_iff in Hin as ([m d] & Hm & Hin).
  cbn [fst] in Hm. subst m.
  apply in_get_dummies_inv in Hin
      as [[Hin _] | (n & vs & lv & Hin & Hlv & Heq)].
  - apply filter_In in Hin as [Hin _].
    apply in_with_indicators_inv in Hin as [Hn | [Hn | Hin]];
      try discriminate Hn.
    apply (in_map fst) in Hin. apply only_y in Hin. discriminate Hin.
  - apply filter_In in Hin as [Hin _].
    injection Heq as Hname _.
    apply in_with_indicators_inv in Hin as [-> | [-> | Hin]];
      try discriminate Hname.
    destruct n as [| c r]; [discriminate Hname |].
    unfold dummy_name in Hname. cbn in Hname.
    injection Hname as <- Hrest.
    pose proof (only_y r (in_map fst _ _ Hin)) as Hr. subst r.
    cbn in Hrest. injection Hrest as ->.
    exists vs. split; assumption.
Qed.

End LabelSource.

Lemma column_unique (df : frame) (n : string) (c d : column) :
  List.NoDup (names df) -> In (n, c) df -> In (n, d) df -> c = d.
Proof.
  induction df as [| [m e] df IH]; [intros _ [] |].
  cbn [names map fst]. intros Hnd Hc Hd.
  inversion Hnd as [| ? ? Hnot Hnd']; subst.
  destruct Hc as [Hc | Hc], Hd as [Hd | Hd].
  - congruence.
  - injection Hc as -> ->. exfalso. apply Hnot.
    apply (in_map fst) in Hd. exact Hd.
  - injection Hd as -> ->. exfalso. apply Hnot.
    apply (in_map fst) in Hc. exact Hc.
  - apply IH; assumption.
Qed.


Section LabelCount.
Variables (df : frame) (pdays job : column).
Hypothesis distinct : List.NoDup (names df).
Hypothesis only_y :
  forall rest, In (String "y" rest) (names df) -> rest = EmptyString.

(** No column other than [y] gives an indicator named [y_yes]. *)
Lemma other_dummies_not_label (l : frame) :
  (forall p, In p l -> In p (with_indicators pdays job df)) ->
  ~ In "y"%string (names l) ->
  List.filter (has_name "y_yes") (flat_map dummies_1d l) = [].
Proof.
  intros Hsub Hny. apply filter_none. intros [n c] Hin.
  apply in_flat_map in Hin as ([m d] & Hm & Hin).
  destruct d as [vs | vs]; [destruct Hin |].
  cbn [dummies_1d snd fst] in Hin.
  apply in_map_iff in Hin as (lv & Heq & _).
  injection Heq as <- _. unfold has_name. cbn [fst].
  apply String.eqb_neq. intros Hname.
  pose proof (Hsub _ Hm) as Hw.
  apply (in_with_indicators_inv df pdays job) in Hw as [-> | [-> | Hdf]];
    try discriminate Hname.
  destruct m as [| a r]; [discriminate Hname |].
  unfold dummy_name in Hname. cbn in Hname. injection Hname as -> Hrest.
  pose proof (only_y r (in_map fst _ _ Hdf)) as Hr. subst r.
  apply Hny. apply (in_map fst) in Hm. exact Hm.
Qed.

(** With distinct labels of which only [y] starts with a y, the encoded
    frame has one column [y_yes] as soon as it has any. *)
Lemma enc_count_y_yes :
  In "y_yes"%string (names (encoded_with pdays job df)) ->
  count_label "y_yes" (encoded_with pdays job df) = 1%nat.
Proof.
  intros Hin.
  destruct (enc_y_label df pdays job only_y "yes" Hin) as (ys & Hy & Hyes).
  unfold count_label, encoded_with, get_dummies.
  set (kept := List.filter keep_column (with_indicators pdays job df)).
  assert (Hkept : forall p, In p kept -> In p (with_indicators pdays job df)).
  { intros p Hp. apply filter_In in Hp. apply Hp. }
  assert (Hndk : List.NoDup (names (List.filter is_obj kept))).
  { apply NoDup_filter_fst, NoDup_filter_fst.
    apply NoDup_set_column, NoDup_set_column, distinct. }
  assert (Hyk : In ("y"%string, ObjCol ys) (List.filter is_obj kept)).
  { apply filter_In. split; [| reflexivity].
    apply kept_in_with_indicators; [exact Hy | |].
    - intros [H | [H | [H | [H | [H | []]]]]]; discriminate H.
    - intros [H | [H | []]]; discriminate H. }
  rewrite List.filter_app, length_app.
  assert (Hnum : List.filter (has_name "y_yes") (List.filter is_num kept)
                 = []).
  { apply filter_none. intros [n c] Hp. apply filter_In in Hp as [Hp _].
    unfold has_name. cbn [fst]. apply String.eqb_neq. intros ->.
    apply Hkept in Hp.
    apply (in_with_indicators_inv df pdays job) in Hp as [H | [H | Hdf]];
      try discriminate H.
    apply (in_map fst) in Hdf. apply only_y in Hdf. discriminate Hdf. }
  rewrite Hnum. cbn [length Nat.add].
  destruct (in_split _ _ Hyk) as (l1 & l2 & Hsplit).
  rewrite Hsplit in Hndk |- *.
  unfold names in Hndk. rewrite map_app in Hndk. cbn [map fst] in Hndk.
  pose proof (NoDup_remove_2 _ _ _ Hndk) as Hnot.
  assert (Hsub : forall p, In p (l1 ++ ("y"%string, ObjCol ys) :: l2)%list ->
                           In p (with_indicators pdays job df)).
  { intros p Hp. rewrite <- Hsplit in Hp. apply filter_In in Hp as [Hp _].
    apply Hkept, Hp. }
  rewrite flat_map_app. cbn [flat_map].
  rewrite !List.filter_app, !length_app.
  rewrite (other_dummies_not_label l1), (other_dummies_not_label l2).
  - cbn [length Nat.add]. rewrite Nat.add_0_r.
    cbn [dummies_1d snd fst].
    assert (Hmap : forall l,
               length (List.filter (has_name "y_yes")
                         (map (fun lv => (dummy_name "y" lv,
                                          indicator lv ys)) l))
               = length (List.filter (fun lv => String.eqb lv "yes") l)).
    { induction l as [| lv l IH]; [reflexivity |].
      cbn [map List.filter]. unfold has_name at 1. cbn [fst].
      change (String.eqb (dummy_name "y" lv) "y_yes")
        with (String.eqb lv "yes").
      destruct (String.eqb lv "yes"); cbn [length]; rewrite IH;
        reflexivity. }
    rewrite Hmap. apply count_once.
    + apply levels_categories.
    + apply levels_In, Hyes.
  - intros p Hp. apply Hsub, in_or_app. right. right. exact Hp.
  - intros Hc. apply Hnot, in_or_app. right. exact Hc.
  - intros p Hp. apply Hsub, in_or_app. left. exact Hp.
  - intros Hc. apply Hnot, in_or_app. left. exact Hc.
Qed.

End LabelCount.

Lemma no_previous_contact_binary (pdays : column) (i : nat) :
  no_previous_contact_at pdays i = 0 \/ no_previous_contact_at pdays i = 1.
Proof.
  unfold no_previous_contact_at. destruct (cell_at pdays i) as [v | s].
  - destruct (v =? 999); [right | left]; reflexivity.
  - left. reflexivity.
Qed.

Lemma not_working_binary (job : column) (i : nat) :
  not_working_at job i = 0 \/ not_working_at job i = 1.
Proof.
  unfold not_working_at. destruct (cell_at job i) as [v | s].
  - left. reflexivity.
  - destruct (mem s not_working_jobs); [right | left]; reflexivity.
Qed.

(** C1: on a frame with distinct labels that has the columns [pdays] and
    [job] and a categorical column [y] taking the values yes and no,
    [process] succeeds and the script writes three sets such that: the
    two indicators hold 1 exactly where [pdays] is 999, respectively where
    [job] is student, retired or unemployed; none of the five columns of
    [toremove] is left; every categorical column is replaced by one 0/1
    column per category (each distinct value once, in ascending order),
    the numeric columns are kept, and the output has no other column; the rows are
    those of the encoded frame in the order the sampler drew; and the
    three sets partition the rows with 70%, 15% and 15% of them, each
    within one row. *)
Theorem preprocessing_pipeline
  (df : frame) (perm : list nat) (ys : list string) :
  List.NoDup (names df) -> wf df ->
  In "pdays"%string (names df) -> In "job"%string (names df) ->
  In ("y"%string, ObjCol ys) df ->
  In "yes"%string ys -> In "no"%string ys ->
  Permutation perm (seq 0 (nrows df)) ->
  Z.of_nat (nrows df) < 2 ^ 48 ->
  exists pdays job lf out train validation test,
    col_lookup "pdays" df = Some pdays
    /\ col_lookup "job" df = Some job
    /\ process perm df = Some out
    /\ main perm df = Some (train, validation, test)
    (* the two indicators *)
    /\ In ("no_previous_contact"%string,
           NumCol (map (no_previous_contact_at pdays) perm)) out
    /\ In ("not_working"%string,
           NumCol (map (not_working_at job) perm)) out
    /\ (forall i, no_previous_contact_at pdays i = 0
                  \/ no_previous_contact_at pdays i = 1)
    /\ (forall i, not_working_at job i = 0 \/ not_working_at job i = 1)
    (* the five columns are gone *)
    /\ (forall c, In c toremove -> ~ In c (names out))
    (* one-hot encoding *)
    /\ Forall (fun p => is_num p = true) out
    /\ (forall c vs lv,
          In (c, ObjCol vs) df -> ~ In c toremove -> ~ In c new_columns ->
          In lv vs -> dummy_name c lv <> "y_no"%string ->
          In (dummy_name c lv, NumCol (map (one_hot_at vs lv) perm)) out)
    /\ (forall c vs,
          In (c, NumCol vs) df -> ~ In c toremove -> ~ In c new_columns ->
          c <> "y_no"%string ->
          In (c, NumCol (map (fun i => nth i vs 0) perm)) out)
    (* the shuffle *)
    /\ out = sample_all perm lf
    /\ nrows out = nrows df
    /\ Permutation (rows out) (rows lf)
    (* the split *)
    /\ (rows train ++ rows validation ++ rows test)%list = rows out
    /\ 7 * Z.of_nat (nrows out) - 10 <= 10 * Z.of_nat (nrows train)
       <= 7 * Z.of_nat (nrows out)
    /\ 15 * Z.of_nat (nrows out) - 100 <= 100 * Z.of_nat (nrows validation)
       <= 15 * Z.of_nat (nrows out) + 100
    /\ 15 * Z.of_nat (nrows out) <= 100 * Z.of_nat (nrows test)
       <= 15 * Z.of_nat (nrows out) + 100
    (* no other column *)
    /\ (forall n c,
          In (n, c) out ->
          (n = "no_previous_contact"%string
           /\ c = NumCol (map (no_previous_contact_at pdays) perm))
          \/ (n = "not_working"%string
              /\ c = NumCol (map (not_working_at job) perm))
          \/ (exists vs,
                In (n, NumCol vs) df /\ ~ In n toremove
                /\ c = NumCol (map (fun i => nth i vs 0) perm))
          \/ (exists col vs lv,
                In (col, ObjCol vs) df /\ ~ In col toremove /\ In lv vs
                /\ n = dummy_name col lv
                /\ c = NumCol (map (one_hot_at vs lv) perm)))
    (* one column per category, in this order *)
    /\ (exists cats : list string -> list string,
          (forall vs, categories_of vs (cats vs))
          /\ lf = label_then_rest
                    (one_hot cats
                       (List.filter keep_column
                          (with_indicators pdays job df)))).
Proof.
  intros Hnd Hwf Hp Hj Hy Hyes Hno Hperm Hn.
  destruct (process_spec df perm ys Hnd Hwf Hp Hj Hy Hyes Hno)
    as (pdays & job & enc & lf & Hlp & Hlj & Heq & Henc & Hlf & Hproc
        & Hlen & Hne).
  set (out := sample_all perm lf) in *.
  assert (Hrows : nrows out = nrows df).
  { unfold out. rewrite nrows_sample_all by exact Hne.
    rewrite (Permutation_length Hperm). apply length_seq. }
  assert (Hnlf : nrows lf = nrows df) by (apply nrows_all_len; assumption).
  assert (Hout : forall n c, In (n, c) enc -> n <> "y_no"%string ->
                             In (n, take_col perm c) out).
  { intros n c Hin Hny. apply in_sample_all.
    apply (lf_in enc lf Hlf). split; [exact Hin | exact Hny]. }
  assert (Hord := split_points_ordered (nrows out)
                    ltac:(rewrite Hrows;
                          change (2 ^ 48) with 281474976710656 in Hn;
                          change (2 ^ 53) with 9007199254740992; lia)).
  pose proof (np_split_partition out _ _ Hord) as Hsplit.
  destruct (np_split out (split_at_07 (nrows out)) (split_at_085 (nrows out)))
    as [[train validation] test] eqn:Hnp.
  destruct Hsplit as (Hpart & Htr & Hva & Hte).
  exists pdays, job, lf, out, train, validation, test.
  split; [exact Hlp |]. split; [exact Hlj |]. split; [exact Hproc |].
  split; [unfold main; rewrite Hproc; fold out; rewrite Hnp; reflexivity |].
  split.
  { rewrite <- take_eq_999. apply Hout; [| discriminate].
    rewrite Heq. apply enc_no_previous_contact. }
  split.
  { rewrite <- take_isin. apply Hout; [| discriminate].
    rewrite Heq. apply enc_not_working. }
  split; [apply no_previous_contact_binary |].
  split; [apply not_working_binary |].
  split.
  { intros c Hc Hin. unfold out in Hin. rewrite names_sample_all in Hin.
    apply in_map_iff in Hin as (p & Hfst & Hin).
    apply (lf_in enc lf Hlf) in Hin as [Hin _].
    apply (enc_drops_toremove df pdays job c Hc). cbv zeta. rewrite <- Heq.
    apply in_map_iff. exists p. split; assumption. }
  split.
  { apply sample_all_is_num. apply List.Forall_forall. intros p Hin.
    apply (lf_in enc lf Hlf) in Hin as [Hin _].
    pose proof (get_dummies_all_num
                  (List.filter keep_column (with_indicators pdays job df)))
      as Hnum.
    fold (encoded_with pdays job df) in Hnum. rewrite <- Heq in Hnum.
    rewrite List.Forall_forall in Hnum.
    apply Hnum, Hin. }
  split.
  { intros c vs lv Hin Hrm Hnew Hlv Hny.
    rewrite <- take_indicator.
    - apply Hout; [| exact Hny]. rewrite Heq.
      apply enc_one_hot; assumption.
    - rewrite (wf_col_len df c (ObjCol vs) Hwf Hin : length vs = nrows df).
      apply perm_in_range, Hperm. }
  split.
  { intros c vs Hin Hrm Hnew Hny.
    apply (Hout c (NumCol vs)); [| exact Hny]. rewrite Heq.
    apply enc_keeps_numeric; assumption. }
  split; [reflexivity |]. split; [exact Hrows |].
  split.
  { unfold out. rewrite rows_sample_all by exact Hne.
    unfold rows. rewrite Hnlf. apply Permutation_map, Hperm. }
  split; [exact Hpart |].
  rewrite Htr, Hva, Hte.
  assert (Hn' : Z.of_nat (nrows out) < 2 ^ 48) by (rewrite Hrows; exact Hn).
  pose proof (split_at_07_bounds _ Hn') as H7.
  pose proof (split_at_085_bounds _ Hn') as H85.
  change (2 ^ 48) with 281474976710656 in *.
  split; [exact H7 |]. split; [lia |]. split; [lia |]. split.
  { intros n c Hin. unfold out, sample_all in Hin.
    apply in_map_iff in Hin as ([m d] & Hmd & Hin).
    cbn [fst snd] in Hmd. injection Hmd as <- <-.
    apply (lf_in enc lf Hlf) in Hin as [Hin _].
    rewrite Heq in Hin. unfold encoded_with in Hin.
    apply in_get_dummies_inv in Hin
        as [[Hin Hnum] | (col & vs & lv & Hin & Hlv & Hpair)].
    - apply filter_In in Hin as [Hin Hkeep].
      apply in_with_indicators_cases in Hin as [[-> ->] | [[-> ->] | Hin]].
      + right. left. split; [reflexivity | apply take_isin].
      + left. split; [reflexivity | apply take_eq_999].
      + right. right. left. destruct d as [vs | vs]; [| discriminate Hnum].
        exists vs. split; [exact Hin |]. split; [| reflexivity].
        unfold keep_column in Hkeep. cbn [fst] in Hkeep.
        apply negb_true_iff, mem_false in Hkeep. exact Hkeep.
    - right. right. right. injection Hpair as -> ->.
      apply filter_In in Hin as [Hin Hkeep].
      assert (Hdf : In (col, ObjCol vs) df).
      { apply in_with_indicators_cases in Hin as [[_ Hc] | [[_ Hc] | Hin]];
          [| | exact Hin].
        - destruct (isin_num job) as (ws & Hw). rewrite Hw in Hc.
          discriminate Hc.
        - destruct (eq_999_num pdays) as (ws & Hw). rewrite Hw in Hc.
          discriminate Hc. }
      exists col, vs, lv. split; [exact Hdf |]. split.
      { unfold keep_column in Hkeep. cbn [fst] in Hkeep.
        apply negb_true_iff, mem_false in Hkeep. exact Hkeep. }
      split; [exact Hlv |]. split; [reflexivity |].
      apply take_indicator.
      rewrite (wf_col_len df col (ObjCol vs) Hwf Hdf : length vs = nrows df).
      apply perm_in_range, Hperm. }
  exists levels. split; [apply levels_categories |].
  destruct (label_first_unfold enc lf Hlf) as (_ & _ & ->).
  rewrite Heq. reflexivity.
Qed.

Lemma preprocessing_pipeline_witness :
  List.NoDup (names Inputs.bank_sample)
  /\ Permutation [1; 0]%nat (seq 0 (nrows Inputs.bank_sample))
  /\ exists out,
       process [1; 0]%nat Inputs.bank_sample = Some out
       /\ In ("no_previous_contact"%string, NumCol [0; 1]) out
       /\ ~ In "emp.var.rate"%string (names out).
Proof.
  assert (Hnd : List.NoDup (names Inputs.bank_sample)).
  { repeat constructor; cbn; intuition discriminate. }
  assert (Hperm : Permutation [1; 0]%nat (seq 0 (nrows Inputs.bank_sample))).
  { apply perm_swap. }
  split; [exact Hnd |]. split; [exact Hperm |].
  destruct (preprocessing_pipeline Inputs.bank_sample [1; 0]%nat
              ["yes"; "no"]%string)
    as (pdays & job & lf & out & train & validation & test
        & Hlp & _ & Hproc & _ & Hnpc & _ & _ & _ & Hrm & _).
  - exact Hnd.
  - repeat constructor.
  - cbn. tauto.
  - cbn. tauto.
  - cbn. tauto.
  - left. reflexivity.
  - right. left. reflexivity.
  - exact Hperm.
  - reflexivity.
  - exists out. split; [exact Hproc |]. split.
    + cbn in Hlp. inversion Hlp as [Hpd]. rewrite <- Hpd in Hnpc. exact Hnpc.
    + apply Hrm. left. reflexivity.
Defined.

(** ** The label column *)

(** C8, as stated, fails: a frame that has a column [y_yes] of its own
    next to the categorical column [y] is encoded with two columns named
    [y_yes], and [process] returns both. *)
Lemma label_column_returned_twice :
  ~ (forall (df enc out : frame) (perm : list nat),
       In "y_no"%string (names df) -> In "y_yes"%string (names df) ->
       encode df = Some enc ->
       In "y_no"%string (names enc) -> In "y_yes"%string (names enc) ->
       process perm df = Some out ->
       hd_error (names out) = Some "y_yes"%string
       /\ ~ In "y_no"%string (names out)
       /\ count_label "y_yes" out = 1%nat).
Proof.
  intros Hall.
  destruct (encode Inputs.labelled_twice) as [enc |] eqn:Henc;
    [| vm_compute in Henc; discriminate Henc].
  destruct (process [0; 1]%nat Inputs.labelled_twice) as [out |] eqn:Hout;
    [| vm_compute in Hout; discriminate Hout].
  specialize (Hall Inputs.labelled_twice enc out [0; 1]%nat).
  vm_compute in Henc. inversion Henc as [He]. clear Henc.
  vm_compute in Hout. inversion Hout as [Ho]. clear Hout.
  destruct Hall as (_ & _ & Hcount).
  - cbn. tauto.
  - cbn. tauto.
  - rewrite <- He. reflexivity.
  - rewrite <- He. cbn. tauto.
  - rewrite <- He. cbn. tauto.
  - rewrite <- Ho. reflexivity.
  - rewrite <- Ho in Hcount. vm_compute in Hcount. discriminate Hcount.
Qed.

(** C8, amended: on a frame with distinct labels whose one-hot encoding
    has columns [y_no] and [y_yes], [process] returns a frame whose first
    column is [y_yes], that has no column [y_no], and that has as many
    columns [y_yes] as the encoded frame; that is exactly one when [y] is
    the only column of the input whose label starts with a y, as in the
    bank data. *)
Theorem label_is_first_column (df enc : frame) (perm : list nat) :
  List.NoDup (names df) ->
  encode df = Some enc ->
  In "y_no"%string (names enc) -> In "y_yes"%string (names enc) ->
  exists out,
    process perm df = Some out
    /\ hd_error (names out) = Some "y_yes"%string
    /\ ~ In "y_no"%string (names out)
    /\ count_label "y_yes" out = count_label "y_yes" enc
    /\ ((forall rest, In (String "y" rest) (names df) -> rest = EmptyString)
        -> count_label "y_yes" out = 1%nat).
Proof.
  intros Hnd Henc Hno Hyes.
  destruct (label_first_succeeds enc Hyes Hno) as (lf & Hlf).
  exists (sample_all perm lf).
  split; [unfold process; rewrite Henc, Hlf; reflexivity |].
  rewrite names_sample_all, count_label_sample_all.
  split.
  { destruct (lf_head enc lf Hlf) as (c & rest & ->). reflexivity. }
  split; [apply (lf_no_y_no enc lf Hlf) |].
  split; [apply (lf_count_y_yes enc lf Hlf) |].
  intros Honly. rewrite (lf_count_y_yes enc lf Hlf).
  destruct (encode_unfold df enc Hnd Henc) as (pdays & job & _ & _ & Heq).
  rewrite Heq in Hyes |- *.
  apply (enc_count_y_yes df pdays job Hnd Honly Hyes).
Qed.

Lemma label_is_first_column_witness :
  exists enc out,
    encode Inputs.bank_sample = Some enc
    /\ process [1; 0]%nat Inputs.bank_sample = Some out
    /\ hd_error (names out) = Some "y_yes"%string
    /\ count_label "y_yes" out = 1%nat.
Proof.
  let e := eval vm_compute in (encode Inputs.bank_sample) in
  match e with Some ?x => pose (enc := x) end.
  assert (Henc : encode Inputs.bank_sample = Some enc) by reflexivity.
  destruct (label_is_first_column Inputs.bank_sample enc [1; 0]%nat)
    as (out & Hproc & Hhd & _ & _ & Hone).
  - repeat constructor; cbn; intuition discriminate.
  - exact Henc.
  - cbn. tauto.
  - cbn. tauto.
  - exists enc, out. split; [exact Henc |]. split; [exact Hproc |].
    split; [exact Hhd |]. apply Hone.
    intros rest Hin. cbn in Hin.
    destruct Hin as [Hc | [Hc | [Hc | [Hc | [Hc | []]]]]];
      try discriminate Hc.
    inversion Hc. reflexivity.
Defined.

(** ** The code run on small inputs *)

Example process_bank_sample :
  process [1; 0]%nat Inputs.bank_sample
  = Some [("y_yes", NumCol [0; 1]);
          ("age", NumCol [41; 35]);
          ("pdays", NumCol [3; 999]);
          ("no_previous_contact", NumCol [0; 1]);
          ("not_working", NumCol [0; 1]);
          ("job_admin.", NumCol [1; 0]);
          ("job_student", NumCol [0; 1])]%string.
Proof. reflexivity. Qed.

Example process_without_pdays :
  process [0]%nat [("job", ObjCol ["student"]); ("y", ObjCol ["yes"])]%string
  = None.
Proof. reflexivity. Qed.

Example process_single_label :
  process [0]%nat
    [("pdays", NumCol [999]); ("job", ObjCol ["student"]);
     ("y", ObjCol ["yes"])]%string
  = None.
Proof. reflexivity. Qed.

Example process_labelled_twice :
  option_map names (process [0; 1]%nat Inputs.labelled_twice)
  = Some ["y_yes"; "y_yes"; "pdays"; "no_previous_contact"; "not_working";
          "job_admin."; "job_student"]%string.
Proof. reflexivity. Qed.

Example split_ten_rows :
  let df := [("y_yes"%string, NumCol [0; 1; 2; 3; 4; 5; 6; 7; 8; 9])] in
  np_split df (split_at_07 10) (split_at_085 10)
  = ([("y_yes"%string, NumCol [0; 1; 2; 3; 4; 5; 6])],
     [("y_yes"%string, NumCol [7])],
     [("y_yes"%string, NumCol [8; 9])]).
Proof. reflexivity. Qed.

Example split_ninety_rows :
  (split_at_07 90, split_at_085 90) = (62, 76)%nat.
Proof. reflexivity. Qed.

Example file_lines_two_lines :
  Py.file_lines Inputs.two_lines
  = [("35,1" ++ String Py.nl EmptyString)%string;
     ("41,0" ++ String Py.nl EmptyString)%string].
Proof. reflexivity. Qed.

Example file_lines_no_final_newline :
  Py.file_lines ("a" ++ String Py.nl "b")%string
  = [String "a" (String Py.nl EmptyString); "b"%string].
Proof. reflexivity. Qed.

Example rstrip_nl_line :
  Py.rstrip_nl ("35,1" ++ String Py.nl EmptyString)%string = "35,1"%string.
Proof. reflexivity. Qed.

(** The event is set while the thread sleeps after its first call: no
    further call is made. *)
Example worker_cancelled_during_sleep :
  run Inputs.two_lines (fun t => (4 <=? t)%nat) 12 0 PWhile
  = (PExit,
     [EvIsSet false; EvInvoke "35,1" "0"; EvRead; EvSleep 1;
      EvIsSet true; EvIsSet true]%string).
Proof. reflexivity. Qed.

(** The event is set right after the check that follows the first call:
    the second call is still made, and is the last. *)
Example worker_cancelled_after_check :
  run Inputs.two_lines (fun t => (7 <=? t)%nat) 14 0 PWhile
  = (PExit,
     [EvIsSet false; EvInvoke "35,1" "0"; EvRead; EvSleep 1; EvIsSet false;
      EvInvoke "41,0" "1"; EvRead; EvSleep 1; EvIsSet true;
      EvIsSet true]%string).
Proof. reflexivity. Qed.

Example strftime_path_example :
  strftime_path (DateTime 2022 3 7 9 5 0) = "2022/03/07/09/0500"%string.
Proof. reflexivity. Qed.

Example create_role_when_absent :
  fst (create_lambda_iam_role "r" (IamState ∅ ∅ true))
  = Ok (role_arn_of "r").
Proof. reflexivity. Qed.

Example create_lambda_cell_when_present :
  fst (create_lambda_cell ({[ lambda_name := "arn"%string ]} : lambda_state))
  = Ok (None, "Lambda function already exists!"%string).
Proof. reflexivity. Qed.

Example cleanup_refused_while_executing :
  fst (cleanup_cell "endpoint"
         (MkPlatform ∅
            {[ "m"%string := Schedule "endpoint" Scheduled true ]}))
  = Raise (ClientError "ValidationException").
Proof. reflexivity. Qed.

(* ===================================================================== *)
(** * Further properties *)
(* ===================================================================== *)

(** ** The ground-truth thread *)

Lemma truth_run_add (flag : nat -> bool) (n m t : nat) (p : TruthWorker.pc) :
  TruthWorker.run flag (n + m) t p
  = let '(p1, e1) := TruthWorker.run flag n t p in
    let '(p2, e2) := TruthWorker.run flag m (t + n) p1 in
    (p2, (e1 ++ e2)%list).
Proof.
  revert t p. induction n as [| n IH]; intros t p.
  - cbn [Nat.add TruthWorker.run]. rewrite Nat.add_0_r.
    destruct (TruthWorker.run flag m t p). reflexivity.
  - cbn [Nat.add TruthWorker.run].
    destruct (TruthWorker.step (flag t) p) as [p1 ev].
    rewrite IH. destruct (TruthWorker.run flag n (S t) p1) as [p2 e2].
    replace (S t + n)%nat with (t + S n)%nat by lia.
    destruct (TruthWorker.run flag m (t + S n) p2) as [p3 e3].
    rewrite app_assoc. reflexivity.
Qed.

Lemma truth_run_ext (f g : nat -> bool) (n t : nat) (p : TruthWorker.pc) :
  (forall u, (t <= u < t + n)%nat -> f u = g u) ->
  TruthWorker.run f n t p = TruthWorker.run g n t p.
Proof.
  revert t p. induction n as [| n IH]; intros t p Hfg; [reflexivity |].
  cbn [TruthWorker.run]. rewrite (Hfg t) by lia.
  destruct (TruthWorker.step (g t) p) as [p1 ev].
  rewrite IH; [reflexivity |]. intros u Hu. apply Hfg. lia.
Qed.

Lemma truth_run_exit (flag : nat -> bool) (n t : nat) :
  TruthWorker.run flag n t TruthWorker.PExit = (TruthWorker.PExit, []).
Proof.
  revert t. induction n as [| n IH]; intros t; [reflexivity |].
  cbn [TruthWorker.run TruthWorker.step]. rewrite IH. reflexivity.
Qed.

(** The turns of [range(0, 60)] still to come, with the event clear. *)
Lemma truth_turns (flag : nat -> bool) (k t : nat) :
  (forall u, (t <= u < t + 3 * k)%nat -> flag u = false) ->
  TruthWorker.run flag (3 * k) t (TruthWorker.PFor k)
  = (TruthWorker.PFor 0,
     concat (repeat [TruthWorker.EvSleep 60; TruthWorker.EvIsSet false] k)).
Proof.
  revert t. induction k as [| k IH]; intros t Hclear; [reflexivity |].
  replace (3 * S k)%nat with (3 + 3 * k)%nat by lia.
  rewrite truth_run_add.
  rewrite (truth_run_ext flag (fun _ => false) 3)
    by (intros; apply Hclear; lia).
  cbn [TruthWorker.run TruthWorker.step app].
  rewrite IH by (intros; apply Hclear; lia). reflexivity.
Qed.

Lemma truth_slept_turns (k : nat) :
  TruthWorker.slept
    (concat (repeat [TruthWorker.EvSleep 60; TruthWorker.EvIsSet false] k))
  = (60 * k)%nat
  /\ TruthWorker.uploads
       (concat (repeat [TruthWorker.EvSleep 60; TruthWorker.EvIsSet false] k))
     = 0%nat.
Proof.
  induction k as [| k [IH1 IH2]]; [split; reflexivity |].
  cbn [repeat concat app TruthWorker.slept]. rewrite IH1.
  split; [lia | exact IH2].
Qed.

(** X1: a pass of [generate_fake_ground_truth] that is not cancelled
    uploads once and then sleeps sixty times sixty seconds, checking the
    event after each sleep: one upload per hour of sleep. *)
Theorem ground_truth_pass_is_hourly (flag : nat -> bool) (t : nat) :
  (forall u, (t <= u < t + 183)%nat -> flag u = false) ->
  TruthWorker.run flag 183 t TruthWorker.PWhile
  = (TruthWorker.PWhile,
     TruthWorker.EvIsSet false :: TruthWorker.EvUpload
     :: concat (repeat [TruthWorker.EvSleep 60; TruthWorker.EvIsSet false] 60))
  /\ TruthWorker.uploads (snd (TruthWorker.run flag 183 t TruthWorker.PWhile))
     = 1%nat
  /\ TruthWorker.slept (snd (TruthWorker.run flag 183 t TruthWorker.PWhile))
     = 3600%nat.
Proof.
  intros Hclear.
  assert (Hrun : TruthWorker.run flag 183 t TruthWorker.PWhile
                 = (TruthWorker.PWhile,
                    TruthWorker.EvIsSet false :: TruthWorker.EvUpload
                    :: concat (repeat [TruthWorker.EvSleep 60;
                                       TruthWorker.EvIsSet false] 60))).
  { change 183%nat with (2 + (3 * 60 + 1))%nat.
    rewrite truth_run_add.
    rewrite (truth_run_ext flag (fun _ => false) 2)
      by (intros; apply Hclear; lia).
    cbn [TruthWorker.run TruthWorker.step app].
    rewrite truth_run_add, truth_turns by (intros; apply Hclear; lia).
    cbn [TruthWorker.run TruthWorker.step]. rewrite !app_nil_r.
    reflexivity. }
  rewrite Hrun. split; [reflexivity |]. cbn [snd].
  destruct (truth_slept_turns 60) as [Hs Hu].
  split.
  - unfold TruthWorker.uploads in *. cbn [List.filter TruthWorker.is_upload].
    cbn [length]. rewrite Hu. reflexivity.
  - cbn [TruthWorker.slept]. rewrite Hs. reflexivity.
Qed.

Lemma ground_truth_pass_is_hourly_witness :
  (forall u, (0 <= u < 0 + 183)%nat -> (fun _ : nat => false) u = false)
  /\ TruthWorker.slept
       (snd (TruthWorker.run (fun _ => false) 183 0 TruthWorker.PWhile))
     = 3600%nat.
Proof.
  split; [reflexivity |].
  apply (ground_truth_pass_is_hourly (fun _ => false) 0). reflexivity.
Defined.

Lemma truth_five_steps_when_set (t : nat) (p : TruthWorker.pc) :
  exists evs,
    TruthWorker.run (fun _ => true) 5 t p = (TruthWorker.PExit, evs)
    /\ (TruthWorker.uploads evs <= 1)%nat
    /\ (TruthWorker.slept evs <= 60)%nat.
Proof.
  destruct p as [| | [| k] | k | k |];
    eexists; (split; [reflexivity | split; cbn; lia]).
Qed.

(** X2: once the event is set, the ground-truth thread uploads at most
    once more, sleeps at most sixty seconds more, and has left [run]
    after five steps, wherever it was. *)
Theorem ground_truth_thread_stops_once_terminated
  (flag : nat -> bool) (t0 n : nat) (p : TruthWorker.pc) :
  (forall t, (t0 <= t)%nat -> flag t = true) ->
  (5 <= n)%nat ->
  fst (TruthWorker.run flag n t0 p) = TruthWorker.PExit
  /\ (TruthWorker.uploads (snd (TruthWorker.run flag n t0 p)) <= 1)%nat
  /\ (TruthWorker.slept (snd (TruthWorker.run flag n t0 p)) <= 60)%nat.
Proof.
  intros Hset Hn.
  rewrite (truth_run_ext flag (fun _ => true))
    by (intros; apply Hset; lia).
  replace n with (5 + (n - 5))%nat by lia. rewrite truth_run_add.
  destruct (truth_five_steps_when_set t0 p) as (evs & Hrun & Hup & Hsl).
  rewrite Hrun, truth_run_exit. cbn [fst snd]. rewrite app_nil_r.
  split; [reflexivity |]. split; assumption.
Qed.

Lemma ground_truth_thread_stops_once_terminated_witness :
  (forall t, (3 <= t)%nat -> (3 <=? t)%nat = true)
  /\ (5 <= 6)%nat
  /\ fst (TruthWorker.run (fun t => (3 <=? t)%nat) 6 3 TruthWorker.PUpload)
     = TruthWorker.PExit.
Proof.
  split; [intros t Ht; apply Nat.leb_le; exact Ht |].
  split; [lia |].
  apply (ground_truth_thread_stops_once_terminated
           (fun t => (3 <=? t)%nat) 3 6 TruthWorker.PUpload).
  - intros t Ht. apply Nat.leb_le. exact Ht.
  - lia.
Defined.

(** ** Lines, bodies and ids *)

Import Ids.

Lemma str_int_inj (z z' : Z) : Py.str_int z = Py.str_int z' -> z = z'.
Proof.
  unfold Py.str_int. intros Heq.
  assert (Hparse : forall x,
             NilZero.int_of_string (NilZero.string_of_int (Z.to_int x))
             = Some (Z.to_int x)).
  { intros x. apply NilZero.isi.
    - destruct x as [| p | p]; cbn; try discriminate.
      intros Hnil. inversion Hnil as [Hu].
      apply (DecimalPos.Unsigned.to_uint_nonnil p Hu).
    - destruct x as [| p | p]; cbn; try discriminate.
      intros Hnil. inversion Hnil as [Hu].
      apply (DecimalPos.Unsigned.to_uint_nonnil p Hu). }
  pose proof (Hparse z) as H1. rewrite Heq, Hparse in H1.
  inversion H1 as [H2]. symmetry. apply DecimalZ.to_int_inj, H2.
Qed.

Lemma str_of_nat_NoDup (i n : nat) :
  List.NoDup (map (fun j => Py.str_int (Z.of_nat j)) (seq i n)).
Proof.
  apply Finite.Injective_map_NoDup; [| apply List.seq_NoDup].
  intros a b Hab. apply str_int_inj in Hab. lia.
Qed.

Lemma inference_ids_app (e1 e2 : list Worker.event) :
  inference_ids (e1 ++ e2) = (inference_ids e1 ++ inference_ids e2)%list.
Proof.
  induction e1 as [| e e1 IH]; [reflexivity |].
  destruct e; cbn [app inference_ids]; rewrite IH; reflexivity.
Qed.

Lemma bodies_app (e1 e2 : list Worker.event) :
  bodies (e1 ++ e2) = (bodies e1 ++ bodies e2)%list.
Proof.
  induction e1 as [| e e1 IH]; [reflexivity |].
  destruct e; cbn [app bodies]; rewrite IH; reflexivity.
Qed.

Lemma inference_ids_lines (i : nat) (rows : list string) :
  inference_ids (lines_events i rows)
  = map (fun j => Py.str_int (Z.of_nat j)) (seq i (length rows)).
Proof.
  revert i. induction rows as [| row rest IH]; intros i; [reflexivity |].
  cbn [lines_events line_events app inference_ids length seq map].
  rewrite IH. reflexivity.
Qed.

Lemma bodies_lines (i : nat) (rows : list string) :
  bodies (lines_events i rows) = map Py.rstrip_nl rows.
Proof.
  revert i. induction rows as [| row rest IH]; intros i; [reflexivity |].
  cbn [lines_events line_events app bodies map].
  rewrite IH. reflexivity.
Qed.

(** One pass over the file with the event clear. *)
Lemma worker_pass (content : string) (flag : nat -> bool) (t : nat) :
  (forall u, (t <= u < t + (2 + 5 * length (Py.file_lines content)))%nat ->
             flag u = false) ->
  run content flag (2 + 5 * length (Py.file_lines content)) t PWhile
  = (PWhile, EvIsSet false :: lines_events 0 (Py.file_lines content)).
Proof.
  intros Hclear. set (rows := Py.file_lines content) in *.
  replace (2 + 5 * length rows)%nat with (1 + (5 * length rows + 1))%nat
    by lia.
  rewrite run_add. cbn [run step]. rewrite (Hclear t) by lia.
  fold rows. rewrite run_add, run_over_lines by (intros; apply Hclear; lia).
  cbn [run step app]. rewrite app_nil_r. reflexivity.
Qed.

Lemma worker_passes (content : string) (flag : nat -> bool) (k t : nat) :
  let n := length (Py.file_lines content) in
  (forall u, (t <= u < t + k * (2 + 5 * n))%nat -> flag u = false) ->
  run content flag (k * (2 + 5 * n)) t PWhile
  = (PWhile,
     concat (repeat (EvIsSet false :: lines_events 0 (Py.file_lines content))
                    k)).
Proof.
  intros n. revert t. induction k as [| k IH]; intros t Hclear;
    [reflexivity |].
  cbn [Nat.mul]. rewrite run_add.
  rewrite worker_pass by (intros; apply Hclear; fold n; lia).
  rewrite IH by (intros; apply Hclear; lia).
  reflexivity.
Qed.

Lemma concat_repeat_map {A B} (f : list A -> list B) (l : list A) (k : nat) :
  (forall x y, f (x ++ y)%list = (f x ++ f y)%list) ->
  f [] = [] ->
  f (concat (repeat l k)) = concat (repeat (f l) k).
Proof.
  intros Happ Hnil. induction k as [| k IH]; [exact Hnil |].
  cbn [repeat concat]. rewrite Happ, IH. reflexivity.
Qed.

(** X3: while it is not cancelled the worker goes through the file again
    and again.  In every pass the inference ids are [str(0)],
    [str(1)], ..., pairwise distinct; from one pass to the next they
    repeat, and so do the bodies. *)
Theorem inference_ids_repeat_each_pass
  (content : string) (flag : nat -> bool) (k t : nat) :
  let rows := Py.file_lines content in
  let n := length rows in
  let ids := map (fun j => Py.str_int (Z.of_nat j)) (seq 0 n) in
  (forall u, (t <= u < t + k * (2 + 5 * n))%nat -> flag u = false) ->
  fst (run content flag (k * (2 + 5 * n)) t PWhile) = PWhile
  /\ inference_ids (snd (run content flag (k * (2 + 5 * n)) t PWhile))
     = concat (repeat ids k)
  /\ bodies (snd (run content flag (k * (2 + 5 * n)) t PWhile))
     = concat (repeat (map Py.rstrip_nl rows) k)
  /\ List.NoDup ids.
Proof.
  intros rows n ids Hclear. subst ids n rows.
  pose proof (worker_passes content flag k t Hclear) as Hrun.
  cbv zeta in Hrun. rewrite Hrun. cbn [fst snd].
  split; [reflexivity |]. split; [| split].
  - rewrite (concat_repeat_map inference_ids) by
      (try apply inference_ids_app; reflexivity).
    cbn [inference_ids]. rewrite inference_ids_lines. reflexivity.
  - rewrite (concat_repeat_map bodies) by
      (try apply bodies_app; reflexivity).
    cbn [bodies]. rewrite bodies_lines. reflexivity.
  - apply str_of_nat_NoDup.
Qed.

Lemma inference_ids_repeat_each_pass_witness :
  (forall u, (0 <= u < 0 + 2 * (2 + 5 * 2))%nat ->
             (fun _ : nat => false) u = false)
  /\ inference_ids (snd (run Inputs.two_lines (fun _ => false) 24 0 PWhile))
     = ["0"; "1"; "0"; "1"]%string.
Proof.
  split; [reflexivity |].
  apply (inference_ids_repeat_each_pass Inputs.two_lines (fun _ => false) 2 0).
  reflexivity.
Defined.

Lemma rstrip_nl_clean (body : string) :
  Py.contains Py.nl body = false -> Py.rstrip_nl body = body.
Proof.
  induction body as [| c body IH]; [reflexivity |].
  cbn [Py.contains Py.rstrip_nl]. intros Hc.
  apply orb_false_iff in Hc as [Hc Hrest].
  rewrite Hc, (IH Hrest). reflexivity.
Qed.

Lemma rstrip_nl_terminated (body : string) :
  Py.contains Py.nl body = false ->
  Py.rstrip_nl (body ++ String Py.nl EmptyString) = body.
Proof.
  induction body as [| c body IH]; [reflexivity |].
  cbn [Py.contains]. intros Hc.
  apply orb_false_iff in Hc as [Hc Hrest].
  simpl. rewrite Hc, (IH Hrest). reflexivity.
Qed.

(** Each line a file yields is a text without newline followed by one
    newline, or, without the newline, a non-empty text. *)
Lemma file_lines_shape (s : string) :
  Forall (fun row =>
            exists body,
              Py.contains Py.nl body = false
              /\ (row = (body ++ String Py.nl EmptyString)%string
                  \/ (row = body /\ body <> EmptyString)))
         (Py.file_lines s).
Proof.
  induction s as [| c s IH]; [constructor |].
  cbn [Py.file_lines]. destruct (Ascii.eqb c Py.nl) eqn:Hc.
  - apply Ascii.eqb_eq in Hc. subst c. constructor; [| exact IH].
    exists EmptyString. split; [reflexivity | left; reflexivity].
  - destruct (Py.file_lines s) as [| l ls].
    + constructor; [| constructor].
      exists (String c EmptyString). split.
      * cbn [Py.contains]. rewrite Hc. reflexivity.
      * right. split; [reflexivity | discriminate].
    + inversion IH as [| ? ? (body & Hb & Hl) Hls]; subst.
      constructor; [| exact Hls].
      exists (String c body). split.
      * cbn [Py.contains]. rewrite Hc, Hb. reflexivity.
      * destruct Hl as [-> | [-> _]];
          [left; reflexivity | right; split; [reflexivity | discriminate]].
Qed.

Lemma file_lines_terminated (s : string) :
  Forall (fun row =>
            row = (Py.rstrip_nl row ++ String Py.nl EmptyString)%string)
         (removelast (Py.file_lines s)).
Proof.
  induction s as [| c s IH]; [constructor |].
  cbn [Py.file_lines]. destruct (Ascii.eqb c Py.nl) eqn:Hc.
  - destruct (Py.file_lines s) as [| l ls]; [constructor |].
    cbn [removelast] in *. constructor; [| exact IH].
    apply Ascii.eqb_eq in Hc. subst c. reflexivity.
  - destruct (Py.file_lines s) as [| l ls]; [constructor |].
    destruct ls as [| l2 ls]; [constructor |].
    cbn [removelast] in *.
    inversion IH as [| ? ? Hl Hrest]; subst.
    constructor; [| exact Hrest].
    cbn [Py.rstrip_nl]. rewrite Hc. cbn [andb]. simpl. f_equal. exact Hl.
Qed.

(** Iterating the file yields its text back, cut after each newline:
    the lines concatenate to the text, none is empty, each is a text
    without newline followed by at most one newline, and only the last
    line can lack its newline. *)
Lemma file_lines_round_trip (s : string) :
  String.concat EmptyString (Py.file_lines s) = s
  /\ Forall (fun row =>
               row <> EmptyString
               /\ Py.contains Py.nl (Py.rstrip_nl row) = false
               /\ (row = (Py.rstrip_nl row ++ String Py.nl EmptyString)%string
                   \/ row = Py.rstrip_nl row))
            (Py.file_lines s)
  /\ Forall (fun row =>
               row = (Py.rstrip_nl row ++ String Py.nl EmptyString)%string)
            (removelast (Py.file_lines s)).
Proof.
  split; [apply file_lines_concat |]. split; [| apply file_lines_terminated].
  eapply List.Forall_impl; [| apply file_lines_shape].
  intros row (body & Hb & [-> | [-> Hne]]).
  - rewrite (rstrip_nl_terminated body Hb).
    split; [destruct body; discriminate |].
    split; [exact Hb | left; reflexivity].
  - rewrite (rstrip_nl_clean body Hb).
    split; [exact Hne |]. split; [exact Hb | right; reflexivity].
Qed.

(** ** Inference ids against ground-truth ids *)

Lemma event_id_ground_truth
      (rng : Type) (seed : Z -> rng) (random : rng -> Z * rng)
      (inference_id : Z) (g : rng) :
  event_id (fst (ground_truth_with_id rng seed random inference_id g))
  = Some (Py.str_int inference_id).
Proof.
  destruct (ground_truth_shape rng seed random inference_id g)
    as (d & _ & ->).
  reflexivity.
Qed.

Lemma event_ids_records
      (rng : Type) (seed : Z -> rng) (random : rng -> Z * rng)
      (ids : list Z) (g : rng) :
  map event_id (fst (records_for rng seed random ids g))
  = map (fun i => Some (Py.str_int i)) ids.
Proof.
  revert g. induction ids as [| i ids IH]; intros g; [reflexivity |].
  cbn [records_for].
  pose proof (event_id_ground_truth rng seed random i g) as Hid.
  destruct (ground_truth_with_id rng seed random i g) as [r g1].
  specialize (IH g1).
  destruct (records_for rng seed random ids g1) as [rs g2].
  cbn [fst map] in *. rewrite Hid, IH. reflexivity.
Qed.

(** X5: the ground-truth upload has one record per request of a pass
    exactly when the file has 180 lines: the event ids of the 180
    records are then the inference ids of the pass, in the same order;
    with any other number of lines the two lists differ. *)
Theorem ground_truth_ids_match_inference_ids
  (rng : Type) (seed : Z -> rng) (random : rng -> Z * rng) (g : rng)
  (content : string) (flag : nat -> bool) (t : nat) :
  let n := length (Py.file_lines content) in
  (forall u, (t <= u < t + (2 + 5 * n))%nat -> flag u = false) ->
  map Some (inference_ids (snd (run content flag (2 + 5 * n) t PWhile)))
  = map event_id (fst (records_for rng seed random range_180 g))
  <-> n = 180%nat.
Proof.
  intros n Hclear. subst n.
  rewrite (worker_pass content flag t Hclear). cbn [snd inference_ids].
  rewrite inference_ids_lines, event_ids_records.
  unfold range_180. rewrite !List.map_map. split.
  - intros Heq. apply (f_equal (@length _)) in Heq.
    rewrite !length_map, !length_seq in Heq. exact Heq.
  - intros ->. reflexivity.
Qed.

Lemma ground_truth_ids_match_inference_ids_witness :
  (forall u, (0 <= u < 0 + (2 + 5 * 2))%nat ->
             (fun _ : nat => false) u = false)
  /\ map Some (inference_ids
                 (snd (run Inputs.two_lines (fun _ => false) 12 0 PWhile)))
     <> map event_id (fst (records_for Z lcg_seed lcg_random range_180 0)).
Proof.
  split; [reflexivity |].
  intros Heq.
  apply (ground_truth_ids_match_inference_ids Z lcg_seed lcg_random 0
           Inputs.two_lines (fun _ => false) 0) in Heq.
  - cbn in Heq. discriminate Heq.
  - reflexivity.
Defined.

(** ** Capture files *)

Import PyMore Captures.

Lemma split_nl_clean (body : string) :
  Py.contains Py.nl body = false -> split_nl body = [body].
Proof.
  induction body as [| c body IH]; [reflexivity |].
  cbn [Py.contains split_nl]. intros Hc.
  apply orb_false_iff in Hc as [Hc Hrest].
  rewrite Hc, (IH Hrest). reflexivity.
Qed.

Lemma split_nl_line (body rest : string) :
  Py.contains Py.nl body = false ->
  split_nl (body ++ String Py.nl rest) = body :: split_nl rest.
Proof.
  induction body as [| c body IH].
  - intros _. reflexivity.
  - cbn [Py.contains]. intros Hc.
    apply orb_false_iff in Hc as [Hc Hrest].
    simpl. rewrite Hc, (IH Hrest). reflexivity.
Qed.

Lemma unlines_cons (l : string) (lines : list string) :
  unlines (l :: lines) = (l ++ String Py.nl (unlines lines))%string.
Proof.
  unfold unlines. cbn [map String.concat].
  destruct (map (fun l0 => (l0 ++ String Py.nl EmptyString)%string) lines)
    as [| l1 ls]; [reflexivity |].
  rewrite append_assoc. reflexivity.
Qed.

Lemma split_nl_unlines (lines : list string) (tail : string) :
  Forall (fun l => Py.contains Py.nl l = false) lines ->
  Py.contains Py.nl tail = false ->
  split_nl (unlines lines ++ tail) = (lines ++ [tail])%list.
Proof.
  intros Hlines Htail. induction Hlines as [| l lines Hl _ IH].
  - cbn. apply split_nl_clean, Htail.
  - rewrite unlines_cons, append_assoc. cbn [String.append].
    change (String Py.nl (unlines lines) ++ tail)%string
      with (String Py.nl (unlines lines ++ tail)).
    rewrite (split_nl_line l _ Hl), IH. reflexivity.
Qed.

Lemma slice_last_but_one_snoc {A} (l : list A) (x : A) :
  slice_last_but_one 10 (l ++ [x]) = slice_last 9 l.
Proof.
  unfold slice_last_but_one, slice_last.
  rewrite length_app. cbn [length].
  replace (length l + 1 - 10)%nat with (length l - 9)%nat by lia.
  rewrite skipn_app.
  replace (length l - 9 - length l)%nat with 0%nat by lia.
  cbn [skipn]. rewrite firstn_app, length_skipn.
  replace (length l + 1 - 1 - (length l - 9) - (length l - (length l - 9)))%nat
    with 0%nat by lia.
  cbn [firstn]. rewrite app_nil_r.
  apply firstn_all2. rewrite length_skipn. lia.
Qed.

Lemma last_item_slice_last {A} (l : list A) :
  last_item (slice_last 9 l) = last_item l.
Proof.
  unfold last_item, slice_last.
  rewrite <- (rev_involutive (skipn (length l - 9) l)), <- firstn_rev.
  rewrite rev_involutive.
  destruct (rev l); reflexivity.
Qed.

(** X6: of a capture file the cell keeps the last nine complete lines
    and prints the last complete line; what follows the last newline is
    dropped, and a file without a complete line ends the cell in an
    [IndexError]. *)
Theorem capture_tail_keeps_complete_lines
  (lines : list string) (tail : string) :
  Forall (fun l => Py.contains Py.nl l = false) lines ->
  Py.contains Py.nl tail = false ->
  capture_tail (unlines lines ++ tail) = slice_last 9 lines
  /\ (length (capture_tail (unlines lines ++ tail))
      = Nat.min 9 (length lines))
  /\ last_item (capture_tail (unlines lines ++ tail)) = last_item lines
  /\ (last_item (capture_tail (unlines lines ++ tail)) = Exc IndexError
      <-> lines = []).
Proof.
  intros Hlines Htail. unfold capture_tail.
  rewrite (split_nl_unlines lines tail Hlines Htail), slice_last_but_one_snoc.
  split; [reflexivity |]. split.
  - unfold slice_last. rewrite length_skipn. lia.
  - rewrite last_item_slice_last. split; [reflexivity |].
    unfold last_item. split.
    + intros Hlast. destruct (rev lines) eqn:E; [| discriminate Hlast].
      apply (f_equal (@rev _)) in E. rewrite rev_involutive in E. exact E.
    + intros ->. reflexivity.
Qed.

Lemma capture_tail_keeps_complete_lines_witness :
  capture_tail "a
b
c" = ["a"%string; "b"%string]
  /\ last_item (capture_tail "a
b
c") = Ret "b"%string.
Proof.
  pose proof (capture_tail_keeps_complete_lines
                ["a"%string; "b"%string] "c"%string) as Hspec.
  cbn in Hspec.
  destruct Hspec as (Htail & _ & Hlast & _).
  - repeat constructor.
  - reflexivity.
  - split; [exact Htail | exact Hlast].
Defined.

(** [sorted] gives an ascending rearrangement of its argument. *)
Lemma insert_sorted_perm (x : string) (l : list string) :
  Permutation (insert_sorted x l) (x :: l).
Proof.
  induction l as [| y l IH]; [reflexivity |].
  cbn [insert_sorted]. destruct (String.leb x y); [reflexivity |].
  rewrite IH. apply perm_swap.
Qed.

Lemma sorted_perm (l : list string) : Permutation (sorted l) l.
Proof.
  induction l as [| x l IH]; [reflexivity |].
  cbn [sorted fold_right]. fold (sorted l).
  rewrite insert_sorted_perm, IH. reflexivity.
Qed.

Lemma string_leb_trans (x y z : string) :
  String.leb x y = true -> String.leb y z = true -> String.leb x z = true.
Proof.
  unfold String.leb. intros Hxy Hyz.
  destruct (String.compare x y) eqn:E1; try discriminate Hxy.
  - apply String.compare_eq_iff in E1. subst y. exact Hyz.
  - destruct (String.compare y z) eqn:E2; try discriminate Hyz.
    + apply String.compare_eq_iff in E2. subst z. rewrite E1. reflexivity.
    + apply OrderedTypeEx.String_as_OT.cmp_lt in E1, E2.
      pose proof (OrderedTypeEx.String_as_OT.lt_trans _ _ _ E1 E2) as E3.
      apply OrderedTypeEx.String_as_OT.cmp_lt in E3.
      unfold OrderedTypeEx.String_as_OT.cmp in E3. rewrite E3. reflexivity.
Qed.

Lemma insert_sorted_ascending (x : string) (l : list string) :
  Sorted.StronglySorted (fun a b => String.leb a b = true) l ->
  Sorted.StronglySorted (fun a b => String.leb a b = true)
                        (insert_sorted x l).
Proof.
  induction 1 as [| y l Hl IH Hy].
  - repeat constructor.
  - cbn [insert_sorted]. destruct (String.leb x y) eqn:Hxy.
    + constructor; [constructor; assumption |].
      constructor; [exact Hxy |].
      eapply List.Forall_impl; [| exact Hy].
      intros z Hyz. exact (string_leb_trans x y z Hxy Hyz).
    + constructor; [exact IH |].
      apply List.Forall_forall. intros z Hz.
      apply (Permutation_in _ (insert_sorted_perm x l)) in Hz.
      destruct Hz as [<- | Hz].
      * destruct (String.leb_total x y) as [H1 | H1];
          [rewrite H1 in Hxy; discriminate Hxy | exact H1].
      * rewrite List.Forall_forall in Hy. apply Hy, Hz.
Qed.

Lemma sorted_ascending (l : list string) :
  Sorted.StronglySorted (fun a b => String.leb a b = true) (sorted l).
Proof.
  induction l as [| x l IH]; [constructor |].
  cbn [sorted fold_right]. apply insert_sorted_ascending, IH.
Qed.

Lemma sorted_nil_iff (l : list string) : sorted l = [] <-> l = [].
Proof.
  split; [| intros ->; reflexivity].
  intros E. pose proof (sorted_perm l) as Hp. rewrite E in Hp.
  apply Permutation_nil in Hp. exact Hp.
Qed.

(** The loop against what the client answers: listing [j] is the
    [j+1]-th the loop makes. *)
Lemma poll_captures_replies {S : Type} `{S3Client S} (k : nat) (s : S) :
  let '(r, secs, s1) := poll_captures k [] s in
  (secs <= k)%nat
  /\ s1 = state_after (Nat.min (Datatypes.S secs) k) s
  /\ (forall j, (j < secs)%nat -> reply j s = Sdk.Ok [])
  /\ match r with
     | Ret files =>
         (secs = k /\ files = [])
         \/ ((secs < k)%nat
             /\ exists listing,
                  reply secs s = Sdk.Ok listing /\ listing <> []
                  /\ files = sorted listing)
     | Exc e =>
         (secs < k)%nat
         /\ exists e', reply secs s = Sdk.Raise e' /\ e = ServiceError e'
     end.
Proof.
  revert s. induction k as [| k IH]; intros s.
  - cbn. split; [lia |]. split; [reflexivity |].
    split; [intros j Hj; lia |]. left. split; reflexivity.
  - cbn [poll_captures].
    destruct (s3_list s) as [[listing | e] s1] eqn:Hlist.
    + destruct (sorted listing) as [| f files] eqn:E.
      * apply (proj1 (sorted_nil_iff listing)) in E. subst listing.
        specialize (IH s1).
        destruct (poll_captures k [] s1) as [[r secs] s2].
        destruct IH as (Hle & Hs2 & Hempty & Hr).
        assert (Hstate : forall n, state_after (Datatypes.S n) s
                                   = state_after n s1).
        { intros n. cbn [state_after]. rewrite Hlist. reflexivity. }
        assert (Hreply : forall n, reply (Datatypes.S n) s = reply n s1).
        { intros n. unfold reply. rewrite Hstate. reflexivity. }
        split; [lia |]. split.
        { rewrite Hs2, <- Hstate. reflexivity. }
        split.
        { intros [| j] Hj.
          - unfold reply. cbn [state_after]. rewrite Hlist. reflexivity.
          - rewrite Hreply. apply Hempty. lia. }
        destruct r as [files | e].
        -- destruct Hr as [[-> ->] | (Hlt & l & Hl & Hne & ->)].
           ++ left. split; reflexivity.
           ++ right. split; [lia |]. exists l. rewrite Hreply.
              repeat split; assumption.
        -- destruct Hr as (Hlt & e' & He' & ->). split; [lia |].
           exists e'. rewrite Hreply. split; [exact He' | reflexivity].
      * split; [lia |]. split.
        { cbn [Nat.min state_after]. rewrite Hlist. reflexivity. }
        split; [intros j Hj; lia |].
        right. split; [lia |]. exists listing.
        split; [unfold reply; cbn [state_after]; rewrite Hlist; reflexivity |].
        split; [| symmetry; exact E].
        intros ->. discriminate E.
    + split; [lia |]. split.
      { cbn [Nat.min state_after]. rewrite Hlist. reflexivity. }
      split; [intros j Hj; lia |].
      split; [lia |]. exists e.
      split; [unfold reply; cbn [state_after]; rewrite Hlist; reflexivity |].
      reflexivity.
Qed.

(** X7: the wait for capture files makes at most sixty listings, one
    second apart, and goes only by what the listings answer.  The
    listings before the last answered nothing; the wait ends with the
    first listing that answers files, which it returns in ascending
    order, or with the first listing that raises, whose exception it
    passes on; when all sixty listings answer nothing it ends with an
    empty list after sixty seconds, and the next cell, which reads
    [capture_files[-1]], raises [IndexError]. *)
Theorem wait_for_captures_bounded {S : Type} `{S3Client S} (s : S) :
  let '(r, secs, s1) := wait_for_captures s in
  (secs <= 60)%nat
  /\ s1 = state_after (Nat.min (Datatypes.S secs) 60) s
  /\ (forall j, (j < secs)%nat -> reply j s = Sdk.Ok [])
  /\ match r with
     | Ret files =>
         (secs = 60%nat /\ files = []
          /\ fst (last_capture_line files s1) = Exc IndexError)
         \/ ((secs < 60)%nat
             /\ exists listing,
                  reply secs s = Sdk.Ok listing /\ listing <> []
                  /\ files = sorted listing
                  /\ Permutation files listing
                  /\ Sorted.StronglySorted
                       (fun a b => String.leb a b = true) files)
     | Exc e =>
         (secs < 60)%nat
         /\ exists e', reply secs s = Sdk.Raise e' /\ e = ServiceError e'
     end.
Proof.
  unfold wait_for_captures.
  pose proof (poll_captures_replies 60 s) as Hspec.
  destruct (poll_captures 60 [] s) as [[r secs] s1].
  destruct Hspec as (Hle & Hs1 & Hempty & Hr).
  split; [exact Hle |]. split; [exact Hs1 |]. split; [exact Hempty |].
  destruct r as [files | e]; [| exact Hr].
  destruct Hr as [[-> ->] | (Hlt & l & Hl & Hne & ->)].
  - left. repeat split; reflexivity.
  - right. split; [exact Hlt |]. exists l.
    split; [exact Hl |]. split; [exact Hne |]. split; [reflexivity |].
    split; [apply sorted_perm | apply sorted_ascending].
Qed.

(** On the model of a bucket: the files found are the first listing that
    is not empty, rearranged in ascending order, and the seconds slept
    count the empty listings before it. *)
Lemma poll_captures_model (k : nat) (empties : nat)
      (listing : list string) (later : list (list string))
      (objs : gmap string string) (found : list string) :
  listing <> [] ->
  (empties < k)%nat ->
  exists s1,
    poll_captures k found
      (Bucket (repeat [] empties ++ listing :: later) objs)
    = (Ret (sorted listing), empties, s1).
Proof.
  intros Hne. revert k found.
  induction empties as [| n IH]; intros k found Hlt.
  - destruct k as [| k]; [lia |].
    cbn [poll_captures repeat app s3_list bucket_model model_s3_list listings].
    assert (Hs : sorted listing <> []).
    { intros E. pose proof (sorted_perm listing) as Hp. rewrite E in Hp.
      apply Permutation_nil in Hp. contradiction. }
    destruct later as [| l2 later];
      destruct (sorted listing) eqn:E; try contradiction;
      eexists; reflexivity.
  - destruct k as [| k]; [lia |].
    cbn [poll_captures repeat app s3_list bucket_model model_s3_list listings].
    destruct (IH k [] ltac:(lia)) as [s1 Hs1].
    destruct (repeat [] n ++ listing :: later)%list eqn:E.
    + destruct n; discriminate E.
    + cbn [sorted fold_right objects].
      rewrite Hs1. eexists. reflexivity.
Qed.

(** X8: on a bucket whose listing is empty for fewer than sixty polls
    and then shows files, the wait ends after as many seconds as there
    were empty listings, with exactly the files of the first listing
    that is not empty, in ascending order. *)
Theorem wait_for_captures_finds_first_listing
  (empties : nat) (listing : list string) (later : list (list string))
  (objs : gmap string string) :
  listing <> [] ->
  (empties < 60)%nat ->
  exists files s1,
    wait_for_captures (Bucket (repeat [] empties ++ listing :: later) objs)
    = (Ret files, empties, s1)
    /\ Permutation files listing
    /\ Sorted.StronglySorted (fun a b => String.leb a b = true) files.
Proof.
  intros Hne Hlt.
  destruct (poll_captures_model 60 empties listing later objs [] Hne Hlt)
    as [s1 Hs1].
  exists (sorted listing), s1. split; [exact Hs1 |].
  split; [apply sorted_perm | apply sorted_ascending].
Qed.

Lemma wait_for_captures_finds_first_listing_witness :
  exists files s1,
    wait_for_captures
      (Bucket [[]; []; ["b"%string; "a"%string]] (empty : gmap string string))
    = (Ret files, 2%nat, s1)
    /\ Permutation files ["b"%string; "a"%string]
    /\ Sorted.StronglySorted (fun a b => String.leb a b = true) files.
Proof.
  apply (wait_for_captures_finds_first_listing
           2 ["b"%string; "a"%string] [] empty).
  - discriminate.
  - lia.
Defined.

(** ** The bodies the worker sends *)

Lemma file_lines_line (body rest : string) :
  Py.contains Py.nl body = false ->
  Py.file_lines (body ++ String Py.nl rest)
  = (body ++ String Py.nl EmptyString)%string :: Py.file_lines rest.
Proof.
  induction body as [| c body IH].
  - intros _. reflexivity.
  - cbn [Py.contains]. intros Hc.
    apply orb_false_iff in Hc as [Hc Hrest].
    simpl. rewrite Hc, (IH Hrest). reflexivity.
Qed.

Lemma file_lines_unlines (lines : list string) :
  Forall (fun l => Py.contains Py.nl l = false) lines ->
  Py.file_lines (unlines lines)
  = map (fun l => (l ++ String Py.nl EmptyString)%string) lines.
Proof.
  induction 1 as [| l lines Hl _ IH]; [reflexivity |].
  rewrite unlines_cons, (file_lines_line l _ Hl), IH. reflexivity.
Qed.

(** X4: in a pass that is not cancelled the worker sends one body per
    line of the file, in order, and no body holds a newline; for a file
    of lines that each end in a newline the bodies are exactly those
    lines, empty ones included. *)
Theorem bodies_are_the_lines_of_the_file
  (content : string) (flag : nat -> bool) (t : nat) :
  let n := length (Py.file_lines content) in
  (forall u, (t <= u < t + (2 + 5 * n))%nat -> flag u = false) ->
  let sent := Ids.bodies (snd (Worker.run content flag (2 + 5 * n) t
                                 Worker.PWhile)) in
  length sent = n
  /\ Forall (fun body => Py.contains Py.nl body = false) sent
  /\ (forall lines,
        Forall (fun l => Py.contains Py.nl l = false) lines ->
        content = unlines lines -> sent = lines).
Proof.
  intros n Hclear sent. subst sent n.
  rewrite (worker_pass content flag t Hclear). cbn [snd Ids.bodies].
  rewrite bodies_lines. split; [apply length_map |]. split.
  - apply Forall_map.
    eapply List.Forall_impl; [| apply file_lines_shape].
    intros row (body & Hb & [-> | [-> _]]).
    + rewrite (rstrip_nl_terminated body Hb). exact Hb.
    + rewrite (rstrip_nl_clean body Hb). exact Hb.
  - intros lines Hlines ->. rewrite (file_lines_unlines lines Hlines).
    rewrite List.map_map. rewrite <- (map_id lines) at 2.
    apply map_ext_in. intros l Hl.
    apply rstrip_nl_terminated.
    rewrite List.Forall_forall in Hlines. apply Hlines, Hl.
Qed.

Lemma bodies_are_the_lines_of_the_file_witness :
  Ids.bodies (snd (Worker.run Inputs.two_lines (fun _ => false) 12 0
                     Worker.PWhile))
  = ["35,1"%string; "41,0"%string].
Proof.
  refine (proj2 (proj2 (bodies_are_the_lines_of_the_file
                          Inputs.two_lines (fun _ => false) 0 _))
                ["35,1"%string; "41,0"%string] _ _).
  - reflexivity.
  - repeat constructor.
  - reflexivity.
Defined.

(** ** Dicts *)

Section DictFacts.
Context {V : Type}.
Implicit Types (d : Dict.dict V) (k : string) (v : V).

Lemma dict_get_none d k :
  Dict.get k d = None <-> ~ In k (Dict.keys d).
Proof.
  induction d as [| [k' v'] d IH]; cbn [Dict.get Dict.keys map fst In].
  - tauto.
  - destruct (String.eqb k' k) eqn:E.
    + apply String.eqb_eq in E. split; [discriminate | tauto].
    + apply String.eqb_neq in E. unfold Dict.keys in IH. tauto.
Qed.

Lemma dict_get_in d k v :
  Dict.get k d = Some v -> In (k, v) d.
Proof.
  induction d as [| [k' v'] d IH]; cbn [Dict.get In]; [discriminate |].
  destruct (String.eqb k' k) eqn:E.
  - apply String.eqb_eq in E. intros [= ->]. left. subst. reflexivity.
  - intros Hg. right. apply IH, Hg.
Qed.

Lemma dict_in_get d k v :
  List.NoDup (Dict.keys d) -> In (k, v) d -> Dict.get k d = Some v.
Proof.
  induction d as [| [k' v'] d IH]; cbn [Dict.get Dict.keys map fst In];
    [tauto |].
  intros Hnd [[= -> ->] | Hin].
  - rewrite String.eqb_refl. reflexivity.
  - inversion Hnd as [| ? ? Hk Hd]; subst.
    destruct (String.eqb k' k) eqn:E.
    + apply String.eqb_eq in E. subst k'. exfalso. apply Hk.
      apply (in_map fst) in Hin. exact Hin.
    + apply IH; assumption.
Qed.

Lemma dict_keys_set d k v x :
  In x (Dict.keys (Dict.set k v d)) <-> x = k \/ In x (Dict.keys d).
Proof.
  induction d as [| [k' v'] d IH]; cbn [Dict.set Dict.keys map fst In].
  - intuition congruence.
  - destruct (String.eqb k' k) eqn:E; cbn [map fst In].
    + apply String.eqb_eq in E. subst k'. intuition congruence.
    + unfold Dict.keys in IH. rewrite IH. intuition congruence.
Qed.

Lemma dict_nodup_set d k v :
  List.NoDup (Dict.keys d) -> List.NoDup (Dict.keys (Dict.set k v d)).
Proof.
  induction d as [| [k' v'] d IH]; cbn [Dict.set Dict.keys map fst].
  - intros _. repeat constructor. intros [].
  - intros Hnd. inversion Hnd as [| ? ? Hk Hd]; subst.
    destruct (String.eqb k' k) eqn:E; cbn [map fst].
    + constructor; assumption.
    + constructor; [| apply IH, Hd].
      intros Hin. apply dict_keys_set in Hin as [-> | Hin].
      * rewrite String.eqb_refl in E. discriminate E.
      * apply Hk, Hin.
Qed.

Lemma dict_get_set_eq d k v : Dict.get k (Dict.set k v d) = Some v.
Proof.
  induction d as [| [k' v'] d IH]; cbn [Dict.set Dict.get].
  - rewrite String.eqb_refl. reflexivity.
  - destruct (String.eqb k' k) eqn:E; cbn [Dict.get]; rewrite E;
      [reflexivity | exact IH].
Qed.

Lemma dict_get_set_ne d k v x :
  x <> k -> Dict.get x (Dict.set k v d) = Dict.get x d.
Proof.
  intros Hne.
  induction d as [| [k' v'] d IH]; cbn [Dict.set Dict.get].
  - destruct (String.eqb k x) eqn:E; [| reflexivity].
    apply String.eqb_eq in E. congruence.
  - destruct (String.eqb k' k) eqn:E; cbn [Dict.get].
    + apply String.eqb_eq in E. subst k'.
      destruct (String.eqb k x) eqn:E2; [| reflexivity].
      apply String.eqb_eq in E2. congruence.
    + rewrite IH. reflexivity.
Qed.

Lemma dict_remove_filter d k :
  List.NoDup (Dict.keys d) ->
  Dict.remove k d
  = List.filter (fun kv => negb (String.eqb (fst kv) k)) d.
Proof.
  induction d as [| [k' v'] d IH];
    cbn [Dict.remove Dict.keys map fst List.filter]; [reflexivity |].
  intros Hnd. inversion Hnd as [| ? ? Hk Hd]; subst.
  destruct (String.eqb k' k) eqn:E; cbn [negb].
  - apply String.eqb_eq in E. subst k'.
    symmetry. clear IH Hnd Hd.
    induction d as [| [k2 v2] d IH2]; [reflexivity |].
    cbn [List.filter fst]. cbn [map fst In] in Hk.
    destruct (String.eqb k2 k) eqn:E2.
    + apply String.eqb_eq in E2. tauto.
    + cbn [negb]. f_equal. apply IH2. tauto.
  - f_equal. apply IH, Hd.
Qed.

Lemma dict_keys_filter (p : string -> bool) d :
  Dict.keys (List.filter (fun kv => p (fst kv)) d)
  = List.filter p (Dict.keys d).
Proof.
  induction d as [| [k' v'] d IH]; [reflexivity |].
  cbn [List.filter Dict.keys map fst]. destruct (p k'); cbn [map fst];
    unfold Dict.keys in IH; rewrite IH; reflexivity.
Qed.

Lemma dict_get_remove_ne d k x :
  x <> k -> Dict.get x (Dict.remove k d) = Dict.get x d.
Proof.
  intros Hne.
  induction d as [| [k' v'] d IH]; cbn [Dict.remove Dict.get];
    [reflexivity |].
  destruct (String.eqb k' k) eqn:E; cbn [Dict.get].
  - apply String.eqb_eq in E. subst k'.
    destruct (String.eqb k x) eqn:E2; [| reflexivity].
    apply String.eqb_eq in E2. congruence.
  - rewrite IH. reflexivity.
Qed.

Lemma dict_keys_update_one d k v x :
  In x (Dict.keys (Dict.update d [(k, v)])) <-> x = k \/ In x (Dict.keys d).
Proof. apply dict_keys_set. Qed.

End DictFacts.

Lemma filter_filter {A} (p q : A -> bool) (l : list A) :
  List.filter q (List.filter p l) = List.filter (fun x => p x && q x) l.
Proof.
  induction l as [| x l IH]; [reflexivity |].
  cbn [List.filter]. destruct (p x); cbn [andb List.filter];
    [destruct (q x) |]; rewrite IH; reflexivity.
Qed.

(** ** The online feature store *)

Section FeatureFacts.
Import FeatureStore.
Variable F : Type.
Variable py_int : string -> option Z.
Variable py_float : string -> option F.
Variable str_float : F -> string.

Implicit Types (d tmp record kept : Dict.dict (FeatureStore.value F)).

Lemma loop_post_step (fn sfv ty : string) (val : FeatureStore.value F)
      (rec : list (string * string)) (types : Dict.dict string)
      (tmp : Dict.dict (FeatureStore.value F)) (r : outcome (Dict.dict (FeatureStore.value F))) :
  Dict.get fn types = Some ty ->
  conversion F py_int py_float ty sfv val ->
  loop_post F py_int py_float rec types (Dict.set fn val tmp) r ->
  loop_post F py_int py_float ((fn, sfv) :: rec) types tmp r.
Proof.
  intros Hty Hconv. unfold loop_post.
  destruct r as [d | [k | | | | e]]; cbn [map fst In].
  - intros (Hkeys & Hnd & Hget). split; [| split].
    + intros k. rewrite Hkeys, dict_keys_set. intuition congruence.
    + intros Htmp. apply Hnd, dict_nodup_set, Htmp.
    + intros k v Hk. destruct (Hget k v Hk) as [[Hnot Hset] | Hlast].
      * destruct (string_dec k fn) as [-> | Hne].
        -- right. rewrite dict_get_set_eq in Hset.
           injection Hset as <-. exists [], sfv, rec, ty.
           repeat split; assumption.
        -- left. rewrite (dict_get_set_ne _ _ _ _ Hne) in Hset.
           split; [intuition congruence | exact Hset].
      * right.
        destruct Hlast as (before & sv & after & ty' & -> & Hafter & H1 & H2).
        exists ((fn, sfv) :: before), sv, after, ty'.
        repeat split; assumption.
  - intros [Hin Hnone]. split; [right; exact Hin | exact Hnone].
  - tauto.
  - intros (k & sv & Hin & Hcase). exists k, sv.
    split; [right; exact Hin | exact Hcase].
  - tauto.
  - tauto.
Qed.

Lemma record_to_dict_from_post (rec : list (string * string))
      (types : Dict.dict string) (tmp : Dict.dict (FeatureStore.value F)) :
  loop_post F py_int py_float rec types tmp (record_to_dict_from F py_int py_float rec types tmp).
Proof.
  revert tmp. induction rec as [| [fn sfv] rec IH]; intros tmp.
  - cbn. split; [| split].
    + intros k. tauto.
    + tauto.
    + intros k v Hk. left. split; [tauto | exact Hk].
  - cbn [record_to_dict_from].
    destruct (Dict.get fn types) as [ty |] eqn:Hty.
    + destruct (String.eqb ty "Integral") eqn:E1.
      * apply String.eqb_eq in E1.
        destruct (py_int sfv) as [z |] eqn:Hz.
        -- apply (loop_post_step fn sfv ty (VInt F z)); [exact Hty | | apply IH].
           split; assumption.
        -- exists fn, sfv. split; [left; reflexivity |].
           left. subst ty. split; assumption.
      * apply String.eqb_neq in E1.
        destruct (String.eqb ty "Fractional") eqn:E2.
        -- apply String.eqb_eq in E2.
           destruct (py_float sfv) as [x |] eqn:Hx.
           ++ apply (loop_post_step fn sfv ty (VFloat F x));
                [exact Hty | | apply IH].
              repeat split; assumption.
           ++ exists fn, sfv. split; [left; reflexivity |].
              right. subst ty. split; assumption.
        -- apply String.eqb_neq in E2.
           apply (loop_post_step fn sfv ty (VStr F sfv));
             [exact Hty | | apply IH].
           repeat split; assumption.
    + split; [left; reflexivity | exact Hty].
Qed.

(** X9: [_record_to_dict] gives a dict with exactly the feature names
    of the record as keys, each once; a key's value comes from the last
    field of that name and has the Python type its declared feature type
    asks for (int for Integral, float for Fractional, the text
    otherwise).  It raises [KeyError] only for a field whose feature is
    not declared, and [ValueError] only for an Integral or Fractional
    field whose text does not parse; nothing else. *)
Theorem record_to_dict_typed
  (rec : list (string * string)) (types : Dict.dict string) :
  match record_to_dict F py_int py_float rec types with
  | Ret d =>
      (forall k, In k (Dict.keys d) <-> In k (map fst rec))
      /\ List.NoDup (Dict.keys d)
      /\ (forall k v, Dict.get k d = Some v ->
                      last_field_gives F py_int py_float rec types k v)
  | Exc (KeyError k) => In k (map fst rec) /\ Dict.get k types = None
  | Exc ValueError =>
      exists k sv,
        In (k, sv) rec
        /\ ((Dict.get k types = Some "Integral"%string /\ py_int sv = None)
            \/ (Dict.get k types = Some "Fractional"%string
                /\ py_float sv = None))
  | Exc _ => False
  end.
Proof.
  unfold record_to_dict.
  pose proof (record_to_dict_from_post rec types []) as Hpost.
  unfold loop_post in Hpost.
  destruct (record_to_dict_from F py_int py_float rec types []) as [d | [k | | | | e]]; try exact Hpost.
  destruct Hpost as (Hkeys & Hnd & Hget). split; [| split].
  - intros k. rewrite Hkeys. cbn. tauto.
  - apply Hnd. constructor.
  - intros k v Hk. destruct (Hget k v Hk) as [[_ Hnil] | Hlast];
      [discriminate Hnil | exact Hlast].
Qed.

Lemma types_of_keys (defs : list (string * string))
      (acc : Dict.dict string) (k : string) :
  In k (Dict.keys (fold_left (fun acc fd => Dict.set (fst fd) (snd fd) acc)
                             defs acc))
  <-> In k (Dict.keys acc) \/ In k (map fst defs).
Proof.
  revert acc. induction defs as [| [n t] defs IH]; intros acc.
  - cbn. tauto.
  - cbn [fold_left fst snd map In]. rewrite IH, dict_keys_set.
    intuition congruence.
Qed.

Lemma types_of_declared (defs : list (string * string)) (k : string) :
  Dict.get k (types_of defs) = None <-> ~ In k (map fst defs).
Proof.
  rewrite dict_get_none. unfold types_of. rewrite types_of_keys.
  cbn. tauto.
Qed.

Lemma records_to_dicts_declared
      (defs : list (string * string))
      (records : list (list (string * string))) :
  Forall (fun rec => incl (map fst rec) (map fst defs)) records ->
  match records_to_dicts F py_int py_float records (types_of defs) with
  | Ret results =>
      Forall2 (fun rec d => forall k, In k (Dict.keys d) <-> In k (map fst rec))
              records results
  | Exc e => e = ValueError
  end.
Proof.
  induction 1 as [| rec records Hrec _ IH]; [constructor |].
  cbn [records_to_dicts]. unfold record_to_dict.
  pose proof (record_to_dict_from_post rec (types_of defs) []) as Hspec.
  unfold loop_post in Hspec.
  destruct (record_to_dict_from F py_int py_float rec (types_of defs) [])
    as [d | [k | | | | e]]; try tauto.
  - destruct (records_to_dicts F py_int py_float records (types_of defs))
      as [ds | e]; [| exact IH].
    constructor; [| exact IH].
    intros k. destruct Hspec as (Hkeys & _). rewrite Hkeys. cbn. tauto.
  - destruct Hspec as [Hin Hnone]. apply types_of_declared in Hnone.
    exfalso. apply Hnone, Hrec, Hin.
Qed.

(** X10: when the store returns only features the group declares,
    [get_online_feature_group_records] gives one dict per record
    returned, with the record's feature names as keys, or raises
    [ValueError]; the lookup of a feature's type never fails. *)
Theorem online_records_of_declared_features
  {S : Type} `{FeatureStoreClient S}
  (fg_name : string) (id_value_list : list ident) (s s1 s2 : S)
  (defs : list (string * string)) (records : list (list (string * string))) :
  describe_feature_group fg_name s = (Sdk.Ok defs, s1) ->
  batch_get_record fg_name (map str_ident id_value_list) (map fst defs) s1
  = (Sdk.Ok records, s2) ->
  Forall (fun rec => incl (map fst rec) (map fst defs)) records ->
  match fst (get_online_feature_group_records F py_int py_float
               fg_name id_value_list s) with
  | Ret results =>
      Forall2 (fun rec d => forall k, In k (Dict.keys d) <-> In k (map fst rec))
              records results
  | Exc e => e = ValueError
  end.
Proof.
  intros Hdesc Hbatch Hdeclared.
  unfold get_online_feature_group_records.
  rewrite Hdesc. cbv zeta. rewrite Hbatch. cbn [fst].
  apply records_to_dicts_declared, Hdeclared.
Qed.

Lemma existsb_keys (d : Dict.dict (FeatureStore.value F)) (k : string) :
  existsb (String.eqb k) (Dict.keys d)
  = match Dict.get k d with Some _ => true | None => false end.
Proof.
  induction d as [| [k' v'] d IH]; [reflexivity |].
  cbn [Dict.keys map fst existsb Dict.get].
  rewrite (String.eqb_sym k k').
  destruct (String.eqb k' k); [reflexivity | exact IH].
Qed.

Lemma str_items_all (d : Dict.dict (FeatureStore.value F)) (l : list (string * FeatureStore.value F)) :
  (forall kv, In kv l -> Dict.get (fst kv) d = Some (snd kv)) ->
  str_items F str_float d (map fst l)
  = Ret (map (fun kv => str_value F str_float (snd kv)) l).
Proof.
  induction l as [| [k v] l IH]; [reflexivity |].
  intros Hget. cbn [map fst str_items]. unfold Dict.item.
  pose proof (Hget (k, v) (or_introl eq_refl)) as Hk. cbn [fst snd] in Hk.
  rewrite Hk. cbn [snd].
  rewrite IH; [reflexivity |].
  intros kv Hin. apply Hget. right. exact Hin.
Qed.

Lemma str_items_keys (d : Dict.dict (FeatureStore.value F)) :
  List.NoDup (Dict.keys d) ->
  str_items F str_float d (Dict.keys d)
  = Ret (map (fun kv => str_value F str_float (snd kv)) d).
Proof.
  intros Hnd. apply str_items_all.
  intros [k v] Hin. apply dict_in_get; assumption.
Qed.

Lemma nodup_keys_filter (p : string -> bool) (d : Dict.dict (FeatureStore.value F)) :
  List.NoDup (Dict.keys d) ->
  List.NoDup (Dict.keys (List.filter (fun kv => p (fst kv)) d)).
Proof.
  intros Hnd. rewrite dict_keys_filter. apply List.NoDup_filter, Hnd.
Qed.

(** X11: the payload is made of the values of the first record except
    [PRICE], [event_time] and [record_id], in the record's order and
    joined by commas, and the three keys are gone from
    [customer_record[0]] itself since [record] is the same dict.  The
    first of the three keys that the record lacks raises [KeyError], and
    an empty result raises [IndexError]; building the payload never
    fails after the pops. *)
Theorem payload_drops_three_features
  (record : Dict.dict (FeatureStore.value F)) (rest : list (Dict.dict (FeatureStore.value F))) :
  List.NoDup (Dict.keys record) ->
  let dropped := ["PRICE"%string; "event_time"%string; "record_id"%string] in
  let kept :=
    List.filter (fun kv => negb (existsb (String.eqb (fst kv)) dropped))
                record in
  payload_cells F str_float (record :: rest)
  = match List.find (fun k => negb (existsb (String.eqb k) (Dict.keys record)))
                    dropped with
    | Some k => Exc (KeyError k)
    | None =>
        Ret (Py.join "," (map (fun kv => str_value F str_float (snd kv)) kept),
             kept :: rest)
    end
  /\ payload_cells F str_float [] = Exc IndexError.
Proof.
  intros Hnd dropped kept. split; [| reflexivity].
  subst dropped. cbn [List.find]. rewrite !existsb_keys.
  unfold payload_cells, pop_record, first_item, Dict.pop.
  destruct (Dict.get "PRICE" record) as [v1 |] eqn:H1; [| reflexivity].
  rewrite (dict_get_remove_ne _ _ "event_time") by discriminate.
  destruct (Dict.get "event_time" record) as [v2 |] eqn:H2; [| reflexivity].
  rewrite !(dict_get_remove_ne _ _ "record_id") by discriminate.
  destruct (Dict.get "record_id" record) as [v3 |] eqn:H3; [| reflexivity].
  cbn [negb].
  pose (p1 := fun k => negb (String.eqb k "PRICE")).
  pose (p2 := fun k => negb (String.eqb k "event_time")).
  pose (p3 := fun k => negb (String.eqb k "record_id")).
  pose (r1 := List.filter
                (fun kv : string * FeatureStore.value F => p1 (fst kv)) record).
  pose (r2 := List.filter
                (fun kv : string * FeatureStore.value F => p2 (fst kv)) r1).
  pose (r3 := List.filter
                (fun kv : string * FeatureStore.value F => p3 (fst kv)) r2).
  assert (Hnd1 : List.NoDup (Dict.keys r1)) by (apply nodup_keys_filter, Hnd).
  assert (Hnd2 : List.NoDup (Dict.keys r2)) by (apply nodup_keys_filter, Hnd1).
  assert (Hnd3 : List.NoDup (Dict.keys r3)) by (apply nodup_keys_filter, Hnd2).
  assert (E1 : Dict.remove "PRICE" record = r1)
    by (apply dict_remove_filter, Hnd).
  assert (E2 : Dict.remove "event_time" r1 = r2)
    by (apply dict_remove_filter, Hnd1).
  assert (E3 : Dict.remove "record_id" r2 = r3)
    by (apply dict_remove_filter, Hnd2).
  assert (Ekept : r3 = kept).
  { subst r3 r2 r1 kept. rewrite !filter_filter. apply List.filter_ext.
    intros [k v]. subst p1 p2 p3. cbn [fst existsb].
    destruct (String.eqb k "PRICE"), (String.eqb k "event_time"),
      (String.eqb k "record_id"); reflexivity. }
  rewrite E1, E2, E3, Ekept. rewrite Ekept in Hnd3.
  rewrite (str_items_keys kept Hnd3). reflexivity.
Qed.

End FeatureFacts.

Lemma online_records_of_declared_features_witness :
  let client : FeatureStore.FeatureStoreClient unit :=
    FeatureStore.Build_FeatureStoreClient unit
      (fun _ s => (Sdk.Ok [("age"%string, "Integral"%string)], s))
      (fun _ _ _ s => (Sdk.Ok [[("age"%string, "41"%string)]], s)) in
  match fst (@FeatureStore.get_online_feature_group_records
               Z (fun _ => Some 41%Z) (fun _ => None) unit client
               "customers" [FeatureStore.IdInt 1] tt) with
  | Ret results =>
      Forall2 (fun rec d => forall k, In k (Dict.keys d) <-> In k (map fst rec))
              [[("age"%string, "41"%string)]] results
  | Exc e => e = ValueError
  end.
Proof.
  intros client.
  apply (@online_records_of_declared_features
           Z (fun _ => Some 41%Z) (fun _ => None) unit client
           "customers" [FeatureStore.IdInt 1] tt tt tt
           [("age"%string, "Integral"%string)]
           [[("age"%string, "41"%string)]]).
  - reflexivity.
  - reflexivity.
  - constructor; [| constructor]. intros k Hk. exact Hk.
Defined.

Lemma payload_drops_three_features_witness :
  FeatureStore.payload_cells Z (fun _ => "0.5"%string)
    [[("PRICE"%string, FeatureStore.VFloat Z 5);
      ("rooms"%string, FeatureStore.VStr Z "3");
      ("event_time"%string, FeatureStore.VStr Z "t");
      ("zip"%string, FeatureStore.VStr Z "z");
      ("record_id"%string, FeatureStore.VStr Z "1")]]
  = Ret ("3,z"%string,
         [[("rooms"%string, FeatureStore.VStr Z "3");
           ("zip"%string, FeatureStore.VStr Z "z")]]).
Proof.
  refine (proj1 (payload_drops_three_features Z (fun _ => "0.5"%string)
                   [("PRICE"%string, FeatureStore.VFloat Z 5);
                    ("rooms"%string, FeatureStore.VStr Z "3");
                    ("event_time"%string, FeatureStore.VStr Z "t");
                    ("zip"%string, FeatureStore.VStr Z "z");
                    ("record_id"%string, FeatureStore.VStr Z "1")] [] _)).
  repeat constructor; cbn; intuition discriminate.
Defined.

(** ** The model registry helpers *)

Import Registry.

Lemma is_prefix_refl (p : string) : is_prefix p p = true.
Proof.
  induction p as [| c p IH]; [reflexivity |].
  cbn [is_prefix]. rewrite Ascii.eqb_refl. exact IH.
Qed.

Lemma is_infix_refl (p : string) : is_infix p p = true.
Proof. destruct p; cbn [is_infix]; rewrite is_prefix_refl; reflexivity. Qed.

Lemma existsb_eqb_sym (name : string) (l : list string) :
  existsb (fun n => String.eqb n name) l = existsb (String.eqb name) l.
Proof.
  induction l as [| x l IH]; [reflexivity |].
  cbn [existsb]. rewrite IH, (String.eqb_sym x name). reflexivity.
Qed.

Lemma existsb_eqb_in (name : string) (l : list string) :
  existsb (String.eqb name) l = true <-> In name l.
Proof.
  rewrite existsb_exists. split.
  - intros (x & Hin & Heq). apply String.eqb_eq in Heq. subst x. exact Hin.
  - intros Hin. exists name. split; [exact Hin | apply String.eqb_refl].
Qed.

(** A group is among the groups whose name contains its name. *)
Lemma existsb_matching (name : string) (l : list string) :
  existsb (String.eqb name) (List.filter (is_infix name) l)
  = existsb (String.eqb name) l.
Proof.
  induction l as [| x l IH]; [reflexivity |].
  cbn [List.filter existsb]. destruct (is_infix name x) eqn:E.
  - cbn [existsb]. rewrite IH. reflexivity.
  - rewrite IH. destruct (String.eqb_spec name x) as [<- | _];
      [| reflexivity].
    rewrite is_infix_refl in E. discriminate E.
Qed.

(** One call on the registry model. *)
Lemma create_model_package_group_call
      (s : registry) (name description : string) :
  create_model_package_group name description s
  = if existsb (String.eqb name) (firstn (page_size s) (matching name s))
    then (Sdk.Ok (Some (name ++ " Model Package Group already exists")%string),
          s)
    else if existsb (String.eqb name) (map fst (entries s))
         then (Sdk.Raise (Sdk.ClientError "ValidationException"), s)
         else (Sdk.Ok None,
               Registry (page_size s)
                        (entries s ++ [(name, description)])%list).
Proof.
  unfold create_model_package_group, Sdk.bind.
  cbn [list_model_package_groups create_group registry_model].
  unfold model_list_groups. rewrite existsb_eqb_sym.
  destruct (existsb (String.eqb name)
                    (firstn (page_size s) (matching name s)));
    cbn [negb]; [reflexivity |].
  unfold model_create_group.
  destruct (existsb (String.eqb name) (map fst (entries s))); reflexivity.
Qed.

(** X12: [create_model_package_group] decides from one listing, the
    first page of the groups whose name contains the name asked for.  A
    group found there is left as it is and the notice is printed; a
    group that does not exist is created.  When those groups fit on the
    page with room for one more, the call never raises and a second
    call, with any description, changes nothing.  But a group that
    exists past the first page is not found, the code asks to create it
    again, and the call ends in the service's refusal. *)
Theorem create_model_package_group_reads_one_page
  (s : registry) (name description description2 : string) :
  let notice := (name ++ " Model Package Group already exists")%string in
  let first_page := firstn (page_size s) (matching name s) in
  ((length (matching name s) < page_size s)%nat ->
   exists r1 s1,
     create_model_package_group name description s = (Sdk.Ok r1, s1)
     /\ (r1 = None <-> ~ In name (map fst (entries s)))
     /\ (In name (map fst (entries s)) -> s1 = s)
     /\ (~ In name (map fst (entries s)) ->
         entries s1 = (entries s ++ [(name, description)])%list)
     /\ create_model_package_group name description2 s1
        = (Sdk.Ok (Some notice), s1))
  /\ (In name first_page ->
      create_model_package_group name description s
      = (Sdk.Ok (Some notice), s))
  /\ (In name (map fst (entries s)) -> ~ In name first_page ->
      create_model_package_group name description s
      = (Sdk.Raise (Sdk.ClientError "ValidationException"), s)).
Proof.
  intros notice first_page. split; [| split].
  - intros Hfit.
    assert (Hpage : firstn (page_size s) (matching name s) = matching name s)
      by (apply firstn_all2; lia).
    destruct (existsb (String.eqb name) (map fst (entries s))) eqn:Hex.
    + exists (Some notice), s.
      assert (Hcall : forall d, create_model_package_group name d s
                                = (Sdk.Ok (Some notice), s)).
      { intros d. rewrite create_model_package_group_call, Hpage.
        unfold matching. rewrite existsb_matching, Hex. reflexivity. }
      apply existsb_eqb_in in Hex.
      split; [apply Hcall |]. split; [split; [discriminate | tauto] |].
      split; [reflexivity |]. split; [tauto | apply Hcall].
    + exists None, (Registry (page_size s)
                             (entries s ++ [(name, description)])%list).
      split.
      { rewrite create_model_package_group_call, Hpage.
        unfold matching. rewrite existsb_matching, Hex. reflexivity. }
      assert (Hnot : ~ In name (map fst (entries s))).
      { intros Hin. apply existsb_eqb_in in Hin. rewrite Hin in Hex.
        discriminate Hex. }
      split; [tauto |]. split; [tauto |]. split; [reflexivity |].
      rewrite create_model_package_group_call.
      unfold matching. cbn [page_size entries].
      rewrite map_app, List.filter_app. cbn [map fst List.filter].
      rewrite is_infix_refl.
      rewrite firstn_all2.
      * rewrite existsb_app. cbn [existsb]. rewrite String.eqb_refl.
        rewrite orb_true_r. reflexivity.
      * rewrite length_app. cbn [length]. unfold matching in Hfit. lia.
  - intros Hin. rewrite create_model_package_group_call.
    apply existsb_eqb_in in Hin. fold first_page. rewrite Hin. reflexivity.
  - intros Hin Hnot. rewrite create_model_package_group_call.
    fold first_page.
    destruct (existsb (String.eqb name) first_page) eqn:E.
    + apply existsb_eqb_in in E. contradiction.
    + apply existsb_eqb_in in Hin. rewrite Hin. reflexivity.
Qed.

Lemma create_model_package_group_reads_one_page_witness :
  create_model_package_group "house-prices" "Models"
    (Registry 1 [("house-prices-v2"%string, "newer"%string);
                 ("house-prices"%string, "older"%string)])
  = (Sdk.Raise (Sdk.ClientError "ValidationException"),
     Registry 1 [("house-prices-v2"%string, "newer"%string);
                 ("house-prices"%string, "older"%string)]).
Proof.
  refine (proj2 (proj2 (create_model_package_group_reads_one_page
                          (Registry 1 [("house-prices-v2"%string,
                                        "newer"%string);
                                       ("house-prices"%string,
                                        "older"%string)])
                          "house-prices" "Models" "Models")) _ _).
  - right. left. reflexivity.
  - cbn. intros [Hc | []]. discriminate Hc.
Defined.

Section MetricsFacts.
Context {S V : Type} `{TrainingClient S V}.

Lemma add_metric_unbound (problem_type : string)
      (metrics : list (string * V)) :
  fold_left (add_metric problem_type) metrics None = None.
Proof. induction metrics as [| m metrics IH]; [reflexivity | exact IH]. Qed.

Lemma add_metric_known (problem_type top_key : string)
      (metrics : list (string * V)) (entries : Dict.dict (V * string)) :
  problem_type = "regression"%string
  \/ problem_type = "classification"%string ->
  fold_left (add_metric problem_type) metrics (Some (top_key, entries))
  = Some (top_key,
          fold_left (fun acc m => Dict.set (fst m) (snd m, "NaN"%string) acc)
                    metrics entries).
Proof.
  intros Hpt. revert entries.
  induction metrics as [| m metrics IH]; intros entries; [reflexivity |].
  cbn [fold_left]. rewrite <- IH. f_equal.
  destruct Hpt as [-> | ->]; reflexivity.
Qed.

Lemma dict_get_app (d e : Dict.dict V) (k : string) :
  Dict.get k (d ++ e)%list
  = match Dict.get k d with Some v => Some v | None => Dict.get k e end.
Proof.
  induction d as [| [k' v'] d IH]; [reflexivity |].
  cbn [app Dict.get]. destruct (String.eqb k' k); [reflexivity | exact IH].
Qed.

Lemma report_entries (metrics : list (string * V))
      (entries : Dict.dict (V * string)) (name : string) :
  Dict.get name
    (fold_left (fun acc m => Dict.set (fst m) (snd m, "NaN"%string) acc)
               metrics entries)
  = match Dict.get name (rev metrics) with
    | Some v => Some (v, "NaN"%string)
    | None => Dict.get name entries
    end.
Proof.
  revert entries. induction metrics as [| [n v] metrics IH]; intros entries;
    [reflexivity |].
  cbn [fold_left rev fst snd]. rewrite IH, dict_get_app.
  destruct (Dict.get name (rev metrics)); [reflexivity |].
  cbn [Dict.get]. destruct (String.eqb n name) eqn:E.
  - apply String.eqb_eq in E. subst n. apply dict_get_set_eq.
  - apply String.eqb_neq in E. apply dict_get_set_ne. congruence.
Qed.

Lemma report_keys (metrics : list (string * V))
      (entries : Dict.dict (V * string)) :
  List.NoDup (Dict.keys entries) ->
  List.NoDup
    (Dict.keys
       (fold_left (fun acc m => Dict.set (fst m) (snd m, "NaN"%string) acc)
                  metrics entries)).
Proof.
  revert entries. induction metrics as [| m metrics IH]; intros entries Hnd;
    [exact Hnd |].
  cbn [fold_left]. apply IH, dict_nodup_set, Hnd.
Qed.

(** X13: with a problem type other than regression and classification,
    [create_training_job_metrics] still describes the training job and
    empties the local metrics file, then raises [UnboundLocalError]:
    nothing is written to the file and nothing is uploaded. *)
Theorem training_metrics_unknown_problem_type
  (s3_prefix bucket problem_type : string) (s : S) :
  problem_type <> "regression"%string ->
  problem_type <> "classification"%string ->
  create_training_job_metrics s3_prefix bucket problem_type s
  = match describe_training_job s with
    | (Sdk.Ok _, s1) =>
        (Exc UnboundLocalError, [FileOpened "training_metrics.json"], s1)
    | (Sdk.Raise e, s1) => (Exc (ServiceError e), [], s1)
    end.
Proof.
  intros Hr Hc. unfold create_training_job_metrics, initial_report.
  apply String.eqb_neq in Hr, Hc. rewrite Hr, Hc.
  destruct (describe_training_job s) as [[[job metrics] | e] s1];
    [| reflexivity].
  rewrite add_metric_unbound. reflexivity.
Qed.

(** X14: for regression and classification the report has one entry
    per metric name, holding the value of the last metric of that name
    and the standard deviation "NaN", under the key
    [<problem_type>_metrics]; the file is uploaded under
    [<s3_prefix>/training_jobs/<job>/training_metrics.json] and the URI
    returned is that key in the bucket. *)
Theorem training_metrics_report
  (s3_prefix bucket problem_type job : string)
  (metrics : list (string * V)) (s s1 s2 : S) :
  problem_type = "regression"%string
  \/ problem_type = "classification"%string ->
  describe_training_job s = (Sdk.Ok (job, metrics), s1) ->
  upload_file "training_metrics.json" bucket
    (s3_prefix ++ "/training_jobs/" ++ job ++ "/training_metrics.json") s1
  = (Sdk.Ok tt, s2) ->
  exists entries,
    create_training_job_metrics s3_prefix bucket problem_type s
    = (Ret ("application/json"%string,
            ("s3://" ++ bucket ++ "/" ++ s3_prefix ++ "/training_jobs/"
             ++ job ++ "/training_metrics.json")%string),
       [FileOpened "training_metrics.json";
        FileDumped "training_metrics.json"
                   (problem_type ++ "_metrics")%string entries],
       s2)
    /\ List.NoDup (Dict.keys entries)
    /\ (forall name,
          Dict.get name entries
          = match Dict.get name (rev metrics) with
            | Some v => Some (v, "NaN"%string)
            | None => None
            end).
Proof.
  intros Hpt Hdesc Hup.
  exists (fold_left (fun acc m => Dict.set (fst m) (snd m, "NaN"%string) acc)
                    metrics []).
  split; [| split].
  - unfold create_training_job_metrics. rewrite Hdesc.
    assert (Hinit : initial_report problem_type
                    = Some ((problem_type ++ "_metrics")%string,
                            @nil (string * (V * string)))).
    { destruct Hpt as [-> | ->]; reflexivity. }
    rewrite Hinit, (add_metric_known _ _ _ _ Hpt). cbv zeta.
    rewrite Hup. reflexivity.
  - apply report_keys. constructor.
  - intros name. rewrite report_entries. reflexivity.
Qed.

End MetricsFacts.

Lemma training_metrics_unknown_problem_type_witness :
  create_training_job_metrics "housing" "bucket" "ranking"
    (Training "job-1" [("validation:rmse"%string, 3%Z)] [])
  = (Exc UnboundLocalError, [FileOpened "training_metrics.json"],
     Training "job-1" [("validation:rmse"%string, 3%Z)] []).
Proof.
  exact (training_metrics_unknown_problem_type
           "housing" "bucket" "ranking"
           (Training "job-1" [("validation:rmse"%string, 3%Z)] [])
           ltac:(discriminate) ltac:(discriminate)).
Defined.

Lemma training_metrics_report_witness :
  exists entries,
    create_training_job_metrics "housing" "bucket" "regression"
      (Training "job-1"
         [("validation:rmse"%string, 3%Z); ("validation:rmse"%string, 2%Z)] [])
    = (Ret ("application/json"%string,
            "s3://bucket/housing/training_jobs/job-1/training_metrics.json"%string),
       [FileOpened "training_metrics.json";
        FileDumped "training_metrics.json" "regression_metrics" entries],
       Training "job-1"
         [("validation:rmse"%string, 3%Z); ("validation:rmse"%string, 2%Z)]
         [("bucket"%string,
           "housing/training_jobs/job-1/training_metrics.json"%string,
           "training_metrics.json"%string)])
    /\ List.NoDup (Dict.keys entries)
    /\ (forall name,
          Dict.get name entries
          = match Dict.get name
                    (rev [("validation:rmse"%string, 3%Z);
                          ("validation:rmse"%string, 2%Z)]) with
            | Some v => Some (v, "NaN"%string)
            | None => None
            end).
Proof.
  apply (training_metrics_report "housing" "bucket" "regression" "job-1"
           [("validation:rmse"%string, 3%Z); ("validation:rmse"%string, 2%Z)]
           (Training "job-1"
              [("validation:rmse"%string, 3%Z);
               ("validation:rmse"%string, 2%Z)] [])
           (Training "job-1"
              [("validation:rmse"%string, 3%Z);
               ("validation:rmse"%string, 2%Z)] [])
           (Training "job-1"
              [("validation:rmse"%string, 3%Z);
               ("validation:rmse"%string, 2%Z)]
              [("bucket"%string,
                "housing/training_jobs/job-1/training_metrics.json"%string,
                "training_metrics.json"%string)])).
  - left. reflexivity.
  - reflexivity.
  - reflexivity.
Defined.

(** ** The lineage loops *)

(** X15: a lineage loop without a handler gives the source URIs of all
    vertices, the same list the guarded loop builds, exactly when no
    vertex fails to convert; otherwise it raises the exception of the
    first vertex that fails. *)
Theorem lineage_uris_first_failure (vertices : list Iam.vertex) :
  match Lineage.lineage_uris vertices with
  | Sdk.Ok uris =>
      Forall (fun v => exists uri, Iam.vertex_source_uri v = Sdk.Ok uri)
             vertices
      /\ uris = Iam.lineage_artifacts vertices
      /\ length uris = length vertices
  | Sdk.Raise e =>
      exists before v after,
        vertices = (before ++ v :: after)%list
        /\ Forall (fun v => exists uri, Iam.vertex_source_uri v = Sdk.Ok uri)
                  before
        /\ Iam.vertex_source_uri v = Sdk.Raise e
  end.
Proof.
  induction vertices as [| v vs IH]; [repeat constructor |].
  cbn [Lineage.lineage_uris Iam.lineage_artifacts].
  destruct (Iam.vertex_source_uri v) as [uri | e] eqn:Hv.
  - destruct (Lineage.lineage_uris vs) as [uris | e].
    + destruct IH as (Hall & -> & Hlen). split; [| split].
      * constructor; [exists uri; exact Hv | exact Hall].
      * reflexivity.
      * cbn [length]. rewrite Hlen. reflexivity.
    + destruct IH as (before & w & after & -> & Hall & Hw).
      exists (v :: before), w, after. split; [reflexivity |].
      split; [| exact Hw].
      constructor; [exists uri; exact Hv | exact Hall].
  - exists [], v, vs. split; [reflexivity |]. split; [constructor | exact Hv].
Qed.

(** ** The IAM role of the Lambda function, again *)

(** X16: on the IAM model with write access, [create_lambda_iam_role]
    returns the Arn of the role and can be repeated: a second call
    returns the same Arn and changes nothing.  A role that exists is
    returned as it is, without attaching any policy; a role that does
    not exist is created with the two managed policies attached, and no
    other role is touched. *)
Theorem create_lambda_iam_role_idempotent (s : iam_state) (name : string) :
  may_write s = true ->
  exists arn s1,
    create_lambda_iam_role name s = (Ok arn, s1)
    /\ create_lambda_iam_role name s1 = (Ok arn, s1)
    /\ roles s1 !! name = Some arn
    /\ match roles s !! name with
       | Some arn0 => arn = arn0 /\ s1 = s
       | None =>
           arn = role_arn_of name
           /\ attached s1 !! name
              = Some [sagemaker_full_access_policy; basic_execution_policy]
           /\ (forall other, other <> name ->
                 roles s1 !! other = roles s !! other
                 /\ attached s1 !! other = attached s !! other)
       end.
Proof.
  intros Hw.
  assert (Hexists : forall (t : iam_state) (arn0 : string),
             may_write t = true -> roles t !! name = Some arn0 ->
             create_lambda_iam_role name t = (Ok arn0, t)).
  { intros t arn0 Ht Hr. unfold create_lambda_iam_role, catch, bind.
    cbn [create_role get_role iam_model].
    unfold model_create_role, model_get_role. rewrite Ht, Hr. cbn [negb].
    rewrite Hr. reflexivity. }
  destruct (roles s !! name) as [arn0 |] eqn:Hr.
  - exists arn0, s. rewrite (Hexists s arn0 Hw Hr). repeat split; assumption.
  - set (s1 := IamState
                 (<[name := role_arn_of name]> (roles s))
                 (<[name := [sagemaker_full_access_policy;
                             basic_execution_policy]]>
                    (<[name := [basic_execution_policy]]>
                       (<[name := []]> (attached s))))
                 true).
    assert (Hr1 : roles s1 !! name = Some (role_arn_of name))
      by apply lookup_insert_eq.
    exists (role_arn_of name), s1. split; [| split; [| split]].
    + unfold create_lambda_iam_role, catch, bind.
      cbn [create_role attach_role_policy iam_model].
      unfold model_create_role, model_attach_role_policy.
      rewrite Hw, Hr.
      repeat first [ rewrite lookup_insert_eq
                   | progress cbn [negb may_write attached roles] ].
      reflexivity.
    + apply Hexists; [reflexivity | exact Hr1].
    + exact Hr1.
    + split; [reflexivity |]. split; [apply lookup_insert_eq |].
      intros other Hne. cbn [s1 roles attached].
      rewrite !lookup_insert_ne by congruence. split; reflexivity.
Qed.

Lemma create_lambda_iam_role_idempotent_witness :
  exists arn s1,
    create_lambda_iam_role "lambda-deployment-role" Inputs.iam_with_role
    = (Ok arn, s1)
    /\ create_lambda_iam_role "lambda-deployment-role" s1 = (Ok arn, s1)
    /\ roles s1 !! "lambda-deployment-role"%string = Some arn.
Proof.
  destruct (create_lambda_iam_role_idempotent
              Inputs.iam_with_role "lambda-deployment-role" eq_refl)
    as (arn & s1 & H1 & H2 & H3 & _).
  exists arn, s1. repeat split; assumption.
Defined.

(** ** Cleanup while an execution is in progress *)

Lemma schedule_eta (sc : schedule) :
  sched_executing sc = true ->
  sc = Schedule (sched_endpoint sc) (sched_status sc) true.
Proof. destruct sc as [ep st ex]. cbn. intros ->. reflexivity. Qed.

Lemma stop_and_delete_busy (l : list string) (p : platform) :
  List.NoDup l ->
  (forall n, In n l -> exists sc, schedules p !! n = Some sc) ->
  (exists n sc, In n l /\ schedules p !! n = Some sc
                /\ sched_executing sc = true) ->
  exists p',
    stop_and_delete l p = (Raise (ClientError "ValidationException"), p')
    /\ packages p' = packages p
    /\ (forall n, ~ In n l -> schedules p' !! n = schedules p !! n)
    /\ (forall n sc, In n l -> schedules p !! n = Some sc ->
                     sched_executing sc = true ->
                     exists st,
                       schedules p' !! n
                       = Some (Schedule (sched_endpoint sc) st true)).
Proof.
  revert p. induction l as [| m l IH]; intros p Hnd Hall Hbusy.
  - destruct Hbusy as (n & sc & [] & _).
  - inversion Hnd as [| ? ? Hnotin Hnd']; subst.
    destruct (Hall m (or_introl eq_refl)) as (scm & Hm).
    destruct (sched_executing scm) eqn:Hex.
    + pose proof (stop_then_delete_busy m scm p Hm Hex) as Hstep.
      eexists. split; [| split; [| split]].
      * cbn [stop_and_delete]. unfold bind in *.
        destruct (stop_monitoring_schedule m p) as [[[] | e] q].
        -- rewrite Hstep. reflexivity.
        -- exact Hstep.
      * reflexivity.
      * intros n Hn. cbn [schedules]. apply lookup_insert_ne.
        intros ->. apply Hn. left. reflexivity.
      * intros n sc Hin Hsc Hb. cbn [schedules].
        destruct (string_dec m n) as [-> | Hne].
        -- rewrite lookup_insert_eq. exists Stopped.
           assert (Heq : Some scm = Some sc)
             by (etransitivity; [symmetry; exact Hm | exact Hsc]).
           injection Heq as ->. reflexivity.
        -- rewrite lookup_insert_ne by exact Hne.
           exists (sched_status sc). rewrite Hsc. f_equal.
           apply schedule_eta, Hb.
    + pose proof (stop_then_delete_idle m scm p Hm Hex) as Hstep.
      set (p1 := MkPlatform (packages p) (delete m (schedules p))) in *.
      assert (Hkeep : forall n, In n l ->
                        schedules p1 !! n = schedules p !! n).
      { intros n Hn. cbn [p1 schedules]. apply lookup_delete_ne.
        intros ->. contradiction. }
      destruct (IH p1 Hnd') as (p' & Hrun & Hpk & Hout & Hin').
      { intros n Hn. rewrite (Hkeep n Hn). apply Hall. right. exact Hn. }
      { destruct Hbusy as (n & sc & [-> | Hn] & Hsc & Hb).
        - assert (Heq : Some scm = Some sc)
            by (etransitivity; [symmetry; exact Hm | exact Hsc]).
          injection Heq as ->. rewrite Hb in Hex. discriminate Hex.
        - exists n, sc. split; [exact Hn |]. split; [| exact Hb].
          rewrite (Hkeep n Hn). exact Hsc. }
      exists p'. split; [| split; [| split]].
      * cbn [stop_and_delete]. unfold bind in *.
        destruct (stop_monitoring_schedule m p) as [[[] | e] q];
          [| discriminate Hstep].
        rewrite Hstep. exact Hrun.
      * rewrite Hpk. reflexivity.
      * intros n Hn. rewrite Hout by (intros Hc; apply Hn; right; exact Hc).
        cbn [p1 schedules]. apply lookup_delete_ne.
        intros ->. apply Hn. left. reflexivity.
      * intros n sc [-> | Hn] Hsc Hb.
        -- assert (Heq : Some scm = Some sc)
             by (etransitivity; [symmetry; exact Hm | exact Hsc]).
           injection Heq as ->. rewrite Hb in Hex. discriminate Hex.
        -- apply Hin'; [exact Hn | | exact Hb].
           rewrite (Hkeep n Hn). exact Hsc.
Qed.

(** X17: when a monitoring schedule of the endpoint has an execution in
    progress, the cleanup cell ends in the service's refusal
    ([ValidationException]).  No schedule with an execution in progress
    is deleted, on this endpoint or elsewhere; the schedules of other
    endpoints and the model packages stay as they were. *)
Theorem cleanup_cell_refused_while_executing
  (p : platform) (endpoint busy : string) (scb : schedule) :
  schedules p !! busy = Some scb ->
  sched_endpoint scb = endpoint ->
  sched_executing scb = true ->
  exists p',
    cleanup_cell endpoint p
    = (Raise (ClientError "ValidationException"), p')
    /\ packages p' = packages p
    /\ (forall n sc, schedules p !! n = Some sc ->
                     sched_endpoint sc <> endpoint ->
                     schedules p' !! n = Some sc)
    /\ (forall n sc, schedules p !! n = Some sc ->
                     sched_executing sc = true ->
                     exists st,
                       schedules p' !! n
                       = Some (Schedule (sched_endpoint sc) st true)).
Proof.
  intros Hb Hep Hex. unfold cleanup_cell, bind.
  cbn [list_monitors platform_model]. unfold model_list_monitors.
  set (l := map fst (List.filter (watches endpoint)
                       (map_to_list (schedules p)))).
  destruct (stop_and_delete_busy l p) as (p' & Hrun & Hpk & Hout & Hin).
  - apply NoDup_filter_fst. apply NoDup_ListNoDup.
    apply (NoDup_fst_map_to_list (schedules p)).
  - intros n Hn. apply in_list_monitors in Hn as (sc & Hsc & _).
    exists sc. exact Hsc.
  - exists busy, scb. split; [| split; assumption].
    apply in_list_monitors. exists scb. split; assumption.
  - exists p'. split; [exact Hrun |]. split; [exact Hpk |]. split.
    + intros n sc Hsc Hne. rewrite Hout; [exact Hsc |].
      intros Hn. apply in_list_monitors in Hn as (sc' & Hsc' & Hep').
      assert (Heq : Some sc' = Some sc)
        by (etransitivity; [symmetry; exact Hsc' | exact Hsc]).
      injection Heq as ->. contradiction.
    + intros n sc Hsc Hbusy.
      destruct (String.eqb_spec (sched_endpoint sc) endpoint) as [He | Hne].
      * apply Hin; [| exact Hsc | exact Hbusy].
        apply in_list_monitors. exists sc. split; assumption.
      * exists (sched_status sc). rewrite Hout.
        -- rewrite Hsc. f_equal. apply schedule_eta, Hbusy.
        -- intros Hn. apply in_list_monitors in Hn as (sc' & Hsc' & Hep').
           assert (Heq : Some sc' = Some sc)
             by (etransitivity; [symmetry; exact Hsc' | exact Hsc]).
           injection Heq as ->. contradiction.
Qed.

Lemma cleanup_cell_refused_while_executing_witness :
  exists p',
    cleanup_cell "endpoint" MoreInputs.platform_busy
    = (Raise (ClientError "ValidationException"), p')
    /\ schedules p' !! "other"%string
       = Some (Schedule "elsewhere" Scheduled false).
Proof.
  destruct (cleanup_cell_refused_while_executing
              MoreInputs.platform_busy "endpoint" "model-quality"
              (Schedule "endpoint" Scheduled true)
              eq_refl eq_refl eq_refl)
    as (p' & Hrun & _ & Hother & _).
  exists p'. split; [exact Hrun |].
  apply Hother; [reflexivity | discriminate].
Defined.

(** ** Waiting for an endpoint that never comes into service *)

Lemma wait_in_service_stuck {S : Type} `{EndpointClient S}
      (status : string) (s : S) (fuel : nat) :
  status <> "InService"%string -> status <> "None"%string ->
  describe_endpoint s = (Ok status, s) ->
  wait_in_service fuel status s = (None, repeat 120%nat fuel, s).
Proof.
  intros Hin Hnone Hdesc.
  apply String.eqb_neq in Hin, Hnone.
  induction fuel as [| fuel IH]; [reflexivity |].
  cbn [wait_in_service]. rewrite Hin, Hdesc, IH.
  unfold sleeps_before. rewrite Hnone. reflexivity.
Qed.

(** X18: the wait for the endpoint has no bound and no exit but
    [InService]: while the service keeps reporting another status, such
    as [Failed], the loop is still turning after any number of turns,
    and has slept 120 seconds for every turn but the first. *)
Theorem wait_in_service_never_gives_up {S : Type} `{EndpointClient S}
  (status : string) (s : S) (turns : nat) :
  status <> "InService"%string -> status <> "None"%string ->
  describe_endpoint s = (Ok status, s) ->
  wait_in_service (Datatypes.S turns) "None" s
  = (None, repeat 120%nat turns, s).
Proof.
  intros Hin Hnone Hdesc. cbn [wait_in_service].
  change (String.eqb "None" "InService") with false. cbv iota.
  rewrite Hdesc, (wait_in_service_stuck status s turns Hin Hnone Hdesc).
  reflexivity.
Qed.

Lemma wait_in_service_never_gives_up_witness :
  wait_in_service 31 "None" ["Failed"%string]
  = (None, repeat 120%nat 30, ["Failed"%string]).
Proof.
  apply (wait_in_service_never_gives_up "Failed" ["Failed"%string] 30).
  - discriminate.
  - discriminate.
  - reflexivity.
Defined.

(** ** [process] and the label column *)

(** X19: when [y] is the only column whose name starts with a y,
    [process] succeeds exactly when the frame has the columns [pdays]
    and [job] and a categorical column [y] in which both "yes" and "no"
    occur; a label column with one value only, or a numeric one, ends
    the script in a [KeyError]. *)
Theorem process_needs_both_labels (df : frame) (perm : list nat) :
  List.NoDup (names df) ->
  (forall rest, In (String "y" rest) (names df) -> rest = EmptyString) ->
  process perm df <> None
  <-> In "pdays"%string (names df) /\ In "job"%string (names df)
      /\ exists ys, In ("y"%string, ObjCol ys) df
                    /\ In "yes"%string ys /\ In "no"%string ys.
Proof.
  intros Hnd Honly. split.
  - unfold process. intros Hproc.
    destruct (encode df) as [enc |] eqn:Henc; [| contradiction].
    destruct (label_first enc) as [lf |] eqn:Hlf; [| contradiction].
    destruct (encode_unfold df enc Hnd Henc)
      as (pdays & job & Hlp & Hlj & ->).
    destruct (label_first_unfold _ lf Hlf) as (Hyes & Hno & _).
    apply (enc_y_label df pdays job Honly "yes") in Hyes as (ys & Hy & Hyes).
    apply (enc_y_label df pdays job Honly "no") in Hno as (ys' & Hy' & Hno).
    assert (Heq : ObjCol ys = ObjCol ys')
      by (apply (column_unique df "y"); assumption).
    injection Heq as <-.
    split; [apply (in_map fst _ _ (col_lookup_in _ _ _ Hlp)) |].
    split; [apply (in_map fst _ _ (col_lookup_in _ _ _ Hlj)) |].
    exists ys. repeat split; assumption.
  - intros (Hp & Hj & ys & Hy & Hyes & Hno).
    destruct (encode_succeeds df Hp Hj) as (enc & Henc).
    destruct (encode_unfold df enc Hnd Henc)
      as (pdays & job & Hlp & Hlj & Heq).
    assert (Hyrm : ~ In "y"%string toremove).
    { intros [H | [H | [H | [H | [H | []]]]]]; discriminate H. }
    assert (Hynew : ~ In "y"%string new_columns).
    { intros [H | [H | []]]; discriminate H. }
    pose proof (enc_one_hot df pdays job "y" "yes" ys Hy Hyrm Hynew Hyes)
      as Hyy.
    pose proof (enc_one_hot df pdays job "y" "no" ys Hy Hyrm Hynew Hno)
      as Hyn.
    rewrite <- Heq in Hyy, Hyn.
    destruct (label_first_succeeds enc) as (lf & Hlf).
    { apply in_map_iff. eexists. split; [| exact Hyy]. reflexivity. }
    { apply in_map_iff. eexists. split; [| exact Hyn]. reflexivity. }
    unfold process. rewrite Henc, Hlf. discriminate.
Qed.

Lemma process_needs_both_labels_witness :
  process [1%nat; 0%nat] MoreInputs.bank_all_no = None.
Proof.
  destruct (process [1%nat; 0%nat] MoreInputs.bank_all_no) as [out |] eqn:E;
    [| reflexivity].
  exfalso.
  assert (Hsome : process [1%nat; 0%nat] MoreInputs.bank_all_no <> None)
    by (rewrite E; discriminate).
  apply (process_needs_both_labels MoreInputs.bank_all_no [1%nat; 0%nat])
    in Hsome.
  - destruct Hsome as (_ & _ & ys & Hy & Hyes & _).
    cbn in Hy.
    destruct Hy as [Hy | [Hy | [Hy | [Hy | []]]]]; try discriminate Hy.
    injection Hy as <-.
    destruct Hyes as [H | [H | []]]; discriminate H.
  - repeat constructor; cbn; intuition discriminate.
  - intros rest Hin. cbn in Hin.
    destruct Hin as [Hc | [Hc | [Hc | [Hc | []]]]]; try discriminate Hc.
    inversion Hc. reflexivity.
Defined.

(** ** Which of the three files are empty *)

(** X20: the test file is empty only for an empty frame, the training
    file only for a frame of at most one row, and the validation file
    only for a frame of at most three rows. *)
Theorem split_parts_nonempty (df : frame) :
  Z.of_nat (nrows df) < 2 ^ 48 ->
  let '(train, validation, test) :=
    np_split df (split_at_07 (nrows df)) (split_at_085 (nrows df)) in
  (nrows train = 0%nat <-> (nrows df <= 1)%nat)
  /\ (nrows validation = 0%nat <-> (nrows df <= 3)%nat)
  /\ (nrows test = 0%nat <-> nrows df = 0%nat).
Proof.
  intros Hn.
  assert (Hord := split_points_ordered (nrows df)
                    ltac:(change (2 ^ 48) with 281474976710656 in Hn;
                          change (2 ^ 53) with 9007199254740992; lia)).
  pose proof (np_split_partition df _ _ Hord) as Hp.
  destruct (np_split df (split_at_07 (nrows df)) (split_at_085 (nrows df)))
    as [[train validation] test].
  destruct Hp as (_ & -> & -> & ->).
  pose proof (split_at_07_bounds _ Hn) as H7.
  pose proof (split_at_085_bounds _ Hn) as H85.
  assert (Hsmall : (nrows df <= 6)%nat ->
                   (split_at_085 (nrows df) - split_at_07 (nrows df) = 0)%nat
                   <-> (nrows df <= 3)%nat).
  { intros Hle.
    destruct (nrows df) as [| [| [| [| [| [| [| k]]]]]]]; try lia;
      vm_compute; lia. }
  split; [lia |]. split; [| lia].
  destruct (Nat.le_gt_cases (nrows df) 6) as [Hle | Hgt];
    [apply Hsmall, Hle | lia].
Qed.

Lemma split_parts_nonempty_witness :
  let '(train, validation, test) :=
    np_split Inputs.frame_90 (split_at_07 90) (split_at_085 90) in
  nrows train <> 0%nat /\ nrows validation <> 0%nat /\ nrows test <> 0%nat.
Proof.
  pose proof (split_parts_nonempty Inputs.frame_90) as Hspec.
  change (nrows Inputs.frame_90) with 90%nat in Hspec.
  destruct (np_split Inputs.frame_90 (split_at_07 90) (split_at_085 90))
    as [[train validation] test].
  destruct Hspec as (Ht & Hv & Hte); [reflexivity |].
  repeat split; intros H0.
  - apply Ht in H0. lia.
  - apply Hv in H0. lia.
  - apply Hte in H0. discriminate H0.
Defined.

(** ** Where the ground truth is uploaded *)

Import Times.

Lemma string_app_inv_head (p a b : string) :
  (p ++ a = p ++ b)%string -> a = b.
Proof.
  induction p as [| c p IH]; cbn; [tauto |].
  intros Heq. injection Heq as Heq. apply IH, Heq.
Qed.

Lemma string_app_inv_length (a a' b b' : string) :
  String.length a = String.length a' ->
  (a ++ b = a' ++ b')%string -> a = a' /\ b = b'.
Proof.
  revert a'. induction a as [| c a IH]; intros [| c' a'] Hlen;
    try discriminate Hlen; cbn.
  - tauto.
  - intros Heq. injection Heq as -> Heq. injection Hlen as Hlen.
    destruct (IH a' Hlen Heq) as [-> ->]. split; reflexivity.
Qed.

Lemma string_length_app (a b : string) :
  String.length (a ++ b) = (String.length a + String.length b)%nat.
Proof.
  induction a as [| c a IH]; [reflexivity |].
  cbn. rewrite IH. reflexivity.
Qed.

Lemma string_app_inv_tail (a a' s : string) :
  String.length a = String.length a' ->
  (a ++ s = a' ++ s)%string -> a = a'.
Proof. intros Hlen Heq. apply (string_app_inv_length a a' s s Hlen Heq). Qed.

Lemma pad2_length (n : nat) :
  (n < 100)%nat -> String.length (Py.pad2 n) = 2%nat.
Proof.
  intros Hn.
  assert (Hall : forallb (fun k => String.length (Py.pad2 k) =? 2)%nat
                         (seq 0 100) = true) by (vm_compute; reflexivity).
  rewrite forallb_forall in Hall.
  apply Nat.eqb_eq, Hall, in_seq. lia.
Qed.

Lemma pad2_inj (n m : nat) :
  (n < 100)%nat -> (m < 100)%nat -> Py.pad2 n = Py.pad2 m -> n = m.
Proof.
  intros Hn Hm Heq.
  assert (Hall : forallb
                   (fun k =>
                      forallb (fun j =>
                                 implb (String.eqb (Py.pad2 k) (Py.pad2 j))
                                       (k =? j)%nat)
                              (seq 0 100))
                   (seq 0 100) = true) by (vm_compute; reflexivity).
  rewrite forallb_forall in Hall.
  specialize (Hall n ltac:(apply in_seq; lia)).
  rewrite forallb_forall in Hall.
  specialize (Hall m ltac:(apply in_seq; lia)).
  apply String.eqb_eq in Heq. rewrite Heq in Hall.
  apply Nat.eqb_eq. exact Hall.
Qed.

Lemma year_length (y : nat) :
  1000 <= Z.of_nat y <= 9999 ->
  String.length (Py.str_int (Z.of_nat y)) = 4%nat.
Proof.
  intros Hy.
  assert (Hall : forallb
                   (fun k => String.length
                               (Py.str_int (1000 + Z.of_nat k)) =? 4)%nat
                   (seq 0 (90 * 100)) = true) by (vm_compute; reflexivity).
  rewrite forallb_forall in Hall.
  specialize (Hall (y - 1000)%nat ltac:(apply in_seq; lia)).
  apply Nat.eqb_eq in Hall.
  replace (1000 + Z.of_nat (y - 1000)) with (Z.of_nat y) in Hall by lia.
  exact Hall.
Qed.

Lemma upload_uri
      (rng : Type) (seed : Z -> rng) (random : rng -> Z * rng)
      (path : string) (t : datetime) (g : rng) :
  put_uri (fst (upload_ground_truth rng seed random path t g))
  = (path ++ "/" ++ strftime_path t ++ ".jsonl")%string.
Proof.
  unfold upload_ground_truth.
  destruct (records_for rng seed random range_180 g) as [records g1].
  reflexivity.
Qed.

Lemma strftime_path_inj (t1 t2 : datetime) :
  valid_time t1 -> valid_time t2 ->
  strftime_path t1 = strftime_path t2 -> t1 = t2.
Proof.
  intros (Hy1 & Hm1 & Hd1 & Hh1 & Hmi1 & Hs1)
         (Hy2 & Hm2 & Hd2 & Hh2 & Hmi2 & Hs2).
  destruct t1 as [y1 m1 d1 h1 mi1 s1], t2 as [y2 m2 d2 h2 mi2 s2].
  cbn [year month day hour minute second] in *.
  unfold strftime_path. cbn [year month day hour minute second].
  intros Heq.
  apply string_app_inv_length in Heq as [Hy Heq];
    [| rewrite !year_length by assumption; reflexivity].
  apply str_int_inj, Nat2Z.inj in Hy.
  cbn in Heq. injection Heq as Heq.
  apply string_app_inv_length in Heq as [Hm Heq];
    [| rewrite !pad2_length by lia; reflexivity].
  apply pad2_inj in Hm; [| lia | lia].
  cbn in Heq. injection Heq as Heq.
  apply string_app_inv_length in Heq as [Hd Heq];
    [| rewrite !pad2_length by lia; reflexivity].
  apply pad2_inj in Hd; [| lia | lia].
  cbn in Heq. injection Heq as Heq.
  apply string_app_inv_length in Heq as [Hh Heq];
    [| rewrite !pad2_length by lia; reflexivity].
  apply pad2_inj in Hh; [| lia | lia].
  cbn in Heq. injection Heq as Heq.
  apply string_app_inv_length in Heq as [Hmi Hs];
    [| rewrite !pad2_length by lia; reflexivity].
  apply pad2_inj in Hmi; [| lia | lia].
  apply pad2_inj in Hs; [| lia | lia].
  subst. reflexivity.
Qed.

(** X21: the object key of an upload is the upload path, the folder of
    the hour of the upload time, and the minute and second, with the
    suffix [.jsonl]; uploads at two different times never share a key,
    so a later upload does not overwrite an earlier one. *)
Theorem upload_keys_distinct
  (rng : Type) (seed : Z -> rng) (random : rng -> Z * rng) (path : string)
  (t1 t2 : datetime) (g1 g2 : rng) :
  valid_time t1 -> valid_time t2 ->
  put_uri (fst (upload_ground_truth rng seed random path t1 g1))
  = (path ++ "/" ++ hour_folder t1 ++ "/"
     ++ Py.pad2 (minute t1) ++ Py.pad2 (second t1) ++ ".jsonl")%string
  /\ (put_uri (fst (upload_ground_truth rng seed random path t1 g1))
      = put_uri (fst (upload_ground_truth rng seed random path t2 g2))
      <-> t1 = t2).
Proof.
  intros Hv1 Hv2. rewrite !upload_uri. split.
  - unfold strftime_path, hour_folder.
    rewrite ?append_assoc. cbn [String.append].
    rewrite ?append_assoc. cbn [String.append]. reflexivity.
  - split; [| intros ->; reflexivity].
    intros Heq. apply string_app_inv_head in Heq.
    cbn in Heq. injection Heq as Heq.
    apply strftime_path_inj; [assumption | assumption |].
    apply (string_app_inv_tail _ _ ".jsonl"); [| exact Heq].
    unfold strftime_path.
    destruct Hv1 as (Hy1 & Hm1 & Hd1 & Hh1 & Hmi1 & Hs1).
    destruct Hv2 as (Hy2 & Hm2 & Hd2 & Hh2 & Hmi2 & Hs2).
    rewrite !string_length_app, !year_length, !pad2_length by lia.
    reflexivity.
Qed.

Lemma upload_keys_distinct_witness :
  put_uri (fst (upload_ground_truth Z lcg_seed lcg_random "s3://b/truth"
                  (DateTime 2021 3 9 14 5 7) 0))
  = "s3://b/truth/2021/03/09/14/0507.jsonl"%string.
Proof.
  refine (proj1 (upload_keys_distinct Z lcg_seed lcg_random "s3://b/truth"
                   (DateTime 2021 3 9 14 5 7) (DateTime 2021 3 9 14 5 7)
                   0 0 _ _));
    unfold valid_time; cbn; lia.
Defined.
